(** * event_itam: events, organizers and coworking bookings over PostgreSQL

    A shallow embedding of the repository, service and router layers of the
    application, together with the part of the schema ([persistent/tables.py])
    that the layers rely on, and proofs of the properties stated for them.

    Python values are modelled as follows: [str] as [string], [int] as [Z],
    [float] as the binary64 instance of the Standard Library's IEEE 754
    specification, [Optional[T]] as [option T], [uuid.UUID] as its 128-bit
    value, [datetime] and [date] as records of their components, a raised
    exception as the [Raise] outcome of a state-and-exception monad. *)

From Stdlib Require Import ZArith NArith List String Ascii Bool Lia.
From Stdlib Require Import SpecFloat.
From Stdlib Require Import Sorted Permutation.
Import ListNotations.

Local Open Scope string_scope.
Local Open Scope Z_scope.

(* ================================================================== *)
(** * Python values and built-ins *)
(* ================================================================== *)

Module Py.

(** Exceptions that occur in the modelled code.  The text carried by each
    one is what [str(e)] returns. *)
Inductive exn : Type :=
| IntegrityError (text : string)      (* sqlalchemy.exc.IntegrityError *)
| OperationalError (text : string)    (* any other failure of the driver *)
| OverflowError (text : string)
| ValueError (text : string)
| ZeroDivisionError (text : string)
| EventDuplicateError (text : string) (* services/event_service.py *)
| CoworkingError (text : string)      (* services/coworking_service.py *)
| HTTPException (status_code : Z) (detail : string).

Inductive result (A : Type) : Type :=
| Ok (a : A)
| Raise (e : exn).
Arguments Ok {A} a.
Arguments Raise {A} e.

(** [pat in s] on strings. *)
Fixpoint contains (pat s : string) : bool :=
  if String.prefix pat s then true
  else match s with
       | EmptyString => false
       | String _ s' => contains pat s'
       end.

(** Truthiness of an [Optional[str]]: [None] and the empty string are
    false. *)
Definition truthy (o : option string) : bool :=
  match o with
  | None => false
  | Some EmptyString => false
  | Some (String _ _) => true
  end.

(** ** Decimal and hexadecimal rendering used by [str()] *)

Definition digit_char (n : N) : ascii :=
  if (n <? 10)%N then ascii_of_N (48 + n) else ascii_of_N (87 + n).

(** The [w] least significant digits of [n] in base [b], zero padded. *)
Fixpoint fixed_digits (b : N) (w : nat) (n : N) : string :=
  match w with
  | O => EmptyString
  | S w' => fixed_digits b w' (n / b) ++
            String (digit_char (n mod b)) EmptyString
  end.

Definition dec (w : nat) (z : Z) : string := fixed_digits 10 w (Z.to_N z).
Definition hex (w : nat) (n : N) : string := fixed_digits 16 w n.

(** ** binary64 arithmetic *)

Definition float := spec_float.
Definition prec : Z := 53.
Definition emax : Z := 1024.

(** [float(z)] for an [int]. *)
Definition float_of_int (z : Z) : result float :=
  match binary_normalize prec emax z 0 false with
  | S754_infinity _ => Raise (OverflowError "int too large to convert to float")
  | f => Ok f
  end.

(** [a / b] on two [int]s: the quotient of the two integers rounded once
    to nearest-even, as [long_true_divide] computes it. *)
Definition int_truediv (a b : Z) : result float :=
  let sign z := match z with Zneg _ => true | _ => false end in
  match a, b with
  | _, Z0 => Raise (ZeroDivisionError "division by zero")
  | Z0, _ => Ok (S754_zero (sign b))
  | _, _ =>
      match SFdiv prec emax
              (S754_finite (sign a) (Z.to_pos (Z.abs a)) 0)
              (S754_finite (sign b) (Z.to_pos (Z.abs b)) 0) with
      | S754_infinity _ =>
          Raise (OverflowError "integer division result too large for a float")
      | f => Ok f
      end
  end.

(** [x * n] for a [float] and an [int]: the [int] is converted first. *)
Definition float_mul_int (x : float) (n : Z) : result float :=
  match float_of_int n with
  | Ok y => Ok (SFmul prec emax x y)
  | Raise e => Raise e
  end.

(** [int(x)]: truncation towards zero. *)
Definition int_of_float (x : float) : result Z :=
  match x with
  | S754_zero _ => Ok 0
  | S754_finite s m e =>
      let a := match e with
               | Zneg p => Z.shiftr (Zpos m) (Zpos p)
               | _ => Z.shiftl (Zpos m) e
               end in
      Ok (if s then - a else a)
  | S754_infinity _ =>
      Raise (OverflowError "cannot convert float infinity to integer")
  | S754_nan => Raise (ValueError "cannot convert float NaN to integer")
  end.

(** ** [uuid.UUID], [datetime.datetime] and [datetime.date] *)

Definition UUID := N.

(** [str(u)]: 32 hexadecimal digits in groups of 8-4-4-4-12. *)
Definition str_uuid (u : UUID) : string :=
  (hex 8 (u / 2 ^ 96) ++ "-" ++ hex 4 (u / 2 ^ 80) ++ "-" ++
   hex 4 (u / 2 ^ 64) ++ "-" ++ hex 4 (u / 2 ^ 48) ++ "-" ++ hex 12 u)%N.

(** An aware [datetime] has [utcoffset = Some minutes]; a naive one,
    such as the result of [datetime.now()], has [None]. *)
Record datetime : Type := Build_datetime {
  year : Z; month : Z; day : Z;
  hour : Z; minute : Z; second : Z; microsecond : Z;
  utcoffset : option Z
}.

Record date : Type := Build_date { date_year : Z; date_month : Z; date_day : Z }.

Definition date_eqb (a b : date) : bool :=
  (date_year a =? date_year b) && (date_month a =? date_month b) &&
  (date_day a =? date_day b).

Definition option_eqb {A} (eqb : A -> A -> bool) (a b : option A) : bool :=
  match a, b with
  | None, None => true
  | Some x, Some y => eqb x y
  | _, _ => false
  end.

Definition datetime_eqb (a b : datetime) : bool :=
  (year a =? year b) && (month a =? month b) && (day a =? day b) &&
  (hour a =? hour b) && (minute a =? minute b) && (second a =? second b) &&
  (microsecond a =? microsecond b) &&
  option_eqb Z.eqb (utcoffset a) (utcoffset b).

(** Chronological order on the displayed components. *)
Definition datetime_leb (a b : datetime) : bool :=
  let key d := [year d; month d; day d; hour d; minute d; second d;
                microsecond d] in
  (fix lex (k1 k2 : list Z) : bool :=
     match k1, k2 with
     | x :: k1', y :: k2' =>
         if x <? y then true else if y <? x then false else lex k1' k2'
     | _, _ => true
     end) (key a) (key b).

(** [str(d)], that is [d.isoformat(sep=' ')]. *)
Definition str_datetime (d : datetime) : string :=
  dec 4 (year d) ++ "-" ++ dec 2 (month d) ++ "-" ++ dec 2 (day d) ++ " " ++
  dec 2 (hour d) ++ ":" ++ dec 2 (minute d) ++ ":" ++ dec 2 (second d) ++
  (if microsecond d =? 0 then EmptyString
   else "." ++ dec 6 (microsecond d)) ++
  match utcoffset d with
  | None => EmptyString
  | Some off =>
      (if off <? 0 then "-" else "+") ++
      dec 2 (Z.abs off / 60) ++ ":" ++ dec 2 (Z.abs off mod 60)
  end.

(** [str(e)]. *)
Definition str_exn (e : exn) : string :=
  match e with
  | IntegrityError t | OperationalError t | OverflowError t | ValueError t
  | ZeroDivisionError t | EventDuplicateError t | CoworkingError t => t
  | HTTPException c d => dec 3 c ++ ": " ++ d
  end.

End Py.
Export Py.

(* ================================================================== *)
(** * persistent/tables.py: the schema *)
(* ================================================================== *)

Module Tables.

Record event_row : Type := Build_event_row {
  ev_id : UUID;
  ev_title : string;
  ev_description : string;
  ev_short_description : string;
  ev_start_date : datetime;
  ev_location : string;
  ev_image_path : option string;
  ev_created_at : datetime;
  ev_updated_at : datetime
}.

Record organizer_row : Type := Build_organizer_row {
  org_id : UUID;
  org_name : string;
  org_description : option string;
  org_image_path : option string;
  org_created_at : datetime;
  org_updated_at : datetime
}.

Record event_organizer_row : Type := Build_event_organizer_row {
  eo_event_id : UUID;
  eo_organizer_id : UUID
}.

Record coworking_space_row : Type := Build_coworking_space_row {
  cs_id : UUID;
  cs_name : string;
  cs_description : string;
  cs_location : string;
  cs_image_path : option string;
  cs_created_at : datetime;
  cs_updated_at : datetime
}.

Record coworking_booking_row : Type := Build_coworking_booking_row {
  cb_id : UUID;
  cb_coworking_id : UUID;
  cb_booking_date : date;
  cb_customer_name : string;
  cb_customer_phone : string;
  cb_created_at : datetime;
  cb_updated_at : datetime
}.

Record coworking_occupancy_row : Type := Build_coworking_occupancy_row {
  co_id : UUID;
  co_coworking_id : UUID;
  co_date : date;
  co_occupancy_percentage : Z;
  co_created_at : datetime;
  co_updated_at : datetime
}.

(** The contents of the store, one list of rows per table, in the order
    in which an unordered [select] returns them.  The [event_registration]
    table is written by no operation modelled here and is left out. *)
Record database : Type := Build_database {
  event : list event_row;
  organizer : list organizer_row;
  event_organizer : list event_organizer_row;
  coworking_space : list coworking_space_row;
  coworking_booking : list coworking_booking_row;
  coworking_occupancy : list coworking_occupancy_row
}.

Definition empty_database : database :=
  Build_database [] [] [] [] [] [].

Definition set_event (db : database) (t : list event_row) : database :=
  Build_database t (organizer db) (event_organizer db) (coworking_space db)
    (coworking_booking db) (coworking_occupancy db).
Definition set_organizer (db : database) (t : list organizer_row) : database :=
  Build_database (event db) t (event_organizer db) (coworking_space db)
    (coworking_booking db) (coworking_occupancy db).
Definition set_event_organizer (db : database) (t : list event_organizer_row)
  : database :=
  Build_database (event db) (organizer db) t (coworking_space db)
    (coworking_booking db) (coworking_occupancy db).
Definition set_coworking_space (db : database) (t : list coworking_space_row)
  : database :=
  Build_database (event db) (organizer db) (event_organizer db) t
    (coworking_booking db) (coworking_occupancy db).
Definition set_coworking_booking (db : database)
  (t : list coworking_booking_row) : database :=
  Build_database (event db) (organizer db) (event_organizer db)
    (coworking_space db) t (coworking_occupancy db).
Definition set_coworking_occupancy (db : database)
  (t : list coworking_occupancy_row) : database :=
  Build_database (event db) (organizer db) (event_organizer db)
    (coworking_space db) (coworking_booking db) t.

(** ** Messages of the server for violated constraints *)

Definition quoted (s : string) : string :=
  String "034"%char EmptyString ++ s ++ String "034"%char EmptyString.

Definition unique_violation (constraint : string) : exn :=
  IntegrityError
    ("duplicate key value violates unique constraint " ++ quoted constraint).

Definition foreign_key_violation (table constraint : string) : exn :=
  IntegrityError
    ("insert or update on table " ++ quoted table ++
     " violates foreign key constraint " ++ quoted constraint).

(** [UniqueConstraint("title", "start_date", name="uq_event_title_start_date")].
    The store keeps a timestamp as it was written; the conversion of
    [timestamptz] values to UTC by the server is not modelled. *)
Definition same_title_start_date (a b : event_row) : bool :=
  String.eqb (ev_title a) (ev_title b) &&
  datetime_eqb (ev_start_date a) (ev_start_date b).

End Tables.
Export Tables.

(* ================================================================== *)
(** * persistent/database.py: sessions, transactions and the environment *)
(* ================================================================== *)

Module Session.

Inductive level : Type := INFO | WARNING | ERROR.

(** A failure of the driver or of the server that no table content
    explains (lost connection, time-out, a constraint hit by a concurrent
    writer). *)
Inductive fault : Type :=
| FaultIntegrity (text : string)
| FaultOperational (text : string).

Definition exn_of_fault (f : fault) : exn :=
  match f with
  | FaultIntegrity t => IntegrityError t
  | FaultOperational t => OperationalError t
  end.

(** What the environment decides: the value of the n-th [uuid4()], of the
    n-th [datetime.now()], and whether the n-th statement or commit sent to
    the server fails. *)
Record oracle : Type := Build_oracle {
  uuid4_at : nat -> UUID;
  now_at : nat -> datetime;
  fault_at : nat -> option fault
}.

Record world : Type := Build_world {
  store : database;
  env : oracle;
  uuid_calls : nat;
  clock_reads : nat;
  statements : nat;
  logs : list (level * string)
}.

Definition set_store (w : world) (db : database) : world :=
  Build_world db (env w) (uuid_calls w) (clock_reads w) (statements w)
    (logs w).

Definition M (A : Type) : Type := world -> result A * world.

Definition ret {A} (a : A) : M A := fun w => (Ok a, w).

Definition bind {A B} (m : M A) (k : A -> M B) : M B :=
  fun w =>
    match m w with
    | (Ok a, w') => k a w'
    | (Raise e, w') => (Raise e, w')
    end.

Definition raise {A} (e : exn) : M A := fun w => (Raise e, w).

(** [try: body  except Exception as e: handler e]. *)
Definition try_except {A} (body : M A) (handler : exn -> M A) : M A :=
  fun w =>
    match body w with
    | (Ok a, w') => (Ok a, w')
    | (Raise e, w') => handler e w'
    end.

Declare Scope monad_scope.
Delimit Scope monad_scope with monad.
Notation "x <- m ;; k" := (bind m (fun x => k))
  (at level 61, m at next level, right associativity) : monad_scope.
Notation "m ;; k" := (bind m (fun _ => k))
  (at level 61, right associativity) : monad_scope.
Local Open Scope monad_scope.

Fixpoint for_each {A} (l : list A) (body : A -> M unit) : M unit :=
  match l with
  | [] => ret tt
  | x :: l' => body x ;; for_each l' body
  end.

Definition uuid4 : M UUID :=
  fun w =>
    (Ok (uuid4_at (env w) (uuid_calls w)),
     Build_world (store w) (env w) (S (uuid_calls w)) (clock_reads w)
       (statements w) (logs w)).

Definition datetime_now : M datetime :=
  fun w =>
    (Ok (now_at (env w) (clock_reads w)),
     Build_world (store w) (env w) (uuid_calls w) (S (clock_reads w))
       (statements w) (logs w)).

Definition logger (l : level) (message : string) : M unit :=
  fun w =>
    (Ok tt,
     Build_world (store w) (env w) (uuid_calls w) (clock_reads w)
       (statements w) (logs w ++ [(l, message)])%list).

(** A statement maps the contents of the store to a result and new
    contents, or violates a constraint. *)
Definition statement (A : Type) : Type := database -> result (A * database).

Definition sent (w : world) : world :=
  Build_world (store w) (env w) (uuid_calls w) (clock_reads w)
    (S (statements w)) (logs w).

(** [await session.execute(stmt)]. *)
Definition execute {A} (stmt : statement A) : M A :=
  fun w =>
    match fault_at (env w) (statements w) with
    | Some f => (Raise (exn_of_fault f), sent w)
    | None =>
        match stmt (store w) with
        | Ok (a, db) => (Ok a, set_store (sent w) db)
        | Raise e => (Raise e, sent w)
        end
    end.

(** [async with session.begin(): body]: commit when the body returns,
    roll back when the body or the commit raises. *)
Definition begin {A} (body : M A) : M A :=
  fun w =>
    match body w with
    | (Ok a, w') =>
        match fault_at (env w') (statements w') with
        | Some f => (Raise (exn_of_fault f), set_store (sent w') (store w))
        | None => (Ok a, sent w')
        end
    | (Raise e, w') => (Raise e, set_store w' (store w))
    end.

(** [async with get_session() as session: body]: on an exception the
    session is rolled back and the exception raised again. *)
Definition get_session {A} (body : M A) : M A :=
  fun w =>
    match body w with
    | (Ok a, w') => (Ok a, w')
    | (Raise e, w') => (Raise e, set_store w' (store w))
    end.

Definition initial_world (o : oracle) : world :=
  Build_world empty_database o 0 0 0 [].

End Session.
Export Session.
Local Open Scope monad_scope.

(* ================================================================== *)
(** * The SQL statements issued by the repositories *)
(* ================================================================== *)

Module Sql.

Fixpoint insert_by {A} (leb : A -> A -> bool) (x : A) (l : list A) : list A :=
  match l with
  | [] => [x]
  | y :: l' => if leb x y then x :: l else y :: insert_by leb x l'
  end.

(** [ORDER BY]. *)
Definition order_by {A} (leb : A -> A -> bool) (l : list A) : list A :=
  fold_right (insert_by leb) [] l.

Definition query {A} (f : database -> A) : statement A :=
  fun db => Ok (f db, db).

(** ** event *)

(** The six columns read by [get_all_events]. *)
Record event_summary : Type := Build_event_summary {
  es_id : UUID;
  es_title : string;
  es_short_description : string;
  es_start_date : datetime;
  es_location : string;
  es_image_path : option string
}.

Definition summary (r : event_row) : event_summary :=
  Build_event_summary (ev_id r) (ev_title r) (ev_short_description r)
    (ev_start_date r) (ev_location r) (ev_image_path r).

Definition select_events_order_by_start_date : statement (list event_summary) :=
  query (fun db =>
    order_by (fun a b => datetime_leb (es_start_date a) (es_start_date b))
      (map summary (event db))).

Definition select_event_where_id (id : UUID) : statement (option event_row) :=
  query (fun db => find (fun r => N.eqb (ev_id r) id) (event db)).

(** The four columns of the organizer joined to an event. *)
Record organizer_info : Type := Build_organizer_info {
  oi_id : UUID;
  oi_name : string;
  oi_description : option string;
  oi_image_path : option string
}.

Definition select_organizer_of_event (id : UUID)
  : statement (option organizer_info) :=
  query (fun db =>
    hd_error
      (flat_map
         (fun l =>
            map (fun o => Build_organizer_info (org_id o) (org_name o)
                            (org_description o) (org_image_path o))
              (filter (fun o => N.eqb (org_id o) (eo_organizer_id l))
                 (organizer db)))
         (filter (fun l => N.eqb (eo_event_id l) id) (event_organizer db)))).

(** The row is kept as it is written, the start date with its components
    and its offset.  The server stores the instant and gives it back with
    the offset +00:00: for a date written with that offset the row kept
    here is what a later [SELECT] gives back. *)
Definition insert_event (r : event_row) : statement unit :=
  fun db =>
    if existsb (fun x => N.eqb (ev_id x) (ev_id r)) (event db)
    then Raise (unique_violation "event_pkey")
    else if existsb (same_title_start_date r) (event db)
    then Raise (unique_violation "uq_event_title_start_date")
    else Ok (tt, set_event db (event db ++ [r])%list).

(** The [values] dictionary of [update_event]: [updated_at] is always
    present, the other keys only when the argument is not [None]. *)
Record event_values : Type := Build_event_values {
  v_updated_at : datetime;
  v_title : option string;
  v_description : option string;
  v_short_description : option string;
  v_start_date : option datetime;
  v_location : option string;
  v_image_path : option string
}.

Definition or_else {A} (o : option A) (old : A) : A :=
  match o with Some x => x | None => old end.

Definition set_event_values (v : event_values) (r : event_row) : event_row :=
  Build_event_row (ev_id r)
    (or_else (v_title v) (ev_title r))
    (or_else (v_description v) (ev_description r))
    (or_else (v_short_description v) (ev_short_description r))
    (or_else (v_start_date v) (ev_start_date r))
    (or_else (v_location v) (ev_location r))
    (match v_image_path v with Some p => Some p | None => ev_image_path r end)
    (ev_created_at r)
    (v_updated_at v).

Definition update_event_where_id (id : UUID) (v : event_values)
  : statement unit :=
  fun db =>
    let updated r := if N.eqb (ev_id r) id then set_event_values v r else r in
    if existsb
         (fun r =>
            N.eqb (ev_id r) id &&
            existsb (fun x => negb (N.eqb (ev_id x) id) &&
                              same_title_start_date (updated r) x)
              (event db))
         (event db)
    then Raise (unique_violation "uq_event_title_start_date")
    else Ok (tt, set_event db (map updated (event db))).

(** [ondelete="CASCADE"] removes the links of the deleted event. *)
Definition delete_event_where_id (id : UUID) : statement unit :=
  fun db =>
    Ok (tt,
        set_event_organizer
          (set_event db (filter (fun r => negb (N.eqb (ev_id r) id)) (event db)))
          (filter (fun l => negb (N.eqb (eo_event_id l) id))
             (event_organizer db))).

(** ** event_organizer *)

Definition insert_event_organizer (l : event_organizer_row) : statement unit :=
  fun db =>
    if existsb (fun x => N.eqb (eo_event_id x) (eo_event_id l) &&
                         N.eqb (eo_organizer_id x) (eo_organizer_id l))
         (event_organizer db)
    then Raise (unique_violation "event_organizer_pkey")
    else if negb (existsb (fun r => N.eqb (ev_id r) (eo_event_id l)) (event db))
    then Raise (foreign_key_violation "event_organizer"
                  "event_organizer_event_id_fkey")
    else if negb (existsb (fun o => N.eqb (org_id o) (eo_organizer_id l))
                    (organizer db))
    then Raise (foreign_key_violation "event_organizer"
                  "event_organizer_organizer_id_fkey")
    else Ok (tt, set_event_organizer db (event_organizer db ++ [l])%list).

Definition delete_event_organizer_where_event_id (id : UUID) : statement unit :=
  fun db =>
    Ok (tt,
        set_event_organizer db
          (filter (fun l => negb (N.eqb (eo_event_id l) id))
             (event_organizer db))).

(** ** organizer *)

(** A table is a list of rows, and a [SELECT] without [ORDER BY] gives the
    rows in the order of the list.  The server fixes no such order, least of
    all for a row that an [UPDATE] has rewritten: the list stands for the
    order in which one scan of the table meets the rows. *)
Definition select_organizers : statement (list organizer_row) :=
  query organizer.

Definition select_organizer_where_id (id : UUID)
  : statement (option organizer_row) :=
  query (fun db => find (fun o => N.eqb (org_id o) id) (organizer db)).

Definition insert_organizer (o : organizer_row) : statement unit :=
  fun db =>
    if existsb (fun x => N.eqb (org_id x) (org_id o)) (organizer db)
    then Raise (unique_violation "organizer_pkey")
    else Ok (tt, set_organizer db (organizer db ++ [o])%list).

Record organizer_values : Type := Build_organizer_values {
  ov_updated_at : datetime;
  ov_name : option string;
  ov_description : option string;
  ov_image_path : option string
}.

Definition set_organizer_values (v : organizer_values) (o : organizer_row)
  : organizer_row :=
  Build_organizer_row (org_id o)
    (or_else (ov_name v) (org_name o))
    (match ov_description v with Some d => Some d | None => org_description o end)
    (match ov_image_path v with Some p => Some p | None => org_image_path o end)
    (org_created_at o)
    (ov_updated_at v).

Definition update_organizer_where_id (id : UUID) (v : organizer_values)
  : statement unit :=
  fun db =>
    Ok (tt,
        set_organizer db
          (map (fun o => if N.eqb (org_id o) id
                         then set_organizer_values v o else o)
             (organizer db))).

Definition delete_organizer_where_id (id : UUID) : statement unit :=
  fun db =>
    Ok (tt,
        set_event_organizer
          (set_organizer db
             (filter (fun o => negb (N.eqb (org_id o) id)) (organizer db)))
          (filter (fun l => negb (N.eqb (eo_organizer_id l) id))
             (event_organizer db))).

(** ** coworking_space *)

Definition select_coworking_spaces : statement (list coworking_space_row) :=
  query coworking_space.

Definition select_coworking_space_where_id (id : UUID)
  : statement (option coworking_space_row) :=
  query (fun db => find (fun s => N.eqb (cs_id s) id) (coworking_space db)).

Definition insert_coworking_space (s : coworking_space_row) : statement unit :=
  fun db =>
    if existsb (fun x => N.eqb (cs_id x) (cs_id s)) (coworking_space db)
    then Raise (unique_violation "coworking_space_pkey")
    else Ok (tt, set_coworking_space db (coworking_space db ++ [s])%list).

Record coworking_space_values : Type := Build_coworking_space_values {
  sv_updated_at : datetime;
  sv_name : option string;
  sv_description : option string;
  sv_location : option string;
  sv_image_path : option string
}.

Definition set_coworking_space_values (v : coworking_space_values)
  (s : coworking_space_row) : coworking_space_row :=
  Build_coworking_space_row (cs_id s)
    (or_else (sv_name v) (cs_name s))
    (or_else (sv_description v) (cs_description s))
    (or_else (sv_location v) (cs_location s))
    (match sv_image_path v with Some p => Some p | None => cs_image_path s end)
    (cs_created_at s)
    (sv_updated_at v).

Definition update_coworking_space_where_id (id : UUID)
  (v : coworking_space_values) : statement unit :=
  fun db =>
    Ok (tt,
        set_coworking_space db
          (map (fun s => if N.eqb (cs_id s) id
                         then set_coworking_space_values v s else s)
             (coworking_space db))).

(** [ondelete="CASCADE"] removes the bookings and the occupancy rows of the
    deleted space. *)
Definition delete_coworking_space_where_id (id : UUID) : statement unit :=
  fun db =>
    Ok (tt,
        Build_database (event db) (organizer db) (event_organizer db)
          (filter (fun s => negb (N.eqb (cs_id s) id)) (coworking_space db))
          (filter (fun b => negb (N.eqb (cb_coworking_id b) id))
             (coworking_booking db))
          (filter (fun o => negb (N.eqb (co_coworking_id o) id))
             (coworking_occupancy db))).

(** ** coworking_booking and coworking_occupancy *)

Definition booking_on (coworking_id : UUID) (d : date)
  (b : coworking_booking_row) : bool :=
  N.eqb (cb_coworking_id b) coworking_id && date_eqb (cb_booking_date b) d.

Definition occupancy_on (coworking_id : UUID) (d : date)
  (o : coworking_occupancy_row) : bool :=
  N.eqb (co_coworking_id o) coworking_id && date_eqb (co_date o) d.

Definition insert_coworking_booking (b : coworking_booking_row)
  : statement unit :=
  fun db =>
    if existsb (fun x => N.eqb (cb_id x) (cb_id b)) (coworking_booking db)
    then Raise (unique_violation "coworking_booking_pkey")
    else if negb (existsb (fun s => N.eqb (cs_id s) (cb_coworking_id b))
                    (coworking_space db))
    then Raise (foreign_key_violation "coworking_booking"
                  "coworking_booking_coworking_id_fkey")
    else Ok (tt, set_coworking_booking db (coworking_booking db ++ [b])%list).

(** [select(func.count()).where(...)]. *)
Definition count_bookings (coworking_id : UUID) (d : date) : statement Z :=
  query (fun db =>
    Z.of_nat (List.length (filter (booking_on coworking_id d) (coworking_booking db)))).

Definition select_first_occupancy (coworking_id : UUID) (d : date)
  : statement (option coworking_occupancy_row) :=
  query (fun db => find (occupancy_on coworking_id d) (coworking_occupancy db)).

Definition set_occupancy_values (occupancy_percentage : Z)
  (updated_at : datetime) (o : coworking_occupancy_row)
  : coworking_occupancy_row :=
  Build_coworking_occupancy_row (co_id o) (co_coworking_id o) (co_date o)
    occupancy_percentage (co_created_at o) updated_at.

Definition update_occupancy_where (coworking_id : UUID) (d : date)
  (occupancy_percentage : Z) (updated_at : datetime) : statement unit :=
  fun db =>
    Ok (tt,
        set_coworking_occupancy db
          (map (fun o =>
                  if occupancy_on coworking_id d o
                  then set_occupancy_values occupancy_percentage updated_at o
                  else o)
             (coworking_occupancy db))).

Definition insert_coworking_occupancy (o : coworking_occupancy_row)
  : statement unit :=
  fun db =>
    if existsb (fun x => N.eqb (co_id x) (co_id o)) (coworking_occupancy db)
    then Raise (unique_violation "coworking_occupancy_pkey")
    else if negb (existsb (fun s => N.eqb (cs_id s) (co_coworking_id o))
                    (coworking_space db))
    then Raise (foreign_key_violation "coworking_occupancy"
                  "coworking_occupancy_coworking_id_fkey")
    else Ok (tt, set_coworking_occupancy db
                   (coworking_occupancy db ++ [o])%list).

Definition date_leb (a b : date) : bool :=
  if date_year a <? date_year b then true
  else if date_year b <? date_year a then false
  else if date_month a <? date_month b then true
  else if date_month b <? date_month a then false
  else date_day a <=? date_day b.

(** The two columns read by [get_occupancy_stats], ordered by date. *)
Definition select_occupancy_stats (coworking_id : UUID)
  : statement (list (date * Z)) :=
  query (fun db =>
    order_by (fun a b => date_leb (fst a) (fst b))
      (map (fun o => (co_date o, co_occupancy_percentage o))
         (filter (fun o => N.eqb (co_coworking_id o) coworking_id)
            (coworking_occupancy db)))).

End Sql.
Export Sql.

(* ================================================================== *)
(** * repository/event_repository.py *)
(* ================================================================== *)

Module EventRepository.

Definition get_all_events : M (list event_summary) :=
  get_session (execute select_events_order_by_start_date).

Definition get_event_by_id (event_id : UUID)
  : M (option (event_row * option organizer_info) * bool) :=
  get_session (
    event_data <- execute (select_event_where_id event_id) ;;
    match event_data with
    | None => ret (None, false)
    | Some ev =>
        organizer_data <- execute (select_organizer_of_event event_id) ;;
        ret (Some (ev, organizer_data), true)
    end).

Definition create_event (title description short_description : string)
  (start_date : datetime) (location : string) (image_path : option string)
  (organizer_id : option UUID) : M UUID :=
  event_id <- uuid4 ;;
  get_session (
    begin (
      created_at <- datetime_now ;;
      updated_at <- datetime_now ;;
      execute (insert_event
                 (Build_event_row event_id title description
                    short_description start_date location image_path
                    created_at updated_at)) ;;
      match organizer_id with
      | Some oid =>
          execute (insert_event_organizer
                     (Build_event_organizer_row event_id oid))
      | None => ret tt
      end)) ;;
  ret event_id.

(** [if values:] always holds, since [values] has the key [updated_at];
    [if organizer_id:] holds for every [UUID]. *)
Definition update_event (event_id : UUID)
  (title description short_description : option string)
  (start_date : option datetime) (location image_path : option string)
  (organizer_id : option UUID) : M bool :=
  get_session (
    begin (
      now <- datetime_now ;;
      let values :=
        Build_event_values now title description short_description
          start_date location image_path in
      execute (update_event_where_id event_id values) ;;
      match organizer_id with
      | Some oid =>
          execute (delete_event_organizer_where_event_id event_id) ;;
          execute (insert_event_organizer
                     (Build_event_organizer_row event_id oid))
      | None => ret tt
      end)) ;;
  ret true.

Definition delete_event (event_id : UUID) : M bool :=
  get_session (begin (execute (delete_event_where_id event_id))) ;;
  ret true.

End EventRepository.

(* ================================================================== *)
(** * repository/organizer_repository.py *)
(* ================================================================== *)

Module OrganizerRepository.

Definition get_all_organizers : M (list organizer_row) :=
  get_session (execute select_organizers).

Definition get_organizer_by_id (organizer_id : UUID)
  : M (option organizer_row * bool) :=
  get_session (
    organizer_data <- execute (select_organizer_where_id organizer_id) ;;
    match organizer_data with
    | Some o => ret (Some o, true)
    | None => ret (None, false)
    end).

Definition create_organizer (name : string)
  (description image_path : option string) : M UUID :=
  organizer_id <- uuid4 ;;
  get_session (
    begin (
      created_at <- datetime_now ;;
      updated_at <- datetime_now ;;
      execute (insert_organizer
                 (Build_organizer_row organizer_id name description
                    image_path created_at updated_at)))) ;;
  ret organizer_id.

Definition update_organizer (organizer_id : UUID)
  (name description image_path : option string) : M bool :=
  get_session (
    begin (
      now <- datetime_now ;;
      let values := Build_organizer_values now name description image_path in
      execute (update_organizer_where_id organizer_id values))) ;;
  ret true.

Definition delete_organizer (organizer_id : UUID) : M bool :=
  get_session (begin (execute (delete_organizer_where_id organizer_id))) ;;
  ret true.

End OrganizerRepository.

(* ================================================================== *)
(** * repository/coworking_repository.py *)
(* ================================================================== *)

Module CoworkingRepository.

Definition get_all_coworking_spaces : M (list coworking_space_row) :=
  get_session (execute select_coworking_spaces).

Definition get_coworking_by_id (coworking_id : UUID)
  : M (option coworking_space_row * bool) :=
  get_session (
    coworking_data <- execute (select_coworking_space_where_id coworking_id) ;;
    match coworking_data with
    | Some s => ret (Some s, true)
    | None => ret (None, false)
    end).

Definition create_coworking_space (name description location : string)
  (image_path : option string) : M UUID :=
  coworking_id <- uuid4 ;;
  get_session (
    begin (
      created_at <- datetime_now ;;
      updated_at <- datetime_now ;;
      execute (insert_coworking_space
                 (Build_coworking_space_row coworking_id name description
                    location image_path created_at updated_at)))) ;;
  ret coworking_id.

Definition update_coworking_space (coworking_id : UUID)
  (name description location image_path : option string) : M bool :=
  get_session (
    begin (
      now <- datetime_now ;;
      let values :=
        Build_coworking_space_values now name description location
          image_path in
      execute (update_coworking_space_where_id coworking_id values))) ;;
  ret true.

Definition delete_coworking_space (coworking_id : UUID) : M bool :=
  get_session (
    begin (execute (delete_coworking_space_where_id coworking_id))) ;;
  ret true.

(** [min(int((booking_count / max_bookings) * 100), 100)] with
    [max_bookings = 10]: a true division of two [int]s, a product of floats,
    a truncation and a minimum of [int]s. *)
Definition occupancy_percentage (booking_count : Z) : result Z :=
  let max_bookings := 10 in
  match int_truediv booking_count max_bookings with
  | Raise e => Raise e
  | Ok ratio =>
      match float_mul_int ratio 100 with
      | Raise e => Raise e
      | Ok percent =>
          match int_of_float percent with
          | Raise e => Raise e
          | Ok p => Ok (Z.min p 100)
          end
      end
  end.

Definition _update_occupancy (coworking_id : UUID) (booking_date : date)
  : M unit :=
  booking_count <- execute (count_bookings coworking_id booking_date) ;;
  percentage <- (fun w => (occupancy_percentage booking_count, w)) ;;
  existing_record <-
    execute (select_first_occupancy coworking_id booking_date) ;;
  match existing_record with
  | Some _ =>
      now <- datetime_now ;;
      execute (update_occupancy_where coworking_id booking_date percentage now)
  | None =>
      id <- uuid4 ;;
      created_at <- datetime_now ;;
      updated_at <- datetime_now ;;
      execute (insert_coworking_occupancy
                 (Build_coworking_occupancy_row id coworking_id booking_date
                    percentage created_at updated_at))
  end.

Definition create_booking (coworking_id : UUID) (booking_date : date)
  (customer_name customer_phone : string) : M UUID :=
  booking_id <- uuid4 ;;
  get_session (
    begin (
      created_at <- datetime_now ;;
      updated_at <- datetime_now ;;
      execute (insert_coworking_booking
                 (Build_coworking_booking_row booking_id coworking_id
                    booking_date customer_name customer_phone created_at
                    updated_at)) ;;
      _update_occupancy coworking_id booking_date)) ;;
  ret booking_id.

Definition get_occupancy_stats (coworking_id : UUID) : M (list (date * Z)) :=
  get_session (execute (select_occupancy_stats coworking_id)).

End CoworkingRepository.

(* ================================================================== *)
(** * services/event_service.py *)
(* ================================================================== *)

Module EventService.

Definition get_all_events : M (list event_summary) :=
  EventRepository.get_all_events.

Definition get_event_by_id (event_id : UUID)
  : M (option (event_row * option organizer_info) * bool) :=
  EventRepository.get_event_by_id event_id.

Definition duplicate_message (title : string) (start_date : datetime)
  : string :=
  "Event with title '" ++ title ++ "' and date " ++ str_datetime start_date ++
  " already exists".

(** The comparison of the duplicate check: same title, and same year,
    month, day, hour and minute of the start date. *)
Definition same_title_and_minute (title : string) (start_date : datetime)
  (event : event_summary) : bool :=
  let event_date := es_start_date event in
  String.eqb (es_title event) title &&
  (year event_date =? year start_date) &&
  (month event_date =? month start_date) &&
  (day event_date =? day start_date) &&
  (hour event_date =? hour start_date) &&
  (minute event_date =? minute start_date).

Definition is_uq_event_title_start_date (e : exn) : bool :=
  contains "duplicate key value violates unique constraint" (str_exn e) &&
  contains "uq_event_title_start_date" (str_exn e).

(** The first [try] block of [create_event]. *)
Definition check_duplicate (title : string) (start_date : datetime) : M unit :=
  try_except
    (events <- EventRepository.get_all_events ;;
     for_each events (fun event =>
       if same_title_and_minute title start_date event
       then raise (EventDuplicateError (duplicate_message title start_date))
       else ret tt))
    (fun e =>
       match e with
       | EventDuplicateError _ => raise e
       | _ => logger ERROR ("Error checking for duplicate events: " ++ str_exn e)
       end).

(** [if organizer_name: ...]: the organizer is looked up by name among all
    organizers, updated or created.  The identifier of a stored organizer
    is a [UUID], the first case of the test on its type. *)
Definition resolve_organizer
  (organizer_name organizer_description organizer_image_path : option string)
  : M (option UUID) :=
  match organizer_name with
  | Some (String _ _ as name) =>
      organizers <- OrganizerRepository.get_all_organizers ;;
      match find (fun org => String.eqb (org_name org) name) organizers with
      | Some existing_organizer =>
          let organizer_id := org_id existing_organizer in
          logger INFO ("Using existing organizer: " ++ name) ;;
          (if truthy organizer_description || truthy organizer_image_path
           then OrganizerRepository.update_organizer organizer_id None
                  organizer_description organizer_image_path ;;
                ret tt
           else ret tt) ;;
          ret (Some organizer_id)
      | None =>
          organizer_id <- OrganizerRepository.create_organizer name
                            organizer_description organizer_image_path ;;
          logger INFO ("Created new organizer: " ++ name) ;;
          ret (Some organizer_id)
      end
  | _ => ret None
  end.

(** The last [try] block of [create_event]. *)
Definition insert_event_or_duplicate (title description short_description : string)
  (start_date : datetime) (location : string) (image_path : option string)
  (organizer_id : option UUID) : M UUID :=
  try_except
    (EventRepository.create_event title description short_description
       start_date location image_path organizer_id)
    (fun e =>
       match e with
       | IntegrityError _ =>
           if is_uq_event_title_start_date e
           then logger ERROR ("Integrity error creating event: " ++ str_exn e) ;;
                raise (EventDuplicateError (duplicate_message title start_date))
           else raise e
       | _ => raise e
       end).

Definition create_event (title description short_description : string)
  (start_date : datetime) (location : string) (image_path : option string)
  (organizer_name organizer_description organizer_image_path : option string)
  : M UUID :=
  check_duplicate title start_date ;;
  organizer_id <- resolve_organizer organizer_name organizer_description
                    organizer_image_path ;;
  insert_event_or_duplicate title description short_description start_date
    location image_path organizer_id.

Definition update_event (event_id : UUID)
  (title description short_description : option string)
  (start_date : option datetime) (location image_path : option string)
  (organizer_id : option UUID) : M bool :=
  try_except
    (EventRepository.update_event event_id title description
       short_description start_date location image_path organizer_id)
    (fun e =>
       match e with
       | IntegrityError _ =>
           if is_uq_event_title_start_date e
           then logger ERROR ("Integrity error updating event: " ++ str_exn e) ;;
                raise (EventDuplicateError
                         ("Event with title '" ++
                          match title with Some t => t | None => "None" end ++
                          "' and date " ++
                          match start_date with
                          | Some d => str_datetime d
                          | None => "None"
                          end ++ " already exists"))
           else raise e
       | _ => raise e
       end).

Definition delete_event (event_id : UUID) : M bool :=
  EventRepository.delete_event event_id.

End EventService.

(* ================================================================== *)
(** * services/coworking_service.py *)
(* ================================================================== *)

Module CoworkingService.

(** Every method with a [try] block has the handlers
    [except IntegrityError] and [except Exception] (or the latter alone);
    each logs and raises [CoworkingError] with the text of the caught
    exception. *)

Definition get_all_coworking_spaces : M (list coworking_space_row) :=
  CoworkingRepository.get_all_coworking_spaces.

Definition get_coworking_by_id (coworking_id : UUID)
  : M (option coworking_space_row * bool) :=
  CoworkingRepository.get_coworking_by_id coworking_id.

Definition create_coworking_space (name description location : string)
  (image_path : option string) : M UUID :=
  try_except
    (CoworkingRepository.create_coworking_space name description location
       image_path)
    (fun e =>
       match e with
       | IntegrityError _ =>
           logger ERROR ("IntegrityError creating coworking space: " ++ str_exn e) ;;
           raise (CoworkingError ("Error creating coworking space: " ++ str_exn e))
       | _ =>
           logger ERROR ("Error creating coworking space: " ++ str_exn e) ;;
           raise (CoworkingError ("Error creating coworking space: " ++ str_exn e))
       end).

Definition update_coworking_space (coworking_id : UUID)
  (name description location image_path : option string) : M bool :=
  try_except
    (CoworkingRepository.update_coworking_space coworking_id name description
       location image_path)
    (fun e =>
       match e with
       | IntegrityError _ =>
           logger ERROR ("IntegrityError updating coworking space: " ++ str_exn e) ;;
           raise (CoworkingError ("Error updating coworking space: " ++ str_exn e))
       | _ =>
           logger ERROR ("Error updating coworking space: " ++ str_exn e) ;;
           raise (CoworkingError ("Error updating coworking space: " ++ str_exn e))
       end).

Definition delete_coworking_space (coworking_id : UUID) : M bool :=
  try_except (CoworkingRepository.delete_coworking_space coworking_id)
    (fun e =>
       logger ERROR ("Error deleting coworking space: " ++ str_exn e) ;;
       raise (CoworkingError ("Error deleting coworking space: " ++ str_exn e))).

Definition create_booking (coworking_id : UUID) (booking_date : date)
  (customer_name customer_phone : string) : M UUID :=
  try_except
    (CoworkingRepository.create_booking coworking_id booking_date
       customer_name customer_phone)
    (fun e =>
       match e with
       | IntegrityError _ =>
           logger ERROR ("IntegrityError creating booking: " ++ str_exn e) ;;
           raise (CoworkingError ("Error creating booking: " ++ str_exn e))
       | _ =>
           logger ERROR ("Error creating booking: " ++ str_exn e) ;;
           raise (CoworkingError ("Error creating booking: " ++ str_exn e))
       end).

Definition get_occupancy_stats (coworking_id : UUID) : M (list (date * Z)) :=
  try_except (CoworkingRepository.get_occupancy_stats coworking_id)
    (fun e =>
       logger ERROR ("Error getting occupancy stats: " ++ str_exn e) ;;
       raise (CoworkingError ("Error getting occupancy stats: " ++ str_exn e))).

End CoworkingService.

(* ================================================================== *)
(** * presentations/routers: the endpoints *)
(* ================================================================== *)

Module Http.

(** What the client receives: a status code and either the response model
    or the [detail] of an error. *)
Inductive content (A : Type) : Type :=
| Body (a : A)
| Detail (detail : string).
Arguments Body {A} a.
Arguments Detail {A} detail.

Record response (A : Type) : Type := Build_response {
  status : Z;
  payload : content A
}.
Arguments Build_response {A} status payload.
Arguments status {A} r.
Arguments payload {A} r.

(** The framework around an endpoint declared with [status_code]: an
    [HTTPException] becomes a response with its status and detail, any
    other exception the plain 500 response of the server. *)
Definition serve {A} (status_code : Z) (endpoint : M A) (w : world)
  : response A * world :=
  match endpoint w with
  | (Ok a, w') => (Build_response status_code (Body a), w')
  | (Raise (HTTPException c d), w') => (Build_response c (Detail d), w')
  | (Raise _, w') => (Build_response 500 (Detail "Internal Server Error"), w')
  end.

Definition detail_text {A} (r : response A) : string :=
  match payload r with
  | Body _ => EmptyString
  | Detail d => d
  end.

End Http.
Export Http.

Module EventRouter.

Record EventCreateRequest : Type := Build_EventCreateRequest {
  title : string;
  description : string;
  short_description : string;
  start_date : datetime;
  location : string;
  image_path : option string;
  organizer_name : option string;
  organizer_description : option string;
  organizer_image_path : option string
}.

(** [POST /events/], [status_code=201]; the result is the [id] of
    [EventCreateResponse]. *)
Definition create_event (event : EventCreateRequest) : M UUID :=
  logger INFO ("create_event: " ++ title event) ;;
  try_except
    (EventService.create_event (title event) (description event)
       (short_description event) (start_date event) (location event)
       (image_path event) (organizer_name event)
       (organizer_description event) (organizer_image_path event))
    (fun e =>
       match e with
       | EventDuplicateError _ =>
           logger WARNING ("Duplicate event attempt: " ++ str_exn e) ;;
           raise (HTTPException 409
                    ("An event with title '" ++ title event ++
                     "' at the same date and time already exists"))
       | _ =>
           logger ERROR ("Error creating event: " ++ str_exn e) ;;
           raise (HTTPException 500
                    "Failed to create event due to an internal error")
       end).

(** [DELETE /events/{event_id}], [status_code=204]. *)
Definition delete_event (event_id : UUID) : M unit :=
  logger INFO ("delete_event: " ++ str_uuid event_id) ;;
  r <- EventService.get_event_by_id event_id ;;
  if negb (snd r)
  then logger ERROR ("delete_event: " ++ str_uuid event_id ++ " not found") ;;
       raise (HTTPException 404 "Event not found")
  else
    success <- EventService.delete_event event_id ;;
    if negb success
    then logger ERROR ("Failed to delete event: " ++ str_uuid event_id) ;;
         raise (HTTPException 500 "Failed to delete event")
    else ret tt.

(** [EventDto]. *)
Record EventDto : Type := Build_EventDto {
  dto_id : UUID;
  dto_title : string;
  dto_short_description : string;
  dto_start_date : datetime;
  dto_location : string;
  dto_image_path : option string
}.

(** [GET /events/]; the result is the [events] of [EventGetAllResponse]. *)
Definition get_all_events : M (list EventDto) :=
  logger INFO "get_all_events" ;;
  events <- EventService.get_all_events ;;
  ret (map (fun event =>
              Build_EventDto (es_id event) (es_title event)
                (es_short_description event) (es_start_date event)
                (es_location event) (es_image_path event))
         events).

(** [EventDetailDto]: the fields of [EventDto], the description and the
    organizer. *)
Record EventDetailDto : Type := Build_EventDetailDto {
  detail_id : UUID;
  detail_title : string;
  detail_short_description : string;
  detail_start_date : datetime;
  detail_location : string;
  detail_image_path : option string;
  detail_description : string;
  detail_organizer : option organizer_info
}.

(** [GET /events/{event_id}].  After the test of [found], [event_data] is
    subscripted; on [None] Python raises a [TypeError], rendered here as a
    [ValueError] with the same text. *)
Definition get_event_by_id (event_id : UUID) : M EventDetailDto :=
  logger INFO ("get_event_by_id: " ++ str_uuid event_id) ;;
  r <- EventService.get_event_by_id event_id ;;
  if negb (snd r)
  then logger ERROR ("get_event_by_id: " ++ str_uuid event_id ++ " not found") ;;
       raise (HTTPException 404 "Event not found")
  else
    match fst r with
    | Some (event_data, organizer) =>
        ret (Build_EventDetailDto (ev_id event_data) (ev_title event_data)
               (ev_short_description event_data) (ev_start_date event_data)
               (ev_location event_data) (ev_image_path event_data)
               (ev_description event_data) organizer)
    | None => raise (ValueError "'NoneType' object is not subscriptable")
    end.

End EventRouter.

Module CoworkingRouter.

Record BookingRequest : Type := Build_BookingRequest {
  booking_date : date;
  customer_name : string;
  customer_phone : string
}.

(** [POST /coworking/{coworking_id}/booking]; the result is the [id] of
    [BookingResponse]. *)
Definition create_booking (coworking_id : UUID) (booking : BookingRequest)
  : M UUID :=
  logger INFO ("create_booking for coworking: " ++ str_uuid coworking_id) ;;
  try_except
    (r <- CoworkingService.get_coworking_by_id coworking_id ;;
     if negb (snd r)
     then logger ERROR ("create_booking: coworking " ++
                        str_uuid coworking_id ++ " not found") ;;
          raise (HTTPException 404 "Coworking space not found")
     else CoworkingService.create_booking coworking_id (booking_date booking)
            (customer_name booking) (customer_phone booking))
    (fun e =>
       match e with
       | CoworkingError _ =>
           logger WARNING ("Failed to create booking: " ++ str_exn e) ;;
           raise (HTTPException 400
                    ("Failed to create booking: " ++ str_exn e))
       | HTTPException _ _ => raise e
       | _ =>
           logger ERROR ("Error creating booking: " ++ str_exn e) ;;
           raise (HTTPException 500
                    "Failed to create booking due to an internal error")
       end).

(** [DELETE /coworking/{coworking_id}], [status_code=204]. *)
Definition delete_coworking_space (coworking_id : UUID) : M unit :=
  logger INFO ("delete_coworking_space: " ++ str_uuid coworking_id) ;;
  try_except
    (r <- CoworkingService.get_coworking_by_id coworking_id ;;
     if negb (snd r)
     then logger ERROR ("delete_coworking_space: " ++
                        str_uuid coworking_id ++ " not found") ;;
          raise (HTTPException 404 "Coworking space not found")
     else
       success <- CoworkingService.delete_coworking_space coworking_id ;;
       if negb success
       then logger ERROR ("Failed to delete coworking space: " ++
                          str_uuid coworking_id) ;;
            raise (HTTPException 500 "Failed to delete coworking space")
       else ret tt)
    (fun e =>
       match e with
       | CoworkingError _ =>
           logger WARNING ("Failed to delete coworking space: " ++ str_exn e) ;;
           raise (HTTPException 400
                    ("Failed to delete coworking space: " ++ str_exn e))
       | HTTPException _ _ => raise e
       | _ =>
           logger ERROR ("Error deleting coworking space: " ++ str_exn e) ;;
           raise (HTTPException 500
                    "Failed to delete coworking space due to an internal error")
       end).

(** [CoworkingSpaceDto]. *)
Record CoworkingSpaceDto : Type := Build_CoworkingSpaceDto {
  space_id : UUID;
  space_name : string;
  space_description : string;
  space_location : string;
  space_image_path : option string
}.

(** [GET /coworking/]; the result is the [spaces] of
    [CoworkingSpacesResponse]. *)
Definition get_all_coworking_spaces : M (list CoworkingSpaceDto) :=
  logger INFO "get_all_coworking_spaces" ;;
  spaces <- CoworkingService.get_all_coworking_spaces ;;
  ret (map (fun space =>
              Build_CoworkingSpaceDto (cs_id space) (cs_name space)
                (cs_description space) (cs_location space)
                (cs_image_path space))
         spaces).

(** [OccupancyDataDto]. *)
Record OccupancyDataDto : Type := Build_OccupancyDataDto {
  od_date : date;
  od_occupancy_percentage : Z
}.

(** [CoworkingDetailResponse]: the fields of [CoworkingSpaceDto] and the
    occupancy data. *)
Record CoworkingDetailResponse : Type := Build_CoworkingDetailResponse {
  cd_id : UUID;
  cd_name : string;
  cd_description : string;
  cd_location : string;
  cd_image_path : option string;
  cd_occupancy_data : list OccupancyDataDto
}.

(** [GET /coworking/{coworking_id}].  This endpoint has no [try] block.
    After the statistics are read, [coworking_data] is subscripted; on
    [None] Python raises a [TypeError], rendered here as a [ValueError] with
    the same text. *)
Definition get_coworking_by_id (coworking_id : UUID)
  : M CoworkingDetailResponse :=
  logger INFO ("get_coworking_by_id: " ++ str_uuid coworking_id) ;;
  r <- CoworkingService.get_coworking_by_id coworking_id ;;
  if negb (snd r)
  then logger ERROR ("get_coworking_by_id: " ++ str_uuid coworking_id ++
                     " not found") ;;
       raise (HTTPException 404 "Coworking space not found")
  else
    occupancy_data <- CoworkingService.get_occupancy_stats coworking_id ;;
    match fst r with
    | Some coworking_data =>
        ret (Build_CoworkingDetailResponse (cs_id coworking_data)
               (cs_name coworking_data) (cs_description coworking_data)
               (cs_location coworking_data) (cs_image_path coworking_data)
               (map (fun data => Build_OccupancyDataDto (fst data) (snd data))
                  occupancy_data))
    | None => raise (ValueError "'NoneType' object is not subscriptable")
    end.

Record CoworkingCreateRequest : Type := Build_CoworkingCreateRequest {
  name : string;
  description : string;
  location : string;
  image_path : option string
}.

(** [POST /coworking/], [status_code=201]; the result is the [id] of
    [CoworkingCreateResponse]. *)
Definition create_coworking_space (coworking : CoworkingCreateRequest)
  : M UUID :=
  logger INFO ("create_coworking_space: " ++ name coworking) ;;
  try_except
    (CoworkingService.create_coworking_space (name coworking)
       (description coworking) (location coworking) (image_path coworking))
    (fun e =>
       match e with
       | CoworkingError _ =>
           logger WARNING ("Failed to create coworking space: " ++ str_exn e) ;;
           raise (HTTPException 400
                    ("Failed to create coworking space: " ++ str_exn e))
       | _ =>
           logger ERROR ("Error creating coworking space: " ++ str_exn e) ;;
           raise (HTTPException 500
                    "Failed to create coworking space due to an internal error")
       end).

End CoworkingRouter.

(* ================================================================== *)
(** * [date] and [datetime] plus [timedelta(days=...)] *)
(* ================================================================== *)

Module Calendar.

(** The proleptic Gregorian ordinal of the [datetime] module: day 1 is
    0001-01-01. *)

Definition _DAYS_IN_MONTH : list Z :=
  [-1; 31; 28; 31; 30; 31; 30; 31; 31; 30; 31; 30; 31].

Definition _DAYS_BEFORE_MONTH : list Z :=
  [-1; 0; 31; 59; 90; 120; 151; 181; 212; 243; 273; 304; 334].

Definition _is_leap (year : Z) : bool :=
  (year mod 4 =? 0) && (negb (year mod 100 =? 0) || (year mod 400 =? 0)).

Definition _days_before_year (year : Z) : Z :=
  let y := year - 1 in
  y * 365 + y / 4 - y / 100 + y / 400.

Definition _days_in_month (year month : Z) : Z :=
  if (month =? 2) && _is_leap year then 29
  else nth (Z.to_nat month) _DAYS_IN_MONTH 0.

Definition _days_before_month (year month : Z) : Z :=
  nth (Z.to_nat month) _DAYS_BEFORE_MONTH 0 +
  (if (2 <? month) && _is_leap year then 1 else 0).

Definition _ymd2ord (year month day : Z) : Z :=
  _days_before_year year + _days_before_month year month + day.

Definition _DI400Y : Z := 146097.
Definition _DI100Y : Z := 36524.
Definition _DI4Y : Z := 1461.
Definition _MAXORDINAL : Z := 3652059.

Definition _ord2ymd (n : Z) : Z * Z * Z :=
  let n := n - 1 in
  let n400 := n / _DI400Y in
  let n := n mod _DI400Y in
  let year := n400 * 400 + 1 in
  let n100 := n / _DI100Y in
  let n := n mod _DI100Y in
  let n4 := n / _DI4Y in
  let n := n mod _DI4Y in
  let n1 := n / 365 in
  let n := n mod 365 in
  let year := year + n100 * 100 + n4 * 4 + n1 in
  if (n1 =? 4) || (n100 =? 4) then (year - 1, 12, 31)
  else
    let leapyear := (n1 =? 3) && (negb (n4 =? 24) || (n100 =? 3)) in
    let month := Z.shiftr (n + 50) 5 in
    let preceding :=
      nth (Z.to_nat month) _DAYS_BEFORE_MONTH 0 +
      (if (2 <? month) && leapyear then 1 else 0) in
    if n <? preceding
    then
      let month := month - 1 in
      let preceding :=
        preceding -
        (nth (Z.to_nat month) _DAYS_IN_MONTH 0 +
         (if (month =? 2) && leapyear then 1 else 0)) in
      (year, month, n - preceding + 1)
    else (year, month, n - preceding + 1).

(** [d + timedelta(days=days)]. *)
Definition date_add_days (d : date) (days : Z) : result date :=
  let o := _ymd2ord (date_year d) (date_month d) (date_day d) + days in
  if (0 <? o) && (o <=? _MAXORDINAL)
  then let '(y, m, dd) := _ord2ymd o in Ok (Build_date y m dd)
  else Raise (OverflowError "date value out of range").

(** [t + timedelta(days=days)]: the time of day and the offset are kept. *)
Definition datetime_add_days (t : datetime) (days : Z) : result datetime :=
  match date_add_days (Build_date (year t) (month t) (day t)) days with
  | Ok d =>
      Ok (Build_datetime (date_year d) (date_month d) (date_day d) (hour t)
            (minute t) (second t) (microsecond t) (utcoffset t))
  | Raise e => Raise e
  end.

End Calendar.

(* ================================================================== *)
(** * services/mock_data_service.py *)
(* ================================================================== *)

Module MockDataService.

(** [select(1).limit(1)]: one row holding the constant 1, whatever the
    tables contain; [scalar()] gives that value. *)
Definition select_one_limit_one : statement (option Z) :=
  query (fun _ => Some 1).

Definition is_not_None {A} (o : option A) : bool :=
  match o with Some _ => true | None => false end.

(** The value of an expression that may raise. *)
Definition evaluate {A} (r : result A) : M A := fun w => (r, w).

(** [date.today()]: the date of a reading of the clock. *)
Definition date_today : M date :=
  now <- datetime_now ;;
  ret (Build_date (year now) (month now) (day now)).

(** [range(n)]. *)
Definition range (n : Z) : list Z := map Z.of_nat (seq 0 (Z.to_nat n)).

Definition customers : list (string * string) :=
  [("Alice Johnson", "+1234567890");
   ("Bob Smith", "+9876543210");
   ("Charlie Brown", "+5554443333");
   ("Diana Prince", "+1112223334")].

Definition _create_mock_bookings (coworking_id : UUID) : M unit :=
  today <- date_today ;;
  for_each (range 14) (fun i =>
    booking_date <- evaluate (Calendar.date_add_days today i) ;;
    let booking_count := i mod 3 + 1 in
    for_each (range booking_count) (fun j =>
      if Z.of_nat (List.length customers) <=? j then ret tt
      else
        let customer := nth (Z.to_nat j) customers (EmptyString, EmptyString) in
        CoworkingService.create_booking coworking_id booking_date
          (fst customer) (snd customer) ;;
        ret tt)).

(** The dictionaries of [_create_mock_coworking_spaces]. *)
Record space_data : Type := Build_space_data {
  name : string;
  description : string;
  location : string;
  image_path : string
}.

Definition coworking_spaces : list space_data :=
  [Build_space_data "Downtown Hub"
     "A modern coworking space in the heart of downtown, featuring high-speed internet, meeting rooms, and a coffee bar. Perfect for freelancers and small teams."
     "123 Main Street, Downtown"
     "/uploads/coworking/downtown_hub.jpg";
   Build_space_data "Tech Village"
     "Collaborative workspace designed for tech startups and developers. Features dedicated desks, private offices, and a gaming lounge for relaxation."
     "456 Innovation Avenue, Tech District"
     "/uploads/coworking/tech_village.jpg"].

Definition _create_mock_coworking_spaces : M unit :=
  for_each coworking_spaces (fun space_data =>
    coworking_id <- CoworkingService.create_coworking_space (name space_data)
                      (description space_data) (location space_data)
                      (Some (image_path space_data)) ;;
    _create_mock_bookings coworking_id) ;;
  logger INFO "Created 2 mock coworking spaces with bookings".

(** The dictionaries of [_create_mock_events]. *)
Record event_data : Type := Build_event_data {
  event_title : string;
  event_description : string;
  event_short_description : string;
  event_start_date : datetime;
  event_location : string;
  event_image_path : string;
  organizer_name : string;
  organizer_description : string;
  organizer_image_path : string
}.

(** The list of dictionaries is built first, with its three readings of
    the clock, and the events are created afterwards. *)
Definition _create_mock_events : M unit :=
  now <- datetime_now ;;
  in_30_days <- evaluate (Calendar.datetime_add_days now 30) ;;
  now <- datetime_now ;;
  in_15_days <- evaluate (Calendar.datetime_add_days now 15) ;;
  now <- datetime_now ;;
  in_7_days <- evaluate (Calendar.datetime_add_days now 7) ;;
  let events :=
    [Build_event_data "Tech Conference 2023"
       "A three-day conference featuring the latest in technology trends, with workshops, keynotes, and networking opportunities. Join industry leaders and innovators as they discuss AI, blockchain, cloud computing, and more."
       "Annual tech conference with workshops and keynotes"
       in_30_days
       "Convention Center, Downtown"
       "/uploads/events/tech_conference.jpg"
       "TechEvents Inc."
       "Leading technology event organizer"
       "/uploads/organizers/tech_events.png";
     Build_event_data "Web Development Workshop"
       "Learn modern web development techniques from industry experts. This hands-on workshop covers frontend frameworks, backend development, and deployment strategies. Perfect for beginners and intermediate developers looking to enhance their skills."
       "Hands-on workshop for web developers"
       in_15_days
       "Digital Academy, Tech District"
       "/uploads/events/web_dev_workshop.jpg"
       "Code Masters"
       "Coding education specialists"
       "/uploads/organizers/code_masters.png";
     Build_event_data "Startup Pitch Night"
       "An exciting evening where promising startups present their business ideas to potential investors. Entrepreneurs will have 5 minutes to pitch, followed by Q&A. Networking session and refreshments provided after the presentations."
       "Startups pitch to investors"
       in_7_days
       "Innovation Hub, Financial District"
       "/uploads/events/pitch_night.jpg"
       "Venture Connect"
       "Connecting startups with investors"
       "/uploads/organizers/venture_connect.png"] in
  for_each events (fun event_data =>
    EventService.create_event (event_title event_data)
      (event_description event_data) (event_short_description event_data)
      (event_start_date event_data) (event_location event_data)
      (Some (event_image_path event_data))
      (Some (organizer_name event_data))
      (Some (organizer_description event_data))
      (Some (organizer_image_path event_data)) ;;
    ret tt) ;;
  logger INFO "Created 3 mock events".

Definition initialize_mock_data : M unit :=
  logger INFO "Initializing mock data..." ;;
  exist <-
    get_session (
      event_result <- execute select_one_limit_one ;;
      let events_exist := is_not_None event_result in
      coworking_result <- execute select_one_limit_one ;;
      let coworking_exist := is_not_None coworking_result in
      ret (events_exist, coworking_exist)) ;;
  if fst exist && snd exist
  then logger INFO "Mock data already exists, skipping initialization"
  else
    _create_mock_events ;;
    _create_mock_coworking_spaces ;;
    logger INFO "Mock data initialization complete".

End MockDataService.

(* ================================================================== *)
(** * Runs of the application *)
(* ================================================================== *)

Module Behaviour.

(** The bookings and the occupancy rows of one space on one day. *)
Definition bookings_for (db : database) (coworking_id : UUID) (d : date)
  : list coworking_booking_row :=
  filter (booking_on coworking_id d) (coworking_booking db).

Definition occupancy_for (db : database) (coworking_id : UUID) (d : date)
  : list coworking_occupancy_row :=
  filter (occupancy_on coworking_id d) (coworking_occupancy db).

(** A call of a method of one of the three repositories.  The services
    and the routers reach the store through these calls only. *)
Inductive repository_call : Type :=
| Event_get_all_events
| Event_get_event_by_id (event_id : UUID)
| Event_create_event (title description short_description : string)
    (start_date : datetime) (location : string) (image_path : option string)
    (organizer_id : option UUID)
| Event_update_event (event_id : UUID)
    (title description short_description : option string)
    (start_date : option datetime) (location image_path : option string)
    (organizer_id : option UUID)
| Event_delete_event (event_id : UUID)
| Organizer_get_all_organizers
| Organizer_get_organizer_by_id (organizer_id : UUID)
| Organizer_create_organizer (name : string)
    (description image_path : option string)
| Organizer_update_organizer (organizer_id : UUID)
    (name description image_path : option string)
| Organizer_delete_organizer (organizer_id : UUID)
| Coworking_get_all_coworking_spaces
| Coworking_get_coworking_by_id (coworking_id : UUID)
| Coworking_create_coworking_space (name description location : string)
    (image_path : option string)
| Coworking_update_coworking_space (coworking_id : UUID)
    (name description location image_path : option string)
| Coworking_delete_coworking_space (coworking_id : UUID)
| Coworking_create_booking (coworking_id : UUID) (booking_date : date)
    (customer_name customer_phone : string)
| Coworking_get_occupancy_stats (coworking_id : UUID).

(** The world after a call, whether it returned or raised. *)
Definition perform (c : repository_call) (w : world) : world :=
  match c with
  | Event_get_all_events => snd (EventRepository.get_all_events w)
  | Event_get_event_by_id i => snd (EventRepository.get_event_by_id i w)
  | Event_create_event t d s sd l i o =>
      snd (EventRepository.create_event t d s sd l i o w)
  | Event_update_event id t d s sd l i o =>
      snd (EventRepository.update_event id t d s sd l i o w)
  | Event_delete_event i => snd (EventRepository.delete_event i w)
  | Organizer_get_all_organizers =>
      snd (OrganizerRepository.get_all_organizers w)
  | Organizer_get_organizer_by_id i =>
      snd (OrganizerRepository.get_organizer_by_id i w)
  | Organizer_create_organizer n d i =>
      snd (OrganizerRepository.create_organizer n d i w)
  | Organizer_update_organizer id n d i =>
      snd (OrganizerRepository.update_organizer id n d i w)
  | Organizer_delete_organizer i =>
      snd (OrganizerRepository.delete_organizer i w)
  | Coworking_get_all_coworking_spaces =>
      snd (CoworkingRepository.get_all_coworking_spaces w)
  | Coworking_get_coworking_by_id i =>
      snd (CoworkingRepository.get_coworking_by_id i w)
  | Coworking_create_coworking_space n d l i =>
      snd (CoworkingRepository.create_coworking_space n d l i w)
  | Coworking_update_coworking_space id n d l i =>
      snd (CoworkingRepository.update_coworking_space id n d l i w)
  | Coworking_delete_coworking_space i =>
      snd (CoworkingRepository.delete_coworking_space i w)
  | Coworking_create_booking c d n p =>
      snd (CoworkingRepository.create_booking c d n p w)
  | Coworking_get_occupancy_stats i =>
      snd (CoworkingRepository.get_occupancy_stats i w)
  end.

(** The contents the store can have: those of the empty database, and
    those left by a repository call made on reachable contents, whatever
    the environment. *)
Inductive reachable : database -> Prop :=
| reachable_empty : reachable empty_database
| reachable_call (w : world) (c : repository_call) :
    reachable (store w) -> reachable (store (perform c w)).

(** [booked c d n w w']: from [w] to [w'], [create_booking] has returned
    [n] times for the space [c] and the day [d], and the repository calls
    made in between have left the bookings of that space and day as they
    were. *)
Inductive booked (c : UUID) (d : date) : nat -> world -> world -> Prop :=
| booked_none (w : world) : booked c d 0 w w
| booked_create (n : nat) (w w1 w2 : world) (name phone : string) (id : UUID) :
    booked c d n w w1 ->
    CoworkingRepository.create_booking c d name phone w1 = (Ok id, w2) ->
    booked c d (S n) w w2
| booked_other (n : nat) (w w1 : world) (call : repository_call) :
    booked c d n w w1 ->
    bookings_for (store (perform call w1)) c d = bookings_for (store w1) c d ->
    booked c d n w (perform call w1).

(** An environment in which no statement and no commit fails. *)
Definition calm_environment (w : world) : Prop :=
  forall n, fault_at (env w) n = None.

(** No occupancy row for a space and day without bookings, one row
    otherwise. *)
Definition one_occupancy_row_per_booked_day (db : database) : Prop :=
  forall c d,
    List.length (occupancy_for db c d) =
    match bookings_for db c d with [] => 0%nat | _ :: _ => 1%nat end.

(** Every occupancy row carries the percentage of the bookings stored for
    its space and day. *)
Definition occupancy_matches_bookings (db : database) : Prop :=
  forall o, In o (coworking_occupancy db) ->
    co_occupancy_percentage o =
    Z.min 100
      (10 * Z.of_nat (List.length
                        (bookings_for db (co_coworking_id o) (co_date o)))).

(** Two constraints of the schema: the primary key of [organizer], and
    the foreign key of [event_organizer] to [event]. *)
Definition organizer_keys_hold (db : database) : Prop :=
  NoDup (map org_id (organizer db)) /\
  forall l, In l (event_organizer db) ->
    existsb (fun r => N.eqb (ev_id r) (eo_event_id l)) (event db) = true.

(** A computation that leaves the store among the contents that the
    repository calls can produce. *)
Definition keeps_reachable {A} (m : M A) : Prop :=
  forall w, reachable (store w) -> reachable (store (snd (m w))).

(** The requests of the two routers that are modelled, and the world
    after the answer to one of them. *)
Inductive request : Type :=
| GET_events
| GET_event (event_id : UUID)
| POST_event (event : EventRouter.EventCreateRequest)
| DELETE_event (event_id : UUID)
| GET_coworking_spaces
| GET_coworking_space (coworking_id : UUID)
| POST_coworking_space (coworking : CoworkingRouter.CoworkingCreateRequest)
| POST_booking (coworking_id : UUID) (booking : CoworkingRouter.BookingRequest)
| DELETE_coworking_space (coworking_id : UUID).

Definition answered (r : request) (w : world) : world :=
  match r with
  | GET_events => snd (serve 200 EventRouter.get_all_events w)
  | GET_event id => snd (serve 200 (EventRouter.get_event_by_id id) w)
  | POST_event event => snd (serve 201 (EventRouter.create_event event) w)
  | DELETE_event id => snd (serve 204 (EventRouter.delete_event id) w)
  | GET_coworking_spaces =>
      snd (serve 200 CoworkingRouter.get_all_coworking_spaces w)
  | GET_coworking_space id =>
      snd (serve 200 (CoworkingRouter.get_coworking_by_id id) w)
  | POST_coworking_space coworking =>
      snd (serve 201 (CoworkingRouter.create_coworking_space coworking) w)
  | POST_booking id booking =>
      snd (serve 200 (CoworkingRouter.create_booking id booking) w)
  | DELETE_coworking_space id =>
      snd (serve 204 (CoworkingRouter.delete_coworking_space id) w)
  end.

(** presentations/fastapi_app.py: the start-up of [lifespan] initializes
    the mock data, on the database as the application finds it. *)
Definition lifespan_startup : M unit := MockDataService.initialize_mock_data.

(** The world after the start-up on a store that the repository calls can
    have produced, followed by a sequence of requests. *)
Definition after_requests (w : world) (requests : list request) : world :=
  fold_left (fun w r => answered r w) requests (snd (lifespan_startup w)).

End Behaviour.
Export Behaviour.

(* ================================================================== *)
(** * Sample runs *)
(* ================================================================== *)

Module Sample.

(** An environment without failures: the n-th identifier is [n + 1], the
    n-th clock reading is [n] seconds after ten o'clock. *)
Definition clock (n : nat) : datetime :=
  Build_datetime 2024 1 1 10 0 (Z.of_nat n) 0 None.

Definition calm : oracle :=
  Build_oracle (fun n => N.of_nat (S n)) clock (fun _ => None).

(** The same environment in which the statement number [k] fails. *)
Definition failing (k : nat) (f : fault) : oracle :=
  Build_oracle (fun n => N.of_nat (S n)) clock
    (fun n => if Nat.eqb n k then Some f else None).

Definition may_day : date := Build_date 2024 5 1.

(** One coworking space, of identifier 1. *)
Definition hub : world :=
  perform (Coworking_create_coworking_space "Downtown Hub"
             "A modern coworking space" "123 Main Street" None)
    (initial_world calm).

Fixpoint book (n : nat) (w : world) : world :=
  match n with
  | O => w
  | S n' =>
      perform (Coworking_create_booking 1%N may_day "Alice Johnson"
                 "+1234567890") (book n' w)
  end.

(** The space above, in an environment whose statement number 5, the
    insertion of the occupancy row of the first booking, fails. *)
Definition hub_losing_connection : world :=
  Build_world (store hub)
    (failing 5 (FaultOperational "connection reset by peer"))
    (uuid_calls hub) (clock_reads hub) (statements hub) (logs hub).

Definition with_env (w : world) (o : oracle) : world :=
  Build_world (store w) o (uuid_calls w) (clock_reads w) (statements w)
    (logs w).

Definition ten_oclock : datetime := Build_datetime 2024 1 1 10 0 0 0 (Some 0).

Definition half_a_minute_later : datetime :=
  Build_datetime 2024 1 1 10 0 30 0 (Some 0).

(** The event "Demo" of the organizer "Acme": the organizer has the
    identifier 1, the event the identifier 2. *)
Definition demo : world :=
  snd (EventService.create_event "Demo" "A demonstration" "Demo day"
         ten_oclock "Main hall" None (Some "Acme") None None
         (initial_world calm)).

(** The same store when the next statement, the scan of the events by
    the duplicate check, fails. *)
Definition demo_scan_failing : world :=
  with_env demo
    (failing (statements demo) (FaultOperational "connection reset by peer")).

(** The same store when the statement after the next, the insertion of
    the event, is refused by a server whose messages are not in English. *)
Definition demo_insert_refused : world :=
  with_env demo
    (failing (S (statements demo))
       (FaultIntegrity
          ("un valore chiave duplicato viola il vincolo univoco " ++
           quoted "uq_event_title_start_date"))).

End Sample.

(* ================================================================== *)
(** * Facts about binary64 rounding *)
(* ================================================================== *)

Lemma digits2_pos_size p : digits2_pos p = Pos.size p.
Proof. induction p; simpl; congruence. Qed.

Lemma Zdigits2_bounds p :
  2 ^ (Zpos (digits2_pos p) - 1) <= Zpos p < 2 ^ Zpos (digits2_pos p).
Proof.
  rewrite digits2_pos_size. split.
  - pose proof (Pos.size_le p) as H.
    assert (2 ^ Zpos (Pos.size p) <= 2 * Zpos p) as H'.
    { rewrite <- Pos2Z.inj_pow. change (2 * Zpos p) with (Zpos p~0). exact H. }
    replace (Zpos (Pos.size p)) with (Zpos (Pos.size p) - 1 + 1) in H' by lia.
    rewrite Z.pow_add_r in H' by lia. lia.
  - pose proof (Pos.size_gt p) as H. rewrite <- Pos2Z.inj_pow. exact H.
Qed.

Lemma Zdigits2_unique m k :
  2 ^ (k - 1) <= m < 2 ^ k -> 0 < k -> Zdigits2 m = k.
Proof.
  intros [Hl Hu] Hk.
  assert (0 < m) as Hm by (pose proof (Z.pow_pos_nonneg 2 (k - 1)); lia).
  destruct m as [|p|p]; try lia. simpl.
  pose proof (Zdigits2_bounds p) as [Bl Bu].
  set (d := Zpos (digits2_pos p)) in *.
  assert (0 < d) by (unfold d; lia).
  destruct (Z.lt_trichotomy d k) as [Hlt|[Heq|Hgt]]; auto; exfalso.
  - assert (2 ^ d <= 2 ^ (k - 1)) by (apply Z.pow_le_mono_r; lia). lia.
  - assert (2 ^ k <= 2 ^ (d - 1)) by (apply Z.pow_le_mono_r; lia). lia.
Qed.

Lemma shr_1_m mrs : 0 <= shr_m mrs -> shr_m (shr_1 mrs) = shr_m mrs / 2.
Proof.
  destruct mrs as [m r s]; simpl. intros Hm.
  destruct m as [|[p|p|]|p]; simpl; try lia; try reflexivity.
  - rewrite (Pos2Z.inj_xI p). apply Z.div_unique with 1; lia.
  - rewrite (Pos2Z.inj_xO p). apply Z.div_unique with 0; lia.
Qed.

Lemma iter_pos_shr_1_m p : forall mrs,
  0 <= shr_m mrs -> shr_m (iter_pos shr_1 p mrs) = shr_m mrs / 2 ^ Zpos p.
Proof.
  induction p as [p IH|p IH|]; intros mrs Hm; simpl iter_pos.
  - assert (0 <= shr_m (shr_1 mrs)) as H1
        by (rewrite shr_1_m by assumption; apply Z.div_pos; lia).
    assert (0 <= shr_m (iter_pos shr_1 p (shr_1 mrs))) as H2
        by (rewrite IH by assumption; apply Z.div_pos; lia).
    assert (2 ^ Zpos p~1 = 2 * 2 ^ Zpos p * 2 ^ Zpos p) as Hp.
    { rewrite (Pos2Z.inj_xI p).
      replace (2 * Zpos p + 1) with (1 + Zpos p + Zpos p) by lia.
      rewrite !Z.pow_add_r by lia. reflexivity. }
    rewrite IH, IH, shr_1_m by assumption.
    rewrite !Z.div_div by lia. rewrite Hp; f_equal; lia.
  - assert (0 <= shr_m (iter_pos shr_1 p mrs)) as H2
        by (rewrite IH by assumption; apply Z.div_pos; lia).
    assert (2 ^ Zpos p~0 = 2 ^ Zpos p * 2 ^ Zpos p) as Hp.
    { rewrite (Pos2Z.inj_xO p).
      replace (2 * Zpos p) with (Zpos p + Zpos p) by lia.
      rewrite !Z.pow_add_r by lia. reflexivity. }
    rewrite IH, IH by assumption.
    rewrite !Z.div_div by lia. rewrite Hp; f_equal; lia.
  - rewrite shr_1_m by assumption. reflexivity.
Qed.

Lemma shr_spec mrs e n :
  0 <= n -> 0 <= shr_m mrs ->
  shr_m (fst (shr mrs e n)) = shr_m mrs / 2 ^ n /\ snd (shr mrs e n) = e + n.
Proof.
  intros Hn Hm. destruct n as [|p|p]; simpl; try lia.
  - rewrite Z.div_1_r. split; [reflexivity | lia].
  - split; [apply iter_pos_shr_1_m; assumption | reflexivity].
Qed.

Lemma shr_m_of_loc m l : shr_m (shr_record_of_loc m l) = m.
Proof. destruct l as [|[]]; reflexivity. Qed.

Lemma round_nearest_even_bounds m l :
  m <= round_nearest_even m l <= m + 1.
Proof.
  unfold round_nearest_even. destruct l as [|[]]; try lia.
  destruct (Z.even m); lia.
Qed.

Lemma fexp_normal e : -1021 <= e -> fexp 53 1024 e = e - 53.
Proof. intros H. unfold fexp, emin. lia. Qed.

(** The rounding of a positive number with at least 53 digits, away from
    the subnormal range. *)
Lemma binary_round_aux_normal (mx : positive) (ex : Z) (lx : location) :
  let d := Zpos (digits2_pos mx) in
  53 <= d -> -1021 <= d + ex ->
  exists m e,
    binary_round_aux 53 1024 false (Zpos mx) ex lx =
      (if e <=? 971 then S754_finite false m e else S754_infinity false) /\
    2 ^ 52 <= Zpos m < 2 ^ 53 /\
    ((e = d + ex - 53 /\ Zpos mx / 2 ^ (d - 53) <= Zpos m) \/
     (e = d + ex - 52 /\ Zpos m = 2 ^ 52)).
Proof.
  intros d Hd He.
  pose proof (Zdigits2_bounds mx) as [Bl Bu]. fold d in Bl, Bu.
  unfold binary_round_aux, shr_fexp.
  change (Zdigits2 (Zpos mx)) with d.
  rewrite fexp_normal by lia.
  replace (d + ex - 53 - ex) with (d - 53) by lia.
  pose proof (shr_spec (shr_record_of_loc (Zpos mx) lx) ex (d - 53)) as S1.
  rewrite shr_m_of_loc in S1.
  destruct S1 as [S1m S1e]; try lia.
  destruct (shr (shr_record_of_loc (Zpos mx) lx) ex (d - 53)) as [mrs1 e1].
  cbn [fst snd] in S1m, S1e. subst e1.
  set (m1 := shr_m mrs1) in *.
  assert (2 ^ 52 <= m1 < 2 ^ 53) as Hm1.
  { rewrite S1m. split.
    - apply Z.div_le_lower_bound; [apply Z.pow_pos_nonneg; lia|].
      rewrite <- Z.pow_add_r by lia. replace (d - 53 + 52) with (d - 1) by lia. exact Bl.
    - apply Z.div_lt_upper_bound; [apply Z.pow_pos_nonneg; lia|].
      rewrite <- Z.pow_add_r by lia. replace (d - 53 + 53) with d by lia. exact Bu. }
  pose proof (round_nearest_even_bounds m1 (loc_of_shr_record mrs1)) as Hr.
  set (m2 := round_nearest_even m1 (loc_of_shr_record mrs1)) in *.
  destruct (Z.eq_dec m2 (2 ^ 53)) as [Heq|Hne].
  - (* the mantissa overflows to 2^53 and is shifted once more *)
    assert (Zdigits2 m2 = 54) as Hd2 by (rewrite Heq; reflexivity).
    rewrite Hd2, fexp_normal by lia.
    replace (54 + (ex + (d - 53)) - 53 - (ex + (d - 53))) with 1 by lia.
    pose proof (shr_spec (shr_record_of_loc m2 loc_Exact) (ex + (d - 53)) 1) as S2.
    rewrite shr_m_of_loc in S2. destruct S2 as [S2m S2e]; try lia.
    destruct (shr (shr_record_of_loc m2 loc_Exact) (ex + (d - 53)) 1) as [mrs2 e2].
    cbn [fst snd] in S2m, S2e. subst e2.
    rewrite S2m, Heq. change (2 ^ 53 / 2 ^ 1) with (Zpos (2 ^ 52)).
    exists (2 ^ 52)%positive, (ex + (d - 53) + 1). split; [reflexivity|].
    split; [split; reflexivity || lia|]. right. split; [lia | reflexivity].
  - assert (Zdigits2 m2 = 53) as Hd2 by (apply Zdigits2_unique; lia).
    rewrite Hd2, fexp_normal by lia.
    replace (53 + (ex + (d - 53)) - 53 - (ex + (d - 53))) with 0 by lia.
    simpl shr. 
    destruct m2 as [|p2|p2] eqn:E2; try lia.
    exists p2, (ex + (d - 53)). split; [reflexivity|].
    split; [lia|]. left. split; [lia|]. rewrite <- S1m. lia.
Qed.

Lemma digits_lower q k : 2 ^ k <= Zpos q -> 0 <= k -> k + 1 <= Zpos (digits2_pos q).
Proof.
  intros H Hk. pose proof (Zdigits2_bounds q) as [_ Bu].
  destruct (Z_lt_le_dec (Zpos (digits2_pos q)) (k + 1)) as [Hlt|]; [exfalso|lia].
  assert (2 ^ Zpos (digits2_pos q) <= 2 ^ k) by (apply Z.pow_le_mono_r; lia). lia.
Qed.

Lemma digits_upper q k : Zpos q < 2 ^ k -> 0 <= k -> Zpos (digits2_pos q) <= k.
Proof.
  intros H Hk. pose proof (Zdigits2_bounds q) as [Bl _].
  destruct (Z_lt_le_dec k (Zpos (digits2_pos q))) as [Hlt|]; [exfalso|lia].
  assert (2 ^ k <= 2 ^ (Zpos (digits2_pos q) - 1)) by (apply Z.pow_le_mono_r; lia). lia.
Qed.

Lemma shifted_mantissa m s :
  0 <= s ->
  match s with Z.pos _ => Z.shiftl m s | 0 => m | Z.neg _ => 0 end = m * 2 ^ s.
Proof.
  intros Hs. destruct s as [|p|p]; try lia.
  apply Z.shiftl_mul_pow2. lia.
Qed.

(** The quotient and exponent handed to the rounding by the division of an
    integer [n >= 10] by ten. *)
Lemma div_core_by_ten (n : positive) :
  10 <= Zpos n ->
  let dn := Zpos (digits2_pos n) in
  exists q e l,
    SFdiv_core_binary 53 1024 (Zpos n) 0 10 0 = (Zpos q, e, l) /\
    53 <= Zpos (digits2_pos q) /\
    1 <= Zpos (digits2_pos q) + e <= dn - 3.
Proof.
  intros Hn dn.
  pose proof (Zdigits2_bounds n) as [Bl Bu]. fold dn in Bl, Bu.
  assert (4 <= dn) as Hdn by (apply (digits_lower n 3); simpl; lia).
  unfold SFdiv_core_binary.
  change (Zdigits2 (Zpos n)) with dn. change (Zdigits2 10) with 4.
  replace (dn + 0 - (4 + 0)) with (dn - 4) by lia.
  rewrite fexp_normal by lia.
  change (0 - 0) with 0.
  set (e := Z.min (dn - 4 - 53) 0).
  set (s := 0 - e).
  assert (0 <= s) as Hs by (unfold s, e; lia).
  set (m' := match s with Z.pos _ => Z.shiftl (Zpos n) s | 0 => Zpos n | Z.neg _ => 0 end).
  assert (m' = Zpos n * 2 ^ s) as Hm'.
  { apply shifted_mantissa. exact Hs. }
  clearbody m'.
  assert (0 < 2 ^ s) as Hps by (apply Z.pow_pos_nonneg; lia).
  pose proof (Z_div_mod m' 10 ltac:(lia)) as Hdiv.
  destruct (Z.div_eucl m' 10) as [q r].
  destruct Hdiv as [Hdiv Hr].
  assert (2 ^ 56 <= 2 ^ (dn - 1 + s)) as H56
      by (apply Z.pow_le_mono_r; unfold s, e; lia).
  rewrite Z.pow_add_r in H56 by lia.
  assert (2 ^ dn * 2 ^ s = 8 * 2 ^ (dn + s - 3)) as H8.
  { rewrite <- Z.pow_add_r by lia.
    change 8 with (2 ^ 3). rewrite <- Z.pow_add_r by lia.
    f_equal. lia. }
  assert (0 < 2 ^ (dn + s - 3)) by (apply Z.pow_pos_nonneg; lia).
  assert (2 ^ 52 <= q) as Hq52 by (change (2 ^ 56) with 72057594037927936 in H56; change (2 ^ 52) with 4503599627370496; nia).
  assert (2 ^ s <= q) as Hqs by nia.
  assert (q < 2 ^ (dn + s - 3)) as Hqu by nia.
  destruct q as [|q|q]; try lia.
  exists q, e, (new_location 10 r). split; [reflexivity|].
  pose proof (digits_lower q 52 Hq52 ltac:(lia)).
  pose proof (digits_lower q s Hqs Hs).
  pose proof (digits_upper q (dn + s - 3) Hqu ltac:(lia)).
  unfold s in *. lia.
Qed.

Lemma truediv_by_ten (n : positive) :
  10 <= Zpos n ->
  exists m e,
    SFdiv 53 1024 (S754_finite false n 0) (S754_finite false 10 0) =
      (if e <=? 971 then S754_finite false m e else S754_infinity false) /\
    2 ^ 52 <= Zpos m < 2 ^ 53 /\
    -52 <= e <= Zpos (digits2_pos n) - 55.
Proof.
  intros Hn.
  destruct (div_core_by_ten n Hn) as (q & e' & l & Hcore & Hq & Hqe).
  unfold SFdiv. rewrite Hcore.
  destruct (binary_round_aux_normal q e' l Hq ltac:(lia))
    as (m & e & Hround & Hm & He).
  exists m, e. split; [exact Hround|]. split; [exact Hm|]. lia.
Qed.

Lemma mul_by_hundred (m : positive) (e : Z) :
  2 ^ 52 <= Zpos m < 2 ^ 53 -> -52 <= e ->
  exists m2 e2,
    SFmul 53 1024 (S754_finite false m e) (S754_finite false 7036874417766400 (-46)) =
      (if e2 <=? 971 then S754_finite false m2 e2 else S754_infinity false) /\
    2 ^ 52 <= Zpos m2 < 2 ^ 53 /\
    -46 <= e2 <= e + 8 /\
    (e2 = -46 -> 100 * 2 ^ 46 <= Zpos m2).
Proof.
  intros Hm He. unfold SFmul. cbn [xorb].
  set (p := (m * 7036874417766400)%positive).
  assert (Zpos p = Zpos m * (100 * 2 ^ 46)) as Hp by reflexivity.
  assert (2 ^ 104 <= Zpos p < 2 ^ 106) as Hp2.
  { change (2 ^ 104) with (2 ^ 52 * 2 ^ 52). change (2 ^ 106) with (2 ^ 53 * 2 ^ 53).
    change (2 ^ 46) with 70368744177664 in Hp.
    change (2 ^ 52) with 4503599627370496 in *.
    change (2 ^ 53) with 9007199254740992 in *. nia. }
  pose proof (digits_lower p 104 (proj1 Hp2) ltac:(lia)) as Hdl.
  pose proof (digits_upper p 106 (proj2 Hp2) ltac:(lia)) as Hdu.
  destruct (binary_round_aux_normal p (e + -46) loc_Exact ltac:(lia) ltac:(lia))
    as (m2 & e2 & Hround & Hm2 & He2).
  exists m2, e2. split; [exact Hround|]. split; [exact Hm2|]. split; [lia|].
  intros E. destruct He2 as [[He2 Hlow]|[He2 _]]; [|lia].
  assert (Zpos (digits2_pos p) = 105) as Hd by lia.
  rewrite Hd in Hlow. change (105 - 53) with 52 in Hlow.
  eapply Z.le_trans; [|exact Hlow].
  apply Z.div_le_lower_bound; [reflexivity|].
  rewrite Hp. change (2 ^ 46) with 70368744177664.
  change (2 ^ 52) with 4503599627370496 in *. lia.
Qed.

Lemma int_of_float_at_least_100 (m : positive) (e : Z) :
  2 ^ 52 <= Zpos m -> -46 <= e -> (e = -46 -> 100 * 2 ^ 46 <= Zpos m) ->
  exists i, int_of_float (S754_finite false m e) = Ok i /\ 100 <= i.
Proof.
  intros Hm He H46. unfold int_of_float.
  destruct e as [|p|p].
  - eexists; split; [reflexivity|]. rewrite Z.shiftl_0_r.
    change (2 ^ 52) with 4503599627370496 in Hm. lia.
  - eexists; split; [reflexivity|]. rewrite Z.shiftl_mul_pow2 by lia.
    assert (1 <= 2 ^ Zpos p) by (pose proof (Z.pow_pos_nonneg 2 (Zpos p)); lia).
    change (2 ^ 52) with 4503599627370496 in Hm. nia.
  - eexists; split; [reflexivity|]. rewrite Z.shiftr_div_pow2 by lia.
    apply Z.div_le_lower_bound; [apply Z.pow_pos_nonneg; lia|].
    destruct (Z.eq_dec (Zpos p) 46) as [E|NE].
    + rewrite E. specialize (H46 ltac:(lia)). lia.
    + assert (2 ^ Zpos p <= 2 ^ 45) by (apply Z.pow_le_mono_r; lia).
      change (2 ^ 45) with 35184372088832 in *.
      change (2 ^ 52) with 4503599627370496 in Hm. lia.
Qed.

Lemma occupancy_percentage_saturated (n : Z) :
  10 <= n ->
  (n < 2 ^ 1000 -> CoworkingRepository.occupancy_percentage n = Ok 100) /\
  (forall p, CoworkingRepository.occupancy_percentage n = Ok p -> p = 100).
Proof.
  intros Hn. destruct n as [|n|n]; try lia.
  destruct (truediv_by_ten n Hn) as (m & e & Hdiv & Hm & He).
  destruct (mul_by_hundred m e Hm ltac:(lia)) as (m2 & e2 & Hmul & Hm2 & He2 & H46).
  destruct (int_of_float_at_least_100 m2 e2 ltac:(lia) ltac:(lia) H46)
    as (i & Hi & Hi100).
  assert (Zpos n < 2 ^ 1000 -> e <= 971 /\ e2 <= 971) as Hsmall.
  { intros Hlt. pose proof (digits_upper n 1000 Hlt ltac:(lia)). lia. }
  unfold CoworkingRepository.occupancy_percentage, int_truediv.
  cbn [Z.abs Z.to_pos]. unfold prec, emax. rewrite Hdiv.
  unfold float_mul_int.
  change (float_of_int 100) with (Ok (S754_finite false 7036874417766400 (-46))).
  destruct (e <=? 971) eqn:E1.
  - unfold prec, emax. rewrite Hmul.
    destruct (e2 <=? 971) eqn:E2.
    + rewrite Hi. replace (Z.min i 100) with 100 by lia.
      split; [reflexivity|]. intros p Hp. congruence.
    + cbn [int_of_float]. split; [|discriminate].
      intros Hlt. apply Hsmall in Hlt. apply Z.leb_gt in E2. lia.
  - split; [|discriminate].
    intros Hlt. apply Hsmall in Hlt. apply Z.leb_gt in E1. lia.
Qed.

Lemma occupancy_percentage_spec (n : Z) :
  0 <= n ->
  (n < 2 ^ 1000 ->
   CoworkingRepository.occupancy_percentage n = Ok (Z.min 100 (10 * n))) /\
  (forall p, CoworkingRepository.occupancy_percentage n = Ok p ->
             p = Z.min 100 (10 * n)).
Proof.
  intros Hn. destruct (Z_lt_le_dec n 10) as [Hlt|Hge].
  - assert (Z.to_nat n < 10)%nat as Hk by lia.
    rewrite <- (Z2Nat.id n Hn). clear Hn Hlt.
    generalize dependent (Z.to_nat n). intros k Hk.
    do 10 (destruct k as [|k];
           [split; [intros _; vm_compute; reflexivity
                   | intros p Hp; vm_compute in Hp; injection Hp as <-;
                     reflexivity]|]).
    lia.
  - destruct (occupancy_percentage_saturated n Hge) as [H1 H2].
    replace (Z.min 100 (10 * n)) with 100 by lia. split; assumption.
Qed.

(* ================================================================== *)
(** * Symbolic execution of the monadic code *)
(* ================================================================== *)

Ltac reduce_in H :=
  cbv beta iota delta
    [bind ret raise try_except get_session begin execute uuid4 datetime_now
     logger sent set_store query unique_violation foreign_key_violation] in H;
  cbn [store env statements uuid_calls clock_reads logs fst snd] in H.

Ltac run_in H :=
  repeat (reduce_in H;
          first
            [ match type of H with
              | context [match ?x with _ => _ end] =>
                  lazymatch x with
                  | context [match _ with _ => _ end] => fail
                  | _ => destruct x eqn:?
                  end
              end
            | match type of H with
              | context [match ?x with _ => _ end] =>
                  lazymatch x with
                  | match _ with _ => _ end => fail
                  | (match _ with _ => _ end) _ => fail
                  | _ => destruct x eqn:?
                  end
              end ]).

Ltac unfold_repositories H :=
  unfold EventRepository.get_all_events, EventRepository.get_event_by_id,
    EventRepository.create_event, EventRepository.update_event,
    EventRepository.delete_event, OrganizerRepository.get_all_organizers,
    OrganizerRepository.get_organizer_by_id,
    OrganizerRepository.create_organizer, OrganizerRepository.update_organizer,
    OrganizerRepository.delete_organizer,
    CoworkingRepository.get_all_coworking_spaces,
    CoworkingRepository.get_coworking_by_id,
    CoworkingRepository.create_coworking_space,
    CoworkingRepository.update_coworking_space,
    CoworkingRepository.delete_coworking_space,
    CoworkingRepository.create_booking, CoworkingRepository._update_occupancy,
    CoworkingRepository.get_occupancy_stats in H;
  unfold select_events_order_by_start_date, select_event_where_id,
    select_organizer_of_event, insert_event, update_event_where_id,
    delete_event_where_id, insert_event_organizer,
    delete_event_organizer_where_event_id, select_organizers,
    select_organizer_where_id, insert_organizer, update_organizer_where_id,
    delete_organizer_where_id, select_coworking_spaces,
    select_coworking_space_where_id, insert_coworking_space,
    update_coworking_space_where_id, delete_coworking_space_where_id,
    insert_coworking_booking, count_bookings, select_first_occupancy,
    update_occupancy_where, insert_coworking_occupancy, select_occupancy_stats
    in H.

Tactic Notation "tables" :=
  cbn [event organizer event_organizer coworking_space coworking_booking
       coworking_occupancy set_event set_organizer set_event_organizer
       set_coworking_space set_coworking_booking set_coworking_occupancy
       store].
Tactic Notation "tables" "in" "*" :=
  cbn [event organizer event_organizer coworking_space coworking_booking
       coworking_occupancy set_event set_organizer set_event_organizer
       set_coworking_space set_coworking_booking set_coworking_occupancy
       store] in *.


(** ** Keys of bookings and occupancy rows *)

Lemma date_eqb_eq (a b : date) : date_eqb a b = true <-> a = b.
Proof.
  unfold date_eqb. destruct a as [y m d], b as [y' m' d']; cbn.
  rewrite !andb_true_iff, !Z.eqb_eq. split.
  - intros [[-> ->] ->]. reflexivity.
  - intros H. inversion H. auto.
Qed.

Lemma booking_on_true c d b :
  booking_on c d b = true <-> cb_coworking_id b = c /\ cb_booking_date b = d.
Proof.
  unfold booking_on. rewrite andb_true_iff, N.eqb_eq, date_eqb_eq. tauto.
Qed.

Lemma occupancy_on_true c d o :
  occupancy_on c d o = true <-> co_coworking_id o = c /\ co_date o = d.
Proof.
  unfold occupancy_on. rewrite andb_true_iff, N.eqb_eq, date_eqb_eq. tauto.
Qed.

(** ** Lists *)

Lemma find_none_filter {A} (f : A -> bool) (l : list A) :
  find f l = None <-> filter f l = [].
Proof.
  induction l as [|x l IH]; cbn; [tauto|].
  destruct (f x); [split; discriminate | exact IH].
Qed.

Lemma filter_map_if_same {A} (f : A -> bool) (g : A -> A) (l : list A) :
  (forall x, f (g x) = f x) ->
  filter f (map (fun x => if f x then g x else x) l) = map g (filter f l).
Proof.
  intros Hg. induction l as [|x l IH]; cbn; [reflexivity|].
  destruct (f x) eqn:E.
  - rewrite Hg, E. cbn. f_equal. exact IH.
  - rewrite E. exact IH.
Qed.

Lemma filter_map_if_other {A} (f h : A -> bool) (g : A -> A) (l : list A) :
  (forall x, f (g x) = f x) -> (forall x, f x = true -> h x = false) ->
  filter f (map (fun x => if h x then g x else x) l) = filter f l.
Proof.
  intros Hg Hh. induction l as [|x l IH]; cbn; [reflexivity|].
  destruct (h x) eqn:E.
  - rewrite Hg. destruct (f x) eqn:F.
    + rewrite (Hh x F) in E. discriminate.
    + exact IH.
  - destruct (f x); [f_equal|]; exact IH.
Qed.

Lemma filter_filter_same {A} (f h : A -> bool) (l : list A) :
  (forall x, f x = true -> h x = true) ->
  filter f (filter h l) = filter f l.
Proof.
  intros Hh. induction l as [|x l IH]; cbn; [reflexivity|].
  destruct (h x) eqn:E; cbn.
  - destruct (f x); [f_equal|]; exact IH.
  - destruct (f x) eqn:F; [|exact IH].
    rewrite (Hh x F) in E. discriminate.
Qed.

Lemma filter_filter_none {A} (f h : A -> bool) (l : list A) :
  (forall x, f x = true -> h x = false) ->
  filter f (filter h l) = [].
Proof.
  intros Hh. induction l as [|x l IH]; cbn; [reflexivity|].
  destruct (h x) eqn:E; cbn; [|exact IH].
  destruct (f x) eqn:F; [|exact IH].
  rewrite (Hh x F) in E. discriminate.
Qed.

(** ** What a call of [create_booking] that returns has done *)

Lemma create_booking_returns c d n p w id w' :
  CoworkingRepository.create_booking c d n p w = (Ok id, w') ->
  exists b pct,
    coworking_booking (store w') = (coworking_booking (store w) ++ [b])%list /\
    cb_id b = id /\ cb_coworking_id b = c /\ cb_booking_date b = d /\
    CoworkingRepository.occupancy_percentage
      (Z.of_nat (List.length (bookings_for (store w') c d))) = Ok pct /\
    ((exists now,
        find (occupancy_on c d) (coworking_occupancy (store w)) <> None /\
        coworking_occupancy (store w') =
          map (fun o => if occupancy_on c d o
                        then set_occupancy_values pct now o else o)
            (coworking_occupancy (store w)))
     \/
     (exists o,
        find (occupancy_on c d) (coworking_occupancy (store w)) = None /\
        coworking_occupancy (store w') =
          (coworking_occupancy (store w) ++ [o])%list /\
        co_coworking_id o = c /\ co_date o = d /\
        co_occupancy_percentage o = pct)).
Proof.
  intros H. unfold_repositories H. run_in H; inversion H; subst; clear H.
  all: unfold bookings_for; tables.
  all: eexists; eexists.
  all: repeat (split; [reflexivity|]); (split; [eassumption|]).
  - left. eexists. split; [tables in *; congruence | reflexivity].
  - right. eexists. split; [tables in *; eassumption|].
    split; [reflexivity|]. repeat (split; [reflexivity|]). reflexivity.
Qed.

(** [create_booking] leaves the store as it was when it raises. *)
Lemma create_booking_raises c d n p w e w' :
  CoworkingRepository.create_booking c d n p w = (Raise e, w') ->
  store w' = store w.
Proof.
  intros H. unfold_repositories H. run_in H; inversion H; subst; reflexivity.
Qed.

(** The rows of the booked space and day after a call that returns. *)
Lemma create_booking_same_day c d n p w id w' :
  CoworkingRepository.create_booking c d n p w = (Ok id, w') ->
  List.length (bookings_for (store w') c d) =
    S (List.length (bookings_for (store w) c d)) /\
  occupancy_for (store w') c d <> [] /\
  List.length (occupancy_for (store w') c d) =
    Nat.max 1 (List.length (occupancy_for (store w) c d)) /\
  forall o, In o (occupancy_for (store w') c d) ->
    CoworkingRepository.occupancy_percentage
      (Z.of_nat (List.length (bookings_for (store w') c d))) =
    Ok (co_occupancy_percentage o).
Proof.
  intros H.
  destruct (create_booking_returns _ _ _ _ _ _ _ H)
    as (b & pct & Hb & _ & Hc & Hd & Hpct & Hocc).
  assert (booking_on c d b = true) as Hon by (apply booking_on_true; auto).
  split.
  { unfold bookings_for. rewrite Hb, filter_app. cbn. rewrite Hon.
    rewrite length_app. cbn. lia. }
  unfold occupancy_for.
  destruct Hocc as [(now & Hfind & ->)|(o & Hfind & -> & Hoc & Hod & Hop)].
  - rewrite filter_map_if_same by reflexivity.
    rewrite find_none_filter in Hfind.
    destruct (filter (occupancy_on c d) (coworking_occupancy (store w)))
      as [|o l]; [congruence|].
    split; [discriminate|]. split; [cbn; rewrite length_map; lia|].
    intros o' Hin. apply in_map_iff in Hin. destruct Hin as (x & <- & _).
    exact Hpct.
  - rewrite filter_app. apply find_none_filter in Hfind. rewrite Hfind.
    assert (occupancy_on c d o = true) as Ho by (apply occupancy_on_true; auto).
    cbn. rewrite Ho. split; [discriminate|]. split; [reflexivity|].
    intros o' [<-|[]]. rewrite Hop. exact Hpct.
Qed.

(** The rows of another space or day are left as they were. *)
Lemma create_booking_other_day c d n p w id w' c0 d0 :
  CoworkingRepository.create_booking c d n p w = (Ok id, w') ->
  (c0 <> c \/ d0 <> d) ->
  bookings_for (store w') c0 d0 = bookings_for (store w) c0 d0 /\
  occupancy_for (store w') c0 d0 = occupancy_for (store w) c0 d0.
Proof.
  intros H Hne.
  destruct (create_booking_returns _ _ _ _ _ _ _ H)
    as (b & pct & Hb & _ & Hc & Hd & _ & Hocc).
  assert (forall o, occupancy_on c0 d0 o = true -> occupancy_on c d o = false)
    as Hdisj.
  { intros o Ho. apply occupancy_on_true in Ho. destruct Ho as [Hoc Hod].
    destruct (occupancy_on c d o) eqn:E; [|reflexivity].
    apply occupancy_on_true in E. destruct E; subst. tauto. }
  split.
  - unfold bookings_for. rewrite Hb, filter_app. cbn.
    destruct (booking_on c0 d0 b) eqn:E.
    + apply booking_on_true in E. destruct E; subst. tauto.
    + apply app_nil_r.
  - unfold occupancy_for.
    destruct Hocc as [(now & _ & ->)|(o & _ & -> & Hoc & Hod & _)].
    + apply filter_map_if_other; [reflexivity | exact Hdisj].
    + rewrite filter_app. cbn.
      destruct (occupancy_on c0 d0 o) eqn:E.
      * apply occupancy_on_true in E. destruct E; subst. tauto.
      * apply app_nil_r.
Qed.

Lemma perform_coworking_tables (call : repository_call) (w : world) :
  (coworking_booking (store (perform call w)) = coworking_booking (store w) /\
   coworking_occupancy (store (perform call w)) = coworking_occupancy (store w))
  \/ (exists c,
        coworking_booking (store (perform call w)) =
          filter (fun b => negb (N.eqb (cb_coworking_id b) c))
            (coworking_booking (store w)) /\
        coworking_occupancy (store (perform call w)) =
          filter (fun o => negb (N.eqb (co_coworking_id o) c))
            (coworking_occupancy (store w)))
  \/ (exists c d n p id,
        CoworkingRepository.create_booking c d n p w = (Ok id, perform call w)).
Proof.
  destruct call; unfold perform;
    match goal with
    | |- context [snd (?f w)] => destruct (f w) as [r w'] eqn:E
    end; cbn [snd].
  16: { destruct r. 
        - right; right. eauto 10.
        - left. unfold_repositories E. run_in E; inversion E; subst; tables; auto. }
  all: unfold_repositories E.
  all: run_in E; inversion E; subst; tables; auto.
  all: right; left; eexists; split; reflexivity.
Qed.

(** ** Calls that leave the bookings of a day as they were *)

Lemma perform_keeps_occupancy c d call w :
  bookings_for (store (perform call w)) c d = bookings_for (store w) c d ->
  bookings_for (store w) c d <> [] ->
  occupancy_for (store (perform call w)) c d = occupancy_for (store w) c d.
Proof.
  intros Hsame Hsome.
  destruct (perform_coworking_tables call w)
    as [[Hb Ho]|[(c' & Hb & Ho)|(c' & d' & n & p & id & Hcall)]].
  - unfold occupancy_for. rewrite Ho. reflexivity.
  - unfold bookings_for, occupancy_for in *. rewrite Hb in Hsame. rewrite Ho.
    destruct (N.eq_dec c c') as [<-|Hne].
    + rewrite filter_filter_none in Hsame; [congruence|].
      intros b Hon. apply booking_on_true in Hon. destruct Hon as [-> _].
      rewrite N.eqb_refl. reflexivity.
    + apply filter_filter_same.
      intros o Hon. apply occupancy_on_true in Hon. destruct Hon as [Hc _].
      apply negb_true_iff, N.eqb_neq. congruence.
  - destruct (N.eq_dec c c') as [<-|Hne].
    + destruct (date_eqb d d') eqn:E.
      * apply date_eqb_eq in E. subst d'.
        apply create_booking_same_day in Hcall. destruct Hcall as [Hlen _].
        rewrite Hsame in Hlen. lia.
      * apply (create_booking_other_day _ _ _ _ _ _ _ c d) in Hcall; [tauto|].
        right. intros ->. rewrite (proj2 (date_eqb_eq d' d')) in E by reflexivity.
        discriminate.
    + apply (create_booking_other_day _ _ _ _ _ _ _ c d) in Hcall; tauto.
Qed.

Lemma booked_state c d n w0 w :
  booked c d n w0 w ->
  bookings_for (store w0) c d = [] ->
  List.length (bookings_for (store w) c d) = n /\
  ((1 <= n)%nat ->
   occupancy_for (store w) c d <> [] /\
   forall o, In o (occupancy_for (store w) c d) ->
     CoworkingRepository.occupancy_percentage (Z.of_nat n) =
     Ok (co_occupancy_percentage o)).
Proof.
  intros Hrun Hnone.
  induction Hrun as [w|n w w1 w2 name phone id Hrun IH Hcall
                    |n w w1 call Hrun IH Hsame].
  - rewrite Hnone. split; [reflexivity | lia].
  - destruct (IH Hnone) as [Hlen _].
    destruct (create_booking_same_day _ _ _ _ _ _ _ Hcall)
      as (Hlen' & Hsome & _ & Hpct).
    rewrite Hlen in Hlen'. split; [exact Hlen'|]. intros _.
    rewrite Hlen' in Hpct. split; assumption.
  - destruct (IH Hnone) as [Hlen Hocc].
    split; [rewrite Hsame; exact Hlen|]. intros Hn.
    rewrite perform_keeps_occupancy; [auto | exact Hsame|].
    intros E. rewrite E in Hlen. cbn in Hlen. lia.
Qed.

(** C1. After [n >= 1] bookings created by [create_booking] for one space
    and one day, starting with no booking for them and with no other change
    to their bookings, the occupancy table has a row for that space and day,
    and every such row carries [min(100, 10 * n)], the value of
    [min(100, floor(n / 10 * 100))]; the count [n] includes the booking just
    inserted. *)
Theorem occupancy_after_bookings (c : UUID) (d : date) (n : nat)
  (w0 w : world) :
  bookings_for (store w0) c d = [] ->
  booked c d n w0 w ->
  (1 <= n)%nat ->
  List.length (bookings_for (store w) c d) = n /\
  (exists o, In o (occupancy_for (store w) c d)) /\
  (forall o, In o (occupancy_for (store w) c d) ->
     co_occupancy_percentage o = Z.min 100 (10 * Z.of_nat n) /\
     co_occupancy_percentage o = Z.min 100 (Z.of_nat n * 100 / 10)).
Proof.
  intros Hnone Hrun Hn.
  destruct (booked_state c d n w0 w Hrun Hnone) as [Hlen Hocc].
  destruct (Hocc Hn) as [Hsome Hpct].
  split; [exact Hlen|]. split.
  - destruct (occupancy_for (store w) c d) as [|o l]; [congruence|].
    exists o. left. reflexivity.
  - intros o Hin.
    assert (co_occupancy_percentage o = Z.min 100 (10 * Z.of_nat n)) as E.
    { apply (proj2 (occupancy_percentage_spec (Z.of_nat n) ltac:(lia))).
      apply Hpct. exact Hin. }
    split; [exact E|]. rewrite E. f_equal.
    replace (Z.of_nat n * 100) with (10 * Z.of_nat n * 10) by lia.
    rewrite Z.div_mul by lia. reflexivity.
Qed.

Lemma occupancy_after_bookings_witness :
  List.length (bookings_for (store (Sample.book 3 Sample.hub)) 1%N
                 Sample.may_day) = 3%nat /\
  (exists o,
     In o (occupancy_for (store (Sample.book 3 Sample.hub)) 1%N Sample.may_day)) /\
  (forall o,
     In o (occupancy_for (store (Sample.book 3 Sample.hub)) 1%N Sample.may_day) ->
     co_occupancy_percentage o = Z.min 100 (10 * Z.of_nat 3) /\
     co_occupancy_percentage o = Z.min 100 (Z.of_nat 3 * 100 / 10)).
Proof.
  apply (occupancy_after_bookings 1%N Sample.may_day 3 Sample.hub
           (Sample.book 3 Sample.hub)).
  - reflexivity.
  - apply (booked_create 1%N Sample.may_day 2 Sample.hub
             (Sample.book 2 Sample.hub) _ "Alice Johnson" "+1234567890" 5%N).
    + apply (booked_create 1%N Sample.may_day 1 Sample.hub
               (Sample.book 1 Sample.hub) _ "Alice Johnson" "+1234567890" 4%N).
      * apply (booked_create 1%N Sample.may_day 0 Sample.hub Sample.hub _
                 "Alice Johnson" "+1234567890" 2%N).
        -- apply booked_none.
        -- vm_compute. reflexivity.
      * vm_compute. reflexivity.
    + vm_compute. reflexivity.
  - lia.
Defined.

(** ** The invariant of the occupancy table *)

Lemma perform_preserves_one_row call w :
  one_occupancy_row_per_booked_day (store w) ->
  one_occupancy_row_per_booked_day (store (perform call w)).
Proof.
  intros Hinv c d. specialize (Hinv c d).
  destruct (perform_coworking_tables call w)
    as [[Hb Ho]|[(c' & Hb & Ho)|(c' & d' & n & p & id & Hcall)]].
  - unfold occupancy_for, bookings_for in *. rewrite Hb, Ho. exact Hinv.
  - unfold occupancy_for, bookings_for in *. rewrite Hb, Ho.
    destruct (N.eq_dec c c') as [<-|Hne].
    + rewrite !filter_filter_none; [reflexivity| |].
      * intros b Hon. apply booking_on_true in Hon. destruct Hon as [-> _].
        rewrite N.eqb_refl. reflexivity.
      * intros o Hon. apply occupancy_on_true in Hon. destruct Hon as [-> _].
        rewrite N.eqb_refl. reflexivity.
    + rewrite !filter_filter_same; [exact Hinv| |].
      * intros b Hon. apply booking_on_true in Hon. destruct Hon as [Hc _].
        apply negb_true_iff, N.eqb_neq. congruence.
      * intros o Hon. apply occupancy_on_true in Hon. destruct Hon as [Hc _].
        apply negb_true_iff, N.eqb_neq. congruence.
  - assert ((c = c' /\ d = d') \/ (c <> c' \/ d <> d')) as [[<- <-]|Hne].
    { destruct (N.eq_dec c c'); [|tauto].
      destruct (date_eqb d d') eqn:E; [apply date_eqb_eq in E; tauto|].
      right; right. intros ->.
      rewrite (proj2 (date_eqb_eq d' d')) in E by reflexivity. discriminate. }
    + destruct (create_booking_same_day _ _ _ _ _ _ _ Hcall)
        as (Hlen & _ & Hocc & _).
      rewrite Hocc, Hinv.
      destruct (bookings_for (store (perform call w)) c d); [discriminate|].
      destruct (bookings_for (store w) c d); reflexivity.
    + destruct (create_booking_other_day _ _ _ _ _ _ _ c d Hcall Hne)
        as [-> ->].
      exact Hinv.
Qed.

Lemma reachable_one_row db :
  reachable db -> one_occupancy_row_per_booked_day db.
Proof.
  induction 1 as [|w call _ IH].
  - intros c d. reflexivity.
  - apply perform_preserves_one_row. exact IH.
Qed.

(** What a call of [create_booking] that returns has written to the
    occupancy table: the percentage of the new number of bookings, with the
    third reading of the clock of the call as [updated_at] of the rows it
    rewrites, or one row that carries the second identifier generated and the
    third and fourth readings of the clock. *)
Lemma create_booking_writes c d n p w id w' :
  CoworkingRepository.create_booking c d n p w = (Ok id, w') ->
  exists pct,
    CoworkingRepository.occupancy_percentage
      (Z.of_nat (S (List.length (bookings_for (store w) c d)))) = Ok pct /\
    ((find (occupancy_on c d) (coworking_occupancy (store w)) <> None /\
      coworking_occupancy (store w') =
        map (fun o => if occupancy_on c d o
                      then set_occupancy_values pct
                             (now_at (env w) (S (S (clock_reads w)))) o
                      else o)
          (coworking_occupancy (store w)))
     \/
     (find (occupancy_on c d) (coworking_occupancy (store w)) = None /\
      coworking_occupancy (store w') =
        (coworking_occupancy (store w) ++
         [Build_coworking_occupancy_row (uuid4_at (env w) (S (uuid_calls w)))
            c d pct (now_at (env w) (S (S (clock_reads w))))
            (now_at (env w) (S (S (S (clock_reads w)))))])%list)).
Proof.
  intros H.
  pose proof (create_booking_same_day _ _ _ _ _ _ _ H) as (Hlen & _).
  pose proof (create_booking_returns _ _ _ _ _ _ _ H)
    as (b & pct & _ & _ & _ & _ & Hpct & _).
  rewrite Hlen in Hpct. exists pct. split; [exact Hpct|].
  unfold_repositories H. run_in H; inversion H; subst; clear H.
  all: unfold bookings_for in *; tables in *.
  all: match goal with
       | E : CoworkingRepository.occupancy_percentage _ = Ok ?a |- _ =>
           rewrite Hlen, Hpct in E; injection E as <-
       end.
  - left. split; [congruence | reflexivity].
  - right. split; [assumption | reflexivity].
Qed.

(** C4. In every reachable content of the store, a space and day without
    bookings has no occupancy row and a space and day with a booking has
    exactly one; a call of [create_booking] keeps it so.  When the call
    returns it has written the percentage of the new number of bookings, ten
    times that number and at most 100: if the space and day had a row, that
    row and no other is rewritten, with the percentage and the third reading
    of the clock of the call as [updated_at], its identifier and
    [created_at] kept; if it had none, one row is appended, with the second
    identifier generated by the call, the space, the day, the percentage and
    the next two readings of the clock. *)
Theorem one_occupancy_row_invariant (db : database) :
  reachable db ->
  (forall c d,
     (bookings_for db c d = [] -> occupancy_for db c d = []) /\
     (bookings_for db c d <> [] -> exists o, occupancy_for db c d = [o])) /\
  (forall w c d name phone,
     store w = db ->
     let run := CoworkingRepository.create_booking c d name phone w in
     one_occupancy_row_per_booked_day (store (snd run)) /\
     (forall id, fst run = Ok id ->
        let count := Z.of_nat (S (List.length (bookings_for db c d))) in
        let pct := Z.min 100 (10 * count) in
        let now := now_at (env w) (S (S (clock_reads w))) in
        CoworkingRepository.occupancy_percentage count = Ok pct /\
        ((exists o,
            occupancy_for db c d = [o] /\
            occupancy_for (store (snd run)) c d =
              [Build_coworking_occupancy_row (co_id o) c d pct
                 (co_created_at o) now] /\
            coworking_occupancy (store (snd run)) =
              map (fun x => if occupancy_on c d x
                            then set_occupancy_values pct now x else x)
                (coworking_occupancy db)) \/
         (occupancy_for db c d = [] /\
          occupancy_for (store (snd run)) c d =
            [Build_coworking_occupancy_row
               (uuid4_at (env w) (S (uuid_calls w))) c d pct now
               (now_at (env w) (S (S (S (clock_reads w)))))] /\
          coworking_occupancy (store (snd run)) =
            (coworking_occupancy db ++
             [Build_coworking_occupancy_row
                (uuid4_at (env w) (S (uuid_calls w))) c d pct now
                (now_at (env w) (S (S (S (clock_reads w)))))])%list)))).
Proof.
  intros Hreach. pose proof (reachable_one_row db Hreach) as Hinv. split.
  - intros c d. specialize (Hinv c d). split.
    + intros E. rewrite E in Hinv.
      destruct (occupancy_for db c d); [reflexivity | discriminate].
    + intros NE. destruct (bookings_for db c d); [congruence|].
      destruct (occupancy_for db c d) as [|o [|o' rest]]; try discriminate.
      exists o. reflexivity.
  - intros w c d name phone <- run. split.
    + apply (perform_preserves_one_row (Coworking_create_booking c d name phone)).
      exact Hinv.
    + intros id Hid count pct now. subst run.
      destruct (CoworkingRepository.create_booking c d name phone w)
        as [r w'] eqn:Hcall.
      cbn [fst snd] in *. subst r.
      destruct (create_booking_writes _ _ _ _ _ _ _ Hcall)
        as (pct' & Hpct & Hocc).
      fold count in Hpct.
      assert (pct' = pct) as ->.
      { apply (proj2 (occupancy_percentage_spec count ltac:(subst count; lia))).
        exact Hpct. }
      split; [exact Hpct|].
      destruct Hocc as [[Hfind Hmap]|[Hfind Happ]].
      * left. specialize (Hinv c d). unfold occupancy_for in *.
        rewrite find_none_filter in Hfind.
        destruct (filter (occupancy_on c d) (coworking_occupancy (store w)))
          as [|o [|o' rest]] eqn:Hrows; [congruence| |].
        -- exists o. split; [reflexivity|]. split; [|exact Hmap].
           rewrite Hmap.
           rewrite filter_map_if_same, Hrows.
           ++ cbn [map]. f_equal.
              assert (In o (filter (occupancy_on c d)
                              (coworking_occupancy (store w)))) as Hin
                  by (rewrite Hrows; left; reflexivity).
              apply filter_In in Hin. destruct Hin as [_ Hon].
              apply occupancy_on_true in Hon. destruct Hon as [Hc Hd].
              unfold set_occupancy_values. rewrite Hc, Hd. reflexivity.
           ++ reflexivity.
        -- cbn in Hinv.
           destruct (bookings_for (store w) c d); discriminate.
      * right. apply find_none_filter in Hfind.
        unfold occupancy_for in *. split; [exact Hfind|].
        split; [|exact Happ].
        rewrite Happ, filter_app, Hfind. cbn [filter app].
        rewrite (proj2 (occupancy_on_true c d _)) by (split; reflexivity).
        reflexivity.
Qed.

Lemma one_occupancy_row_invariant_witness :
  let w := Sample.book 1 Sample.hub in
  let run :=
    CoworkingRepository.create_booking 1%N Sample.may_day "Alice Johnson"
      "+1234567890" w in
  occupancy_for (store w) 1%N (Build_date 2024 5 2) = [] /\
  exists o,
    occupancy_for (store w) 1%N Sample.may_day = [o] /\
    occupancy_for (store (snd run)) 1%N Sample.may_day =
      [Build_coworking_occupancy_row (co_id o) 1%N Sample.may_day 20
         (co_created_at o) (Sample.clock 8)].
Proof.
  intros w run.
  assert (reachable (store w)) as Hreach.
  { subst w. cbn [Sample.book]. apply reachable_call.
    unfold Sample.hub. apply reachable_call. apply reachable_empty. }
  destruct (one_occupancy_row_invariant (store w) Hreach) as [Hrows Hcall].
  split.
  { apply (proj1 (Hrows 1%N (Build_date 2024 5 2))). vm_compute. reflexivity. }
  destruct (Hcall w 1%N Sample.may_day "Alice Johnson" "+1234567890" eq_refl)
    as [_ Hwrites].
  assert (fst run = Ok 4%N) as Hid by (vm_compute; reflexivity).
  assert (Z.min 100
            (10 * Z.of_nat
                    (S (List.length
                          (bookings_for (store w) 1%N Sample.may_day)))) = 20)
    as Hpct by (vm_compute; reflexivity).
  assert (now_at (env w) (S (S (clock_reads w))) = Sample.clock 8) as Hnow
      by (vm_compute; reflexivity).
  assert (occupancy_for (store w) 1%N Sample.may_day <> []) as Hsome
      by (vm_compute; discriminate).
  destruct (Hwrites _ Hid) as [_ [(o & Ho & Hafter & _)|(Hnone & _)]].
  - exists o. split; [exact Ho|]. rewrite Hpct, Hnow in Hafter. exact Hafter.
  - contradiction.
Defined.

(** C5. [create_booking] inserts the booking and recomputes the occupancy
    in one transaction: when it raises, at whatever step, the store is left
    as it was, the booking table and the occupancy table included; when it
    returns, the booking row is stored together with an occupancy row of
    its space and day computed from a count that includes it. *)
Theorem create_booking_atomic (c : UUID) (d : date) (name phone : string)
  (w : world) (r : result UUID) (w' : world) :
  CoworkingRepository.create_booking c d name phone w = (r, w') ->
  match r with
  | Raise _ =>
      store w' = store w /\
      coworking_booking (store w') = coworking_booking (store w) /\
      coworking_occupancy (store w') = coworking_occupancy (store w)
  | Ok id =>
      (exists b,
         coworking_booking (store w') = (coworking_booking (store w) ++ [b])%list /\
         cb_id b = id /\ booking_on c d b = true) /\
      (exists o, In o (occupancy_for (store w') c d)) /\
      (forall o, In o (occupancy_for (store w') c d) ->
         CoworkingRepository.occupancy_percentage
           (Z.of_nat (List.length (bookings_for (store w') c d))) =
         Ok (co_occupancy_percentage o))
  end.
Proof.
  intros Hcall. destruct r as [id|e].
  - destruct (create_booking_returns _ _ _ _ _ _ _ Hcall)
      as (b & pct & Hb & Hid & Hc & Hd & _).
    destruct (create_booking_same_day _ _ _ _ _ _ _ Hcall)
      as (_ & Hsome & _ & Hpct).
    split; [|split].
    + exists b. split; [exact Hb|]. split; [exact Hid|].
      apply booking_on_true. auto.
    + destruct (occupancy_for (store w') c d) as [|o l]; [congruence|].
      exists o. left. reflexivity.
    + exact Hpct.
  - rewrite (create_booking_raises _ _ _ _ _ _ _ Hcall). auto.
Qed.

Lemma create_booking_atomic_witness :
  let run :=
    CoworkingRepository.create_booking 1%N Sample.may_day "Alice Johnson"
      "+1234567890" Sample.hub_losing_connection in
  fst run = Raise (OperationalError "connection reset by peer") /\
  store (snd run) = store Sample.hub_losing_connection /\
  coworking_booking (store (snd run)) = [] /\
  coworking_occupancy (store (snd run)) = [].
Proof.
  intros run.
  assert (run = (Raise (OperationalError "connection reset by peer"), snd run))
    as Hrun by (vm_compute; reflexivity).
  pose proof (create_booking_atomic 1%N Sample.may_day "Alice Johnson"
                "+1234567890" Sample.hub_losing_connection _ _ Hrun)
    as (Hstore & Hb & Ho).
  split; [vm_compute; reflexivity|]. split; [exact Hstore|].
  split; [rewrite Hb | rewrite Ho]; reflexivity.
Defined.

(** ** [update_event] *)



(** ** The duplicate check of [create_event] *)

Lemma in_insert_by {A} (leb : A -> A -> bool) (x y : A) (l : list A) :
  In y (insert_by leb x l) <-> y = x \/ In y l.
Proof.
  induction l as [|z l IH]; cbn.
  - intuition congruence.
  - destruct (leb x z); cbn; [intuition congruence|].
    rewrite IH. intuition congruence.
Qed.

Lemma in_order_by {A} (leb : A -> A -> bool) (y : A) (l : list A) :
  In y (order_by leb l) <-> In y l.
Proof.
  unfold order_by. induction l as [|x l IH]; cbn; [tauto|].
  rewrite in_insert_by, IH. intuition congruence.
Qed.

Lemma for_each_check {A} (p : A -> bool) (e : exn) (l : list A) (w : world) :
  for_each l (fun x => if p x then raise e else ret tt) w =
  if existsb p l then (Raise e, w) else (Ok tt, w).
Proof.
  induction l as [|x l IH]; cbn [for_each existsb]; [reflexivity|].
  unfold bind. destruct (p x); cbn; [reflexivity | exact IH].
Qed.

Lemma get_all_events_runs (w : world) :
  EventRepository.get_all_events w =
  match fault_at (env w) (statements w) with
  | Some f => (Raise (exn_of_fault f), sent w)
  | None =>
      (Ok (order_by
             (fun a b => datetime_leb (es_start_date a) (es_start_date b))
             (map summary (event (store w)))),
       sent w)
  end.
Proof.
  unfold EventRepository.get_all_events, get_session, execute,
    select_events_order_by_start_date, query.
  destruct (fault_at (env w) (statements w)); reflexivity.
Qed.

(** Whether a stored event has the title and the minute of a request. *)
Lemma stored_duplicate_iff title start_date (w : world) :
  existsb (EventService.same_title_and_minute title start_date)
    (order_by (fun a b => datetime_leb (es_start_date a) (es_start_date b))
       (map summary (event (store w)))) = true <->
  exists ev,
    In ev (event (store w)) /\
    ev_title ev = title /\
    year (ev_start_date ev) = year start_date /\
    month (ev_start_date ev) = month start_date /\
    day (ev_start_date ev) = day start_date /\
    hour (ev_start_date ev) = hour start_date /\
    minute (ev_start_date ev) = minute start_date.
Proof.
  rewrite existsb_exists. split.
  - intros (s & Hin & Hs). apply in_order_by, in_map_iff in Hin.
    destruct Hin as (ev & <- & Hin). exists ev. split; [exact Hin|].
    unfold EventService.same_title_and_minute in Hs. cbn in Hs.
    rewrite !andb_true_iff, !Z.eqb_eq, String.eqb_eq in Hs. tauto.
  - intros (ev & Hin & Ht & Hy & Hmo & Hd & Hh & Hmi).
    exists (summary ev). split; [apply in_order_by, in_map; exact Hin|].
    unfold EventService.same_title_and_minute. cbn.
    rewrite !andb_true_iff, !Z.eqb_eq, String.eqb_eq. tauto.
Qed.

Lemma check_duplicate_runs title start_date (w : world) :
  EventService.check_duplicate title start_date w =
  match fault_at (env w) (statements w) with
  | Some f =>
      logger ERROR
        ("Error checking for duplicate events: " ++ str_exn (exn_of_fault f))
        (sent w)
  | None =>
      if existsb (EventService.same_title_and_minute title start_date)
           (order_by
              (fun a b => datetime_leb (es_start_date a) (es_start_date b))
              (map summary (event (store w))))
      then (Raise (EventDuplicateError
                     (EventService.duplicate_message title start_date)),
            sent w)
      else (Ok tt, sent w)
  end.
Proof.
  unfold EventService.check_duplicate, try_except, bind.
  rewrite get_all_events_runs.
  destruct (fault_at (env w) (statements w)) as [f|].
  - destruct f; reflexivity.
  - rewrite for_each_check.
    destruct (existsb _ _); reflexivity.
Qed.

Lemma create_event_after_check title description short_description
  start_date location image_path organizer_name organizer_description
  organizer_image_path (w : world) :
  EventService.create_event title description short_description start_date
    location image_path organizer_name organizer_description
    organizer_image_path w =
  match EventService.check_duplicate title start_date w with
  | (Ok _, w1) =>
      (organizer_id <- EventService.resolve_organizer organizer_name
                         organizer_description organizer_image_path ;;
       EventService.insert_event_or_duplicate title description
         short_description start_date location image_path organizer_id) w1
  | (Raise e, w1) => (Raise e, w1)
  end.
Proof. reflexivity. Qed.

(** C8. When the scan of the events by the duplicate check raises, the
    error is logged and [create_event] goes on with the organizer and the
    insertion, in the world left by the scan; when the scan returns, the
    check stops the creation only by raising [EventDuplicateError]. *)
Theorem failed_duplicate_check_is_skipped
  (title description short_description : string) (start_date : datetime)
  (location : string) (image_path : option string)
  (organizer_name organizer_description organizer_image_path : option string)
  (w : world) :
  let rest :=
    organizer_id <- EventService.resolve_organizer organizer_name
                      organizer_description organizer_image_path ;;
    EventService.insert_event_or_duplicate title description short_description
      start_date location image_path organizer_id in
  let create :=
    EventService.create_event title description short_description start_date
      location image_path organizer_name organizer_description
      organizer_image_path in
  match EventRepository.get_all_events w with
  | (Raise e, w1) =>
      let logged :=
        Build_world (store w) (env w1) (uuid_calls w1) (clock_reads w1)
          (statements w1)
          (logs w1 ++
           [(ERROR,
             String.append "Error checking for duplicate events: "
               (str_exn e))])%list in
      EventService.check_duplicate title start_date w = (Ok tt, logged) /\
      create w = rest logged
  | (Ok events, w1) =>
      (EventService.check_duplicate title start_date w =
         (Raise (EventDuplicateError
                   (EventService.duplicate_message title start_date)), w1) /\
       create w = (Raise (EventDuplicateError
                            (EventService.duplicate_message title start_date)),
                   w1)) \/
      (EventService.check_duplicate title start_date w = (Ok tt, w1) /\
       create w = rest w1)
  end.
Proof.
  intros rest create. subst rest create.
  rewrite create_event_after_check, check_duplicate_runs, get_all_events_runs.
  destruct (fault_at (env w) (statements w)) as [f|].
  - split; reflexivity.
  - destruct (existsb _ _); [left | right]; split; reflexivity.
Qed.

Ltac unfold_event_service H :=
  unfold EventService.resolve_organizer, EventService.insert_event_or_duplicate
    in H.





(** ** Integrity errors raised by the insertion of the event *)

(** C3, as amended.  When the insertion of the event raises an
    [IntegrityError], [create_event] raises [EventDuplicateError] exactly
    when the text of the error contains both "duplicate key value violates
    unique constraint" and "uq_event_title_start_date"; any other
    [IntegrityError] leaves [create_event] as it was raised. *)
Theorem integrity_error_of_insertion
  (title description short_description : string) (start_date : datetime)
  (location : string) (image_path : option string)
  (organizer_name organizer_description organizer_image_path : option string)
  (w w0 : world) (organizer_id : option UUID) (w1 : world) (text : string)
  (w2 : world) :
  EventService.check_duplicate title start_date w = (Ok tt, w0) ->
  EventService.resolve_organizer organizer_name organizer_description
    organizer_image_path w0 = (Ok organizer_id, w1) ->
  EventRepository.create_event title description short_description start_date
    location image_path organizer_id w1 = (Raise (IntegrityError text), w2) ->
  EventService.create_event title description short_description start_date
    location image_path organizer_name organizer_description
    organizer_image_path w =
  if contains "duplicate key value violates unique constraint" text &&
     contains "uq_event_title_start_date" text
  then (Raise (EventDuplicateError
                 (EventService.duplicate_message title start_date)),
        Build_world (store w2) (env w2) (uuid_calls w2) (clock_reads w2)
          (statements w2)
          (logs w2 ++
           [(ERROR, String.append "Integrity error creating event: " text)])%list)
  else (Raise (IntegrityError text), w2).
Proof.
  intros Hcheck Hresolve Hinsert.
  rewrite create_event_after_check, Hcheck.
  unfold bind. rewrite Hresolve.
  unfold EventService.insert_event_or_duplicate, try_except.
  rewrite Hinsert.
  unfold EventService.is_uq_event_title_start_date. cbn [str_exn].
  destruct (contains _ text && contains _ text); reflexivity.
Qed.

(** The scan of the duplicate check fails, the insertion of a second "Demo"
    at ten o'clock violates the unique constraint of the schema, and the
    caller gets [EventDuplicateError]. *)
Lemma integrity_error_of_insertion_witness :
  fst (EventService.create_event "Demo" "Again" "Again" Sample.ten_oclock
         "Main hall" None None None None Sample.demo_scan_failing) =
  Raise (EventDuplicateError
           (EventService.duplicate_message "Demo" Sample.ten_oclock)).
Proof.
  eapply eq_trans.
  - apply f_equal.
    eapply (integrity_error_of_insertion "Demo" "Again" "Again"
              Sample.ten_oclock "Main hall" None None None None
              Sample.demo_scan_failing).
    + lazy. reflexivity.
    + lazy. reflexivity.
    + lazy. reflexivity.
  - vm_compute. reflexivity.
Defined.

(** C3, as stated, fails for an error that names the constraint in other
    words than the English ones: the insertion of "Other" is refused with
    such a text, and [create_event] raises the [IntegrityError] itself. *)
Lemma integrity_error_counterexample :
  let text :=
    "un valore chiave duplicato viola il vincolo univoco " ++
    quoted "uq_event_title_start_date" in
  let run :=
    EventService.create_event "Other" "Another" "Another" Sample.ten_oclock
      "Main hall" None None None None Sample.demo_insert_refused in
  fst run = Raise (IntegrityError text) /\
  ~ ((exists message, fst run = Raise (EventDuplicateError message)) <->
     contains "uq_event_title_start_date" text = true).
Proof.
  intros text run.
  assert (fst run = Raise (IntegrityError text)) as Hrun
      by (vm_compute; reflexivity).
  split; [exact Hrun|].
  intros [_ Hback]. destruct Hback as [message Hdup].
  - vm_compute. reflexivity.
  - rewrite Hrun in Hdup. discriminate.
Qed.

(** ** [create_event] with an organizer name *)

Lemma create_event_with_organizer_returns
  title description short_description start_date location image_path
  c s organizer_description organizer_image_path (w : world) eid (w' : world) :
  let name := String c s in
  EventService.create_event title description short_description start_date
    location image_path (Some name) organizer_description
    organizer_image_path w = (Ok eid, w') ->
  match find (fun org => String.eqb (org_name org) name) (organizer (store w))
  with
  | Some o =>
      event_organizer (store w') =
        (event_organizer (store w) ++
         [Build_event_organizer_row eid (org_id o)])%list /\
      ((truthy organizer_description || truthy organizer_image_path = true /\
        exists now,
          organizer (store w') =
            map (fun x =>
                   if N.eqb (org_id x) (org_id o)
                   then set_organizer_values
                          (Build_organizer_values now None
                             organizer_description organizer_image_path) x
                   else x)
              (organizer (store w))) \/
       (truthy organizer_description || truthy organizer_image_path = false /\
        organizer (store w') = organizer (store w)))
  | None =>
      exists id created_at updated_at,
        organizer (store w') =
          (organizer (store w) ++
           [Build_organizer_row id name organizer_description
              organizer_image_path created_at updated_at])%list /\
        event_organizer (store w') =
          (event_organizer (store w) ++ [Build_event_organizer_row eid id])%list
  end.
Proof.
  intros name H. subst name.
  rewrite create_event_after_check, check_duplicate_runs in H.
  unfold logger in H.
  destruct (fault_at (env w) (statements w));
    [|destruct (existsb _ _); [discriminate|]].
  all: unfold_event_service H; unfold_repositories H.
  all: run_in H; inversion H; subst; clear H; tables.
  all: tables in *.
  all: repeat match goal with
         | E : find _ _ = _ |- _ => rewrite E; clear E
         end.
  all: try (split; [reflexivity|]).
  all: try (left; split; [reflexivity|]; eexists; reflexivity).
  all: try (right; split; reflexivity).
  all: try (eexists; eexists; eexists; split; reflexivity).
Qed.

Lemma find_map_preserving {A} (p : A -> bool) (g : A -> A) (l : list A) :
  (forall x, p (g x) = p x) ->
  find p (map g l) = option_map g (find p l).
Proof.
  intros Hg. induction l as [|x l IH]; cbn; [reflexivity|].
  rewrite Hg. destruct (p x); [reflexivity | exact IH].
Qed.

Lemma filter_map_preserving {A} (p : A -> bool) (g : A -> A) (l : list A) :
  (forall x, p (g x) = p x) ->
  filter p (map g l) = map g (filter p l).
Proof.
  intros Hg. induction l as [|x l IH]; cbn; [reflexivity|].
  rewrite Hg. destruct (p x); cbn; [f_equal|]; exact IH.
Qed.

Lemma find_app_none {A} (p : A -> bool) (l l' : list A) :
  find p l = None -> find p (l ++ l') = find p l'.
Proof.
  induction l as [|x l IH]; cbn; [reflexivity|].
  destruct (p x); [discriminate | exact IH].
Qed.

(** An update that sets no name keeps the name and the identifier of every
    organizer. *)
Lemma organizer_update_keeps_name id now description image_path x :
  org_name (if N.eqb (org_id x) id
            then set_organizer_values
                   (Build_organizer_values now None description image_path) x
            else x) = org_name x.
Proof. destruct (N.eqb (org_id x) id); reflexivity. Qed.

Lemma organizer_update_keeps_id id now description image_path x :
  org_id (if N.eqb (org_id x) id
          then set_organizer_values
                 (Build_organizer_values now None description image_path) x
          else x) = org_id x.
Proof. destruct (N.eqb (org_id x) id); reflexivity. Qed.

(** The organizer found by name after a creation that returned, and its
    link to the created event. *)
Lemma organizer_of_created_event
  title description short_description start_date location image_path
  c s organizer_description organizer_image_path (w : world) eid (w' : world) :
  let name := String c s in
  let named := fun org => String.eqb (org_name org) name in
  EventService.create_event title description short_description start_date
    location image_path (Some name) organizer_description
    organizer_image_path w = (Ok eid, w') ->
  exists o,
    find named (organizer (store w')) = Some o /\
    event_organizer (store w') =
      (event_organizer (store w) ++
       [Build_event_organizer_row eid (org_id o)])%list /\
    match find named (organizer (store w)) with
    | Some o0 =>
        org_id o = org_id o0 /\
        map org_id (organizer (store w')) = map org_id (organizer (store w)) /\
        List.length (filter named (organizer (store w'))) =
        List.length (filter named (organizer (store w)))
    | None =>
        organizer (store w') = (organizer (store w) ++ [o])%list /\
        org_name o = name /\
        org_description o = organizer_description /\
        org_image_path o = organizer_image_path /\
        filter named (organizer (store w')) = [o]
    end.
Proof.
  intros name named H.
  pose proof (create_event_with_organizer_returns _ _ _ _ _ _ _ _ _ _ _ _ _ H)
    as R. cbv zeta in R. fold name in R. fold named in R. clearbody name.
  destruct (find named (organizer (store w))) as [o0|] eqn:Hfind.
  - destruct R as [Hlinks [[_ (now & Horg)]|[_ Horg]]].
    + set (g := fun x =>
                  if N.eqb (org_id x) (org_id o0)
                  then set_organizer_values
                         (Build_organizer_values now None
                            organizer_description organizer_image_path) x
                  else x) in *.
      assert (forall x, named (g x) = named x) as Hnamed.
      { intros x. unfold named, g.
        rewrite organizer_update_keeps_name. reflexivity. }
      assert (forall x, org_id (g x) = org_id x) as Hid
          by (intros x; apply organizer_update_keeps_id).
      exists (g o0). rewrite Horg, find_map_preserving, Hfind by exact Hnamed.
      split; [reflexivity|]. rewrite Hid. split; [exact Hlinks|].
      split; [reflexivity|]. split.
      * rewrite map_map. apply map_ext. exact Hid.
      * rewrite filter_map_preserving by exact Hnamed. apply length_map.
    + exists o0. rewrite Horg, Hfind. auto.
  - destruct R as (id & created_at & updated_at & Horg & Hlinks).
    eexists. rewrite Horg, find_app_none by exact Hfind.
    cbn [find]. unfold named at 1. cbn [org_name].
    rewrite String.eqb_refl. split; [reflexivity|].
    split; [exact Hlinks|].
    repeat (split; [reflexivity|]).
    rewrite filter_app. apply find_none_filter in Hfind. rewrite Hfind.
    cbn [filter app]. unfold named. cbn [org_name].
    rewrite String.eqb_refl. reflexivity.
Qed.






(** ** The booking endpoint *)

Lemma get_coworking_by_id_runs coworking_id (w : world) :
  CoworkingService.get_coworking_by_id coworking_id w =
  match fault_at (env w) (statements w) with
  | Some f => (Raise (exn_of_fault f), sent w)
  | None =>
      match find (fun s => N.eqb (cs_id s) coworking_id)
              (coworking_space (store w)) with
      | Some s => (Ok (Some s, true), sent w)
      | None => (Ok (None, false), sent w)
      end
  end.
Proof.
  unfold CoworkingService.get_coworking_by_id,
    CoworkingRepository.get_coworking_by_id, get_session, bind, execute,
    select_coworking_space_where_id, query.
  destruct (fault_at (env w) (statements w)); [reflexivity|].
  destruct (find _ _); reflexivity.
Qed.

(** C9, as amended.  The answers of [POST /coworking/{id}/booking]: a
    failure of the look-up of the space, which the service does not wrap,
    is answered with the generic 500; an unknown space with 404; every
    exception of the repository's [create_booking] is wrapped by the service
    in a [CoworkingError] carrying its text, and answered with 400 and a
    detail ending with that text. *)
Theorem booking_endpoint_answers (coworking_id : UUID)
  (booking : CoworkingRouter.BookingRequest) (w : world) :
  let answer :=
    fst (serve 200 (CoworkingRouter.create_booking coworking_id booking) w) in
  let w0 :=
    snd (logger INFO
           ("create_booking for coworking: " ++ str_uuid coworking_id) w) in
  match CoworkingService.get_coworking_by_id coworking_id w0 with
  | (Raise _, _) =>
      answer = Build_response 500
                 (Detail "Failed to create booking due to an internal error")
  | (Ok (_, false), _) =>
      answer = Build_response 404 (Detail "Coworking space not found")
  | (Ok (_, true), w1) =>
      match CoworkingRepository.create_booking coworking_id
              (CoworkingRouter.booking_date booking)
              (CoworkingRouter.customer_name booking)
              (CoworkingRouter.customer_phone booking) w1 with
      | (Ok id, _) => answer = Build_response 200 (Body id)
      | (Raise e, w2) =>
          fst (CoworkingService.create_booking coworking_id
                 (CoworkingRouter.booking_date booking)
                 (CoworkingRouter.customer_name booking)
                 (CoworkingRouter.customer_phone booking) w1) =
            Raise (CoworkingError ("Error creating booking: " ++ str_exn e)) /\
          store (snd (CoworkingService.create_booking coworking_id
                        (CoworkingRouter.booking_date booking)
                        (CoworkingRouter.customer_name booking)
                        (CoworkingRouter.customer_phone booking) w1)) =
            store w1 /\
          answer =
            Build_response 400
              (Detail ("Failed to create booking: Error creating booking: " ++
                       str_exn e))
      end
  end.
Proof.
  intros answer w0. subst answer w0.
  unfold serve, CoworkingRouter.create_booking, try_except, bind, logger, raise.
  cbn [fst snd]. rewrite !get_coworking_by_id_runs.
  cbn [env statements].
  destruct (fault_at (env w) (statements w)) as [f|].
  - destruct f; reflexivity.
  - cbn [store]. destruct (find _ _) as [s|]; [|reflexivity].
    cbn [snd negb].
    unfold CoworkingService.create_booking, try_except, bind, logger, raise.
    destruct (CoworkingRepository.create_booking _ _ _ _ _) as [[id|e] w2] eqn:E.
    + reflexivity.
    + apply create_booking_raises in E.
      destruct e; (split; [reflexivity|]); (split; [exact E | reflexivity]).
Qed.

(** C9, as stated, fails: the connection is lost while the occupancy of a
    booking is recomputed, and the client receives a 400 answer whose
    detail carries the text of the driver's exception. *)
Lemma booking_endpoint_counterexample :
  let answer :=
    fst (serve 200
           (CoworkingRouter.create_booking 1%N
              (CoworkingRouter.Build_BookingRequest Sample.may_day
                 "Alice Johnson" "+1234567890"))
           Sample.hub_losing_connection) in
  answer =
    Build_response 400
      (Detail "Failed to create booking: Error creating booking: connection reset by peer") /\
  ~ (500 <= status answer /\
     contains "connection reset by peer" (detail_text answer) = false).
Proof.
  intros answer.
  assert (answer =
            Build_response 400
              (Detail "Failed to create booking: Error creating booking: connection reset by peer"))
    as E by (vm_compute; reflexivity).
  split; [exact E|]. rewrite E. cbn. intros [H _]. lia.
Qed.

(** ** Updates and deletions of rows that do not exist *)

Lemma existsb_absent {A} (key : A -> N) (id : N) (l : list A) :
  (forall x, In x l -> key x <> id) ->
  existsb (fun x => N.eqb (key x) id) l = false.
Proof.
  intros H. induction l as [|x l IH]; cbn; [reflexivity|].
  rewrite IH by (intros y Hy; apply H; right; exact Hy).
  rewrite (proj2 (N.eqb_neq (key x) id)) by (apply H; left; reflexivity).
  reflexivity.
Qed.

Lemma find_absent {A} (key : A -> N) (id : N) (l : list A) :
  (forall x, In x l -> key x <> id) ->
  find (fun x => N.eqb (key x) id) l = None.
Proof.
  intros H. induction l as [|x l IH]; cbn; [reflexivity|].
  rewrite (proj2 (N.eqb_neq (key x) id)) by (apply H; left; reflexivity).
  apply IH. intros y Hy. apply H. right. exact Hy.
Qed.

Lemma filter_absent {A} (key : A -> N) (id : N) (l : list A) :
  (forall x, In x l -> key x <> id) ->
  filter (fun x => negb (N.eqb (key x) id)) l = l.
Proof.
  intros H. induction l as [|x l IH]; cbn; [reflexivity|].
  rewrite (proj2 (N.eqb_neq (key x) id)) by (apply H; left; reflexivity).
  cbn. f_equal. apply IH. intros y Hy. apply H. right. exact Hy.
Qed.

Lemma map_absent {A} (key : A -> N) (id : N) (g : A -> A) (l : list A) :
  (forall x, In x l -> key x <> id) ->
  map (fun x => if N.eqb (key x) id then g x else x) l = l.
Proof.
  intros H. induction l as [|x l IH]; cbn; [reflexivity|].
  rewrite (proj2 (N.eqb_neq (key x) id)) by (apply H; left; reflexivity).
  f_equal. apply IH. intros y Hy. apply H. right. exact Hy.
Qed.

Lemma existsb_absent_and {A} (key : A -> N) (id : N) (q : A -> bool)
  (l : list A) :
  (forall x, In x l -> key x <> id) ->
  existsb (fun x => N.eqb (key x) id && q x) l = false.
Proof.
  intros H. induction l as [|x l IH]; cbn; [reflexivity|].
  rewrite (proj2 (N.eqb_neq (key x) id)) by (apply H; left; reflexivity).
  cbn. apply IH. intros y Hy. apply H. right. exact Hy.
Qed.

Lemma existsb_after_delete {A} (key : A -> N) (id : N) (q : A -> bool)
  (l : list A) :
  existsb (fun x => N.eqb (key x) id && q x)
    (filter (fun x => negb (N.eqb (key x) id)) l) = false.
Proof.
  induction l as [|x l IH]; cbn; [reflexivity|].
  destruct (N.eqb (key x) id) eqn:E; cbn; [exact IH|].
  rewrite E. cbn. exact IH.
Qed.

Ltac calm Hcalm :=
  repeat match goal with
         | E : fault_at _ _ = Some _ |- _ =>
             rewrite Hcalm in E; discriminate E
         end.

(** The flag returned by an update or a deletion is [True]. *)
Lemma returned_flag_is_true (w : world) (b : bool) (w' : world) :
  (forall id t d s sd l i o,
     EventRepository.update_event id t d s sd l i o w = (Ok b, w') -> b = true) /\
  (forall id, EventRepository.delete_event id w = (Ok b, w') -> b = true) /\
  (forall id n d i,
     OrganizerRepository.update_organizer id n d i w = (Ok b, w') -> b = true) /\
  (forall id,
     OrganizerRepository.delete_organizer id w = (Ok b, w') -> b = true) /\
  (forall id n d l i,
     CoworkingRepository.update_coworking_space id n d l i w = (Ok b, w') ->
     b = true) /\
  (forall id,
     CoworkingRepository.delete_coworking_space id w = (Ok b, w') -> b = true) /\
  (forall id t d s sd l i o,
     EventService.update_event id t d s sd l i o w = (Ok b, w') -> b = true) /\
  (forall id, EventService.delete_event id w = (Ok b, w') -> b = true) /\
  (forall id n d l i,
     CoworkingService.update_coworking_space id n d l i w = (Ok b, w') ->
     b = true) /\
  (forall id,
     CoworkingService.delete_coworking_space id w = (Ok b, w') -> b = true).
Proof.
  repeat split; intros; 
    match goal with
    | H : _ = (Ok _, _) |- _ =>
        unfold EventService.update_event, EventService.delete_event,
          CoworkingService.update_coworking_space,
          CoworkingService.delete_coworking_space in H;
        unfold_repositories H
    end.
  all: try match goal with
         | o : option UUID |- _ => destruct o
         end.
  all: match goal with
       | H : _ = (Ok _, _) |- _ => run_in H; inversion H; reflexivity
       end.
Qed.

Ltac rows :=
  cbn [ev_id eo_event_id eo_organizer_id org_id cs_id negb] in *.

Lemma missing_event_is_not_detected (w : world) (id : UUID) :
  calm_environment w ->
  (forall r, In r (event (store w)) -> ev_id r <> id) ->
  (forall t d s sd l i,
     exists w',
       EventRepository.update_event id t d s sd l i None w = (Ok true, w') /\
       event (store w') = event (store w)) /\
  (exists w',
     EventRepository.delete_event id w = (Ok true, w') /\
     event (store w') = event (store w)) /\
  (forall t d s sd l i o,
     exists w',
       EventRepository.update_event id t d s sd l i (Some o) w =
         (Raise (foreign_key_violation "event_organizer"
                   "event_organizer_event_id_fkey"), w') /\
       store w' = store w).
Proof.
  intros Hcalm Hmiss.
  pose proof (existsb_absent ev_id id _ Hmiss) as Hex.
  pose proof (fun g => map_absent ev_id id g _ Hmiss) as Hmap.
  pose proof (fun q => existsb_absent_and ev_id id q _ Hmiss) as Hand.
  pose proof (filter_absent ev_id id _ Hmiss) as Hfilter.
  split; [|split].
  - intros t d s sd l i.
    destruct (EventRepository.update_event id t d s sd l i None w)
      as [r w'] eqn:E.
    unfold_repositories E. run_in E; calm Hcalm.
    + rewrite Hand in *. discriminate.
    + inversion E; subst. eexists. split; [reflexivity|]. tables.
      apply Hmap.
  - destruct (EventRepository.delete_event id w) as [r w'] eqn:E.
    unfold_repositories E. run_in E; calm Hcalm.
    inversion E; subst. eexists. split; [reflexivity|]. tables.
    exact Hfilter.
  - intros t d s sd l i o.
    destruct (EventRepository.update_event id t d s sd l i (Some o) w)
      as [r w'] eqn:E.
    unfold_repositories E. run_in E; calm Hcalm; tables in *; rows.
    + rewrite Hand in *. discriminate.
    + rewrite existsb_after_delete in *. discriminate.
    + inversion E; subst. eexists. split; reflexivity.
    + rewrite Hmap, Hex in *. discriminate.
    + rewrite Hmap, Hex in *. discriminate.
Qed.

Lemma missing_organizer_is_not_detected (w : world) (id : UUID) :
  calm_environment w ->
  (forall o, In o (organizer (store w)) -> org_id o <> id) ->
  (forall n d i,
     exists w',
       OrganizerRepository.update_organizer id n d i w = (Ok true, w') /\
       organizer (store w') = organizer (store w)) /\
  (exists w',
     OrganizerRepository.delete_organizer id w = (Ok true, w') /\
     organizer (store w') = organizer (store w)).
Proof.
  intros Hcalm Hmiss.
  pose proof (fun g => map_absent org_id id g _ Hmiss) as Hmap.
  pose proof (filter_absent org_id id _ Hmiss) as Hfilter.
  split.
  - intros n d i.
    destruct (OrganizerRepository.update_organizer id n d i w)
      as [r w'] eqn:E.
    unfold_repositories E. run_in E; calm Hcalm.
    inversion E; subst. eexists. split; [reflexivity|]. tables. apply Hmap.
  - destruct (OrganizerRepository.delete_organizer id w) as [r w'] eqn:E.
    unfold_repositories E. run_in E; calm Hcalm.
    inversion E; subst. eexists. split; [reflexivity|]. tables.
    exact Hfilter.
Qed.

Lemma missing_coworking_space_is_not_detected (w : world) (id : UUID) :
  calm_environment w ->
  (forall s, In s (coworking_space (store w)) -> cs_id s <> id) ->
  (forall n d l i,
     exists w',
       CoworkingRepository.update_coworking_space id n d l i w =
         (Ok true, w') /\
       coworking_space (store w') = coworking_space (store w)) /\
  (exists w',
     CoworkingRepository.delete_coworking_space id w = (Ok true, w') /\
     coworking_space (store w') = coworking_space (store w)).
Proof.
  intros Hcalm Hmiss.
  pose proof (fun g => map_absent cs_id id g _ Hmiss) as Hmap.
  pose proof (filter_absent cs_id id _ Hmiss) as Hfilter.
  split.
  - intros n d l i.
    destruct (CoworkingRepository.update_coworking_space id n d l i w)
      as [r w'] eqn:E.
    unfold_repositories E. run_in E; calm Hcalm.
    inversion E; subst. eexists. split; [reflexivity|]. tables. apply Hmap.
  - destruct (CoworkingRepository.delete_coworking_space id w)
      as [r w'] eqn:E.
    unfold_repositories E. run_in E; calm Hcalm.
    inversion E; subst. eexists. split; [reflexivity|]. tables.
    exact Hfilter.
Qed.

(** The deletion endpoints answer 404 from their own look-up of the row. *)
Lemma delete_event_endpoint (w : world) (id : UUID) :
  calm_environment w ->
  fst (serve 204 (EventRouter.delete_event id) w) =
  match find (fun r => N.eqb (ev_id r) id) (event (store w)) with
  | Some _ => Build_response 204 (Body tt)
  | None => Build_response 404 (Detail "Event not found")
  end.
Proof.
  intros Hcalm. unfold serve.
  destruct (EventRouter.delete_event id w) as [r w'] eqn:E.
  unfold EventRouter.delete_event, EventService.get_event_by_id,
    EventService.delete_event in E.
  unfold_repositories E. run_in E; calm Hcalm.
  all: try match goal with
         | B : negb _ = _ |- _ => cbn [negb snd] in B; discriminate B
         end.
  all: tables in *.
  all: repeat match goal with
         | F : find _ _ = _ |- _ => rewrite F; clear F
         end.
  all: inversion E; subst; reflexivity.
Qed.

Lemma delete_coworking_space_endpoint (w : world) (id : UUID) :
  calm_environment w ->
  fst (serve 204 (CoworkingRouter.delete_coworking_space id) w) =
  match find (fun s => N.eqb (cs_id s) id) (coworking_space (store w)) with
  | Some _ => Build_response 204 (Body tt)
  | None => Build_response 404 (Detail "Coworking space not found")
  end.
Proof.
  intros Hcalm. unfold serve.
  destruct (CoworkingRouter.delete_coworking_space id w) as [r w'] eqn:E.
  unfold CoworkingRouter.delete_coworking_space,
    CoworkingService.get_coworking_by_id,
    CoworkingService.delete_coworking_space in E.
  unfold_repositories E. run_in E; calm Hcalm.
  all: try match goal with
         | B : negb _ = _ |- _ => cbn [negb snd] in B; discriminate B
         end.
  all: tables in *.
  all: repeat match goal with
         | F : find _ _ = _ |- _ => rewrite F; clear F
         end.
  all: inversion E; subst; reflexivity.
Qed.

(** C10, as amended.  The flag returned by an update or a deletion, of a
    repository or of a service, is never [False].  In an environment without
    failures, an update or a deletion for an identifier that no row has
    returns [True] and leaves the table as it was, with one exception:
    [update_event] with an [organizer_id], for which the insertion of the
    link violates the foreign key of [event_organizer] to [event] and
    raises [IntegrityError] after a roll-back.  The deletion endpoints
    answer 404 exactly when their own look-up finds no row. *)
Theorem update_and_delete_ignore_missing_rows (w : world) (id : UUID) :
  calm_environment w ->
  (forall r, In r (event (store w)) -> ev_id r <> id) ->
  (forall o, In o (organizer (store w)) -> org_id o <> id) ->
  (forall s, In s (coworking_space (store w)) -> cs_id s <> id) ->
  (forall w0 b w0',
     (forall id t d s sd l i o,
        EventRepository.update_event id t d s sd l i o w0 = (Ok b, w0') ->
        b = true) /\
     (forall id, EventRepository.delete_event id w0 = (Ok b, w0') -> b = true) /\
     (forall id n d i,
        OrganizerRepository.update_organizer id n d i w0 = (Ok b, w0') ->
        b = true) /\
     (forall id,
        OrganizerRepository.delete_organizer id w0 = (Ok b, w0') -> b = true) /\
     (forall id n d l i,
        CoworkingRepository.update_coworking_space id n d l i w0 =
          (Ok b, w0') -> b = true) /\
     (forall id,
        CoworkingRepository.delete_coworking_space id w0 = (Ok b, w0') ->
        b = true) /\
     (forall id t d s sd l i o,
        EventService.update_event id t d s sd l i o w0 = (Ok b, w0') ->
        b = true) /\
     (forall id, EventService.delete_event id w0 = (Ok b, w0') -> b = true) /\
     (forall id n d l i,
        CoworkingService.update_coworking_space id n d l i w0 = (Ok b, w0') ->
        b = true) /\
     (forall id,
        CoworkingService.delete_coworking_space id w0 = (Ok b, w0') ->
        b = true)) /\
  (forall t d s sd l i,
     exists w',
       EventRepository.update_event id t d s sd l i None w = (Ok true, w') /\
       event (store w') = event (store w)) /\
  (exists w',
     EventRepository.delete_event id w = (Ok true, w') /\
     event (store w') = event (store w)) /\
  (forall n d i,
     exists w',
       OrganizerRepository.update_organizer id n d i w = (Ok true, w') /\
       organizer (store w') = organizer (store w)) /\
  (exists w',
     OrganizerRepository.delete_organizer id w = (Ok true, w') /\
     organizer (store w') = organizer (store w)) /\
  (forall n d l i,
     exists w',
       CoworkingRepository.update_coworking_space id n d l i w =
         (Ok true, w') /\
       coworking_space (store w') = coworking_space (store w)) /\
  (exists w',
     CoworkingRepository.delete_coworking_space id w = (Ok true, w') /\
     coworking_space (store w') = coworking_space (store w)) /\
  (forall t d s sd l i o,
     exists w',
       EventRepository.update_event id t d s sd l i (Some o) w =
         (Raise (foreign_key_violation "event_organizer"
                   "event_organizer_event_id_fkey"), w') /\
       store w' = store w) /\
  fst (serve 204 (EventRouter.delete_event id) w) =
    Build_response 404 (Detail "Event not found") /\
  fst (serve 204 (CoworkingRouter.delete_coworking_space id) w) =
    Build_response 404 (Detail "Coworking space not found").
Proof.
  intros Hcalm Hev Horg Hcs.
  destruct (missing_event_is_not_detected w id Hcalm Hev) as (E1 & E2 & E3).
  destruct (missing_organizer_is_not_detected w id Hcalm Horg) as (O1 & O2).
  destruct (missing_coworking_space_is_not_detected w id Hcalm Hcs)
    as (C1 & C2).
  split; [intros w0 b w0'; apply returned_flag_is_true|].
  repeat (split; [assumption|]). split.
  - rewrite delete_event_endpoint, (find_absent ev_id id) by assumption.
    reflexivity.
  - rewrite delete_coworking_space_endpoint, (find_absent cs_id id)
      by assumption.
    reflexivity.
Qed.

Lemma update_and_delete_ignore_missing_rows_witness :
  (exists w',
     EventRepository.delete_event 99%N Sample.demo = (Ok true, w') /\
     event (store w') = event (store Sample.demo)) /\
  (exists w',
     EventRepository.update_event 99%N None None None None
       (Some "Room 2") None (Some 1%N) Sample.demo =
       (Raise (foreign_key_violation "event_organizer"
                 "event_organizer_event_id_fkey"), w') /\
     store w' = store Sample.demo) /\
  fst (serve 204 (EventRouter.delete_event 99%N) Sample.demo) =
    Build_response 404 (Detail "Event not found").
Proof.
  assert (calm_environment Sample.demo) as Hcalm
      by (intros n; vm_compute; reflexivity).
  assert (forall r, In r (event (store Sample.demo)) -> ev_id r <> 99%N) as Hev.
  { assert (forallb (fun r => negb (N.eqb (ev_id r) 99))
              (event (store Sample.demo)) = true) as Hb
        by (vm_compute; reflexivity).
    intros r Hin. rewrite forallb_forall in Hb.
    apply N.eqb_neq, negb_true_iff, Hb, Hin. }
  assert (forall o, In o (organizer (store Sample.demo)) -> org_id o <> 99%N)
    as Horg.
  { assert (forallb (fun o => negb (N.eqb (org_id o) 99))
              (organizer (store Sample.demo)) = true) as Hb
        by (vm_compute; reflexivity).
    intros o Hin. rewrite forallb_forall in Hb.
    apply N.eqb_neq, negb_true_iff, Hb, Hin. }
  assert (forall s, In s (coworking_space (store Sample.demo)) ->
                    cs_id s <> 99%N) as Hcs.
  { assert (forallb (fun s => negb (N.eqb (cs_id s) 99))
              (coworking_space (store Sample.demo)) = true) as Hb
        by (vm_compute; reflexivity).
    intros s Hin. rewrite forallb_forall in Hb.
    apply N.eqb_neq, negb_true_iff, Hb, Hin. }
  destruct (update_and_delete_ignore_missing_rows Sample.demo 99%N Hcalm Hev
              Horg Hcs)
    as (_ & _ & Hdel & _ & _ & _ & _ & Hfk & H404 & _).
  split; [exact Hdel|]. split; [apply Hfk | exact H404].
Defined.

(** C10, as stated, fails: no event has the identifier 99, and
    [update_event] called for it with the organizer 1 does not return
    [True] but raises, at the repository and at the service alike. *)
Lemma update_and_delete_counterexample :
  let text :=
    "insert or update on table " ++ quoted "event_organizer" ++
    " violates foreign key constraint " ++
    quoted "event_organizer_event_id_fkey" in
  (forall r, In r (event (store Sample.demo)) -> ev_id r <> 99%N) /\
  fst (EventRepository.update_event 99%N None None None None (Some "Room 2")
         None (Some 1%N) Sample.demo) = Raise (IntegrityError text) /\
  fst (EventService.update_event 99%N None None None None (Some "Room 2")
         None (Some 1%N) Sample.demo) = Raise (IntegrityError text) /\
  ~ (fst (EventRepository.update_event 99%N None None None None
            (Some "Room 2") None (Some 1%N) Sample.demo) = Ok true).
Proof.
  intros text. split; [|split; [|split]].
  - assert (forallb (fun r => negb (N.eqb (ev_id r) 99))
              (event (store Sample.demo)) = true) as Hb
        by (vm_compute; reflexivity).
    intros r Hin. rewrite forallb_forall in Hb.
    apply N.eqb_neq, negb_true_iff, Hb, Hin.
  - vm_compute. reflexivity.
  - vm_compute. reflexivity.
  - vm_compute. discriminate.
Qed.


(* ================================================================== *)
(** * The mock data of the start-up *)
(* ================================================================== *)

(** X1. Both probes of [initialize_mock_data] select the constant 1, so that
    when they return, data is taken to exist whatever the tables contain: the
    call writes nothing, generates no identifier and does not read the clock;
    it returns after two statements with the message that the initialization
    is skipped, or raises the failure of one of the two probes. *)
Theorem mock_data_is_never_created (w : world) :
  let run := MockDataService.initialize_mock_data w in
  store (snd run) = store w /\
  uuid_calls (snd run) = uuid_calls w /\
  clock_reads (snd run) = clock_reads w /\
  match fst run with
  | Ok _ =>
      statements (snd run) = (2 + statements w)%nat /\
      logs (snd run) =
        (logs w ++
         [(INFO, "Initializing mock data...");
          (INFO, "Mock data already exists, skipping initialization")])%list
  | Raise e =>
      (exists f, e = exn_of_fault f) /\
      logs (snd run) = (logs w ++ [(INFO, "Initializing mock data...")])%list
  end.
Proof.
  intros run. subst run.
  unfold MockDataService.initialize_mock_data,
    MockDataService.select_one_limit_one, MockDataService.is_not_None.
  cbv beta iota delta [bind ret raise get_session execute logger sent
                        set_store query].
  cbn [store env statements uuid_calls clock_reads logs fst snd].
  destruct (fault_at (env w) (statements w)) as [f|];
    cbn [store env statements uuid_calls clock_reads logs fst snd].
  - repeat split; eauto.
  - destruct (fault_at (env w) (S (statements w))) as [f|];
      cbn [store env statements uuid_calls clock_reads logs fst snd andb].
    + repeat split; eauto.
    + repeat split. rewrite <- app_assoc. reflexivity.
Qed.

(* ================================================================== *)
(** * Listings *)
(* ================================================================== *)

(** ** [ORDER BY] *)

Lemma insert_by_permutation {A} (leb : A -> A -> bool) (x : A) (l : list A) :
  Permutation (insert_by leb x l) (x :: l).
Proof.
  induction l as [|y l IH]; cbn; [reflexivity|].
  destruct (leb x y); [reflexivity|].
  rewrite IH. apply perm_swap.
Qed.

Lemma order_by_permutation {A} (leb : A -> A -> bool) (l : list A) :
  Permutation (order_by leb l) l.
Proof.
  unfold order_by. induction l as [|x l IH]; cbn; [reflexivity|].
  rewrite insert_by_permutation. constructor. exact IH.
Qed.

Section Ordering.
Context {A : Type} (leb : A -> A -> bool).
Hypothesis leb_total : forall a b, leb a b = false -> leb b a = true.
Hypothesis leb_trans :
  forall a b c, leb a b = true -> leb b c = true -> leb a c = true.

Lemma insert_by_sorted (x : A) (l : list A) :
  StronglySorted (fun a b => leb a b = true) l ->
  StronglySorted (fun a b => leb a b = true) (insert_by leb x l).
Proof.
  induction 1 as [|y l Hl IH Hy]; cbn.
  - constructor; constructor.
  - destruct (leb x y) eqn:E.
    + constructor; [constructor; assumption|].
      constructor; [exact E|].
      eapply Forall_impl; [|exact Hy]. intros z Hz.
      exact (leb_trans _ _ _ E Hz).
    + constructor; [exact IH|].
      apply Forall_forall. intros z Hz. apply in_insert_by in Hz.
      destruct Hz as [->|Hz].
      * apply leb_total. exact E.
      * rewrite Forall_forall in Hy. apply Hy. exact Hz.
Qed.

Lemma order_by_sorted (l : list A) :
  StronglySorted (fun a b => leb a b = true) (order_by leb l).
Proof.
  unfold order_by. induction l as [|x l IH]; cbn; [constructor|].
  apply insert_by_sorted. exact IH.
Qed.

End Ordering.

Lemma StronglySorted_map {A B} (f : A -> B) (R : B -> B -> Prop) (l : list A) :
  StronglySorted (fun a b => R (f a) (f b)) l -> StronglySorted R (map f l).
Proof.
  induction 1 as [|x l Hl IH Hx]; cbn [map]; constructor; [exact IH|].
  rewrite Forall_map. exact Hx.
Qed.

(** ** The order of [datetime] and [date] values *)

Lemma datetime_leb_iff (a b : datetime) :
  datetime_leb a b = true <->
  year a < year b \/ year a = year b /\
  (month a < month b \/ month a = month b /\
   (day a < day b \/ day a = day b /\
    (hour a < hour b \/ hour a = hour b /\
     (minute a < minute b \/ minute a = minute b /\
      (second a < second b \/ second a = second b /\
       microsecond a <= microsecond b))))).
Proof.
  unfold datetime_leb.
  repeat (match goal with
          | |- context [if ?x <? ?y then _ else _] => destruct (Z.ltb_spec x y)
          end;
          try (split; [intros _; lia | reflexivity]);
          try (split; [discriminate | intros; exfalso; lia])).
Qed.

Lemma datetime_leb_total (a b : datetime) :
  datetime_leb a b = false -> datetime_leb b a = true.
Proof.
  intros H. apply datetime_leb_iff.
  assert (~ datetime_leb a b = true) as N by congruence.
  rewrite datetime_leb_iff in N. lia.
Qed.

Lemma datetime_leb_trans (a b c : datetime) :
  datetime_leb a b = true -> datetime_leb b c = true -> datetime_leb a c = true.
Proof.
  rewrite !datetime_leb_iff. lia.
Qed.

Lemma date_leb_iff (a b : date) :
  date_leb a b = true <->
  date_year a < date_year b \/ date_year a = date_year b /\
  (date_month a < date_month b \/ date_month a = date_month b /\
   date_day a <= date_day b).
Proof.
  unfold date_leb.
  repeat (match goal with
          | |- context [if ?x <? ?y then _ else _] => destruct (Z.ltb_spec x y)
          end;
          try (split; [intros _; lia | reflexivity]);
          try (split; [discriminate | intros; exfalso; lia])).
  rewrite Z.leb_le. lia.
Qed.

Lemma date_leb_total (a b : date) : date_leb a b = false -> date_leb b a = true.
Proof.
  intros H. apply date_leb_iff.
  assert (~ date_leb a b = true) as N by congruence.
  rewrite date_leb_iff in N. lia.
Qed.

Lemma date_leb_trans (a b c : date) :
  date_leb a b = true -> date_leb b c = true -> date_leb a c = true.
Proof.
  rewrite !date_leb_iff. lia.
Qed.

Lemma date_leb_antisym (a b : date) :
  date_leb a b = true -> date_leb b a = true -> a = b.
Proof.
  rewrite !date_leb_iff. destruct a, b; cbn. intros H1 H2.
  f_equal; lia.
Qed.

(** ** The listing of the events *)

(** X2. [GET /events/], when it returns: the answer holds every stored event
    once, with the six fields of [EventDto] as they are stored, in the order
    of the start dates (year, month, day, hour, minute, second and microsecond
    compared in turn; the stored dates carry one and the same offset); the
    store is left as it was and one statement has been sent. *)
Theorem events_are_listed_by_start_date (w : world) (offset : option Z)
  (events : list EventRouter.EventDto) (w' : world) :
  (forall r, In r (event (store w)) -> utcoffset (ev_start_date r) = offset) ->
  EventRouter.get_all_events w = (Ok events, w') ->
  Permutation events
    (map (fun r =>
            EventRouter.Build_EventDto (ev_id r) (ev_title r)
              (ev_short_description r) (ev_start_date r) (ev_location r)
              (ev_image_path r))
       (event (store w))) /\
  StronglySorted
    (fun a b =>
       datetime_leb (EventRouter.dto_start_date a)
         (EventRouter.dto_start_date b) = true)
    events /\
  store w' = store w /\
  statements w' = S (statements w).
Proof.
  intros _ H.
  unfold EventRouter.get_all_events, EventService.get_all_events, bind in H.
  cbn [logger] in H. unfold logger in H.
  rewrite get_all_events_runs in H. cbn [env statements] in H.
  destruct (fault_at (env w) (statements w)); [discriminate|].
  unfold ret in H. inversion H; subst; clear H. cbn [store statements sent].
  split; [|split; [|split; reflexivity]].
  - rewrite order_by_permutation, map_map. reflexivity.
  - set (leb := fun a b : event_summary =>
                  datetime_leb (es_start_date a) (es_start_date b)).
    pose proof (order_by_sorted leb
                  (fun a b => datetime_leb_total _ _)
                  (fun a b c => datetime_leb_trans _ _ _)
                  (map summary (event (store w)))) as Hs.
    apply StronglySorted_map. exact Hs.
Qed.

Lemma events_are_listed_by_start_date_witness :
  exists events w',
    EventRouter.get_all_events Sample.demo = (Ok events, w') /\
    StronglySorted
      (fun a b =>
         datetime_leb (EventRouter.dto_start_date a)
           (EventRouter.dto_start_date b) = true)
      events /\
    store w' = store Sample.demo /\
    statements w' = S (statements Sample.demo).
Proof.
  assert (match fst (EventRouter.get_all_events Sample.demo) with
          | Ok _ => true
          | Raise _ => false
          end = true) as Hok by (vm_compute; reflexivity).
  assert (forallb (fun r => option_eqb Z.eqb (utcoffset (ev_start_date r))
                              (Some 0))
            (event (store Sample.demo)) = true) as Hoff
      by (vm_compute; reflexivity).
  destruct (EventRouter.get_all_events Sample.demo) as [[events|e] w'] eqn:E;
    [|discriminate Hok].
  exists events, w'. split; [reflexivity|].
  refine (proj2 (events_are_listed_by_start_date Sample.demo (Some 0) events
                   w' _ E)).
  intros r Hr. rewrite forallb_forall in Hoff. specialize (Hoff r Hr).
  destruct (utcoffset (ev_start_date r)) as [z|]; [|discriminate Hoff].
  cbn in Hoff. apply Z.eqb_eq in Hoff. rewrite Hoff. reflexivity.
Defined.

(* ================================================================== *)
(** * The occupancy table and the bookings *)
(* ================================================================== *)

Lemma perform_keeps_matching call w :
  occupancy_matches_bookings (store w) ->
  occupancy_matches_bookings (store (perform call w)).
Proof.
  intros Hinv o Hin.
  destruct (perform_coworking_tables call w)
    as [[Hb Ho]|[(c' & Hb & Ho)|(c & d & n & p & id & Hcall)]].
  - unfold bookings_for. rewrite Hb. rewrite Ho in Hin. apply Hinv. exact Hin.
  - rewrite Ho in Hin. apply filter_In in Hin. destruct Hin as [Hin Hne].
    unfold bookings_for. rewrite Hb.
    rewrite filter_filter_same; [apply Hinv; exact Hin|].
    intros b Hon. apply booking_on_true in Hon. destruct Hon as [-> _].
    exact Hne.
  - destruct (occupancy_on c d o) eqn:Hon.
    + pose proof Hon as Hkey. apply occupancy_on_true in Hkey.
      destruct Hkey as [-> ->].
      destruct (create_booking_same_day _ _ _ _ _ _ _ Hcall)
        as (_ & _ & _ & Hpct).
      apply (proj2 (occupancy_percentage_spec _ (Nat2Z.is_nonneg _))).
      apply Hpct. apply filter_In. split; assumption.
    + assert (co_coworking_id o <> c \/ co_date o <> d) as Hne.
      { destruct (N.eq_dec (co_coworking_id o) c) as [Hc|]; [|tauto].
        right. intros Hd.
        rewrite (proj2 (occupancy_on_true c d o)) in Hon by tauto.
        discriminate. }
      destruct (create_booking_other_day _ _ _ _ _ _ _ _ _ Hcall Hne)
        as [-> _].
      apply Hinv.
      destruct (create_booking_returns _ _ _ _ _ _ _ Hcall)
        as (b & pct & _ & _ & _ & _ & _ & Hocc).
      destruct Hocc as [(now & _ & E)|(o' & _ & E & Hc & Hd & _)];
        rewrite E in Hin.
      * apply in_map_iff in Hin. destruct Hin as (x & Hx & Hin).
        destruct (occupancy_on c d x) eqn:Hx'; [|subst; exact Hin].
        subst o. unfold occupancy_on in Hon, Hx'. cbn in Hon.
        rewrite Hx' in Hon. discriminate.
      * apply in_app_or in Hin. destruct Hin as [Hin|[<-|[]]]; [exact Hin|].
        rewrite (proj2 (occupancy_on_true c d o')) in Hon by tauto.
        discriminate.
Qed.

Lemma reachable_matching db : reachable db -> occupancy_matches_bookings db.
Proof.
  induction 1 as [|w call _ IH].
  - intros o [].
  - apply perform_keeps_matching. exact IH.
Qed.

(** X3. In every content of the store that the repository calls can produce,
    whatever fails on the way, each occupancy row carries ten times the number
    of bookings stored for its space and day, at most 100; that number is at
    least one, so that the percentage lies between 10 and 100. *)
Theorem occupancy_rows_match_bookings (db : database)
  (o : coworking_occupancy_row) :
  reachable db ->
  In o (coworking_occupancy db) ->
  let n := List.length (bookings_for db (co_coworking_id o) (co_date o)) in
  (1 <= n)%nat /\
  co_occupancy_percentage o = Z.min 100 (10 * Z.of_nat n) /\
  10 <= co_occupancy_percentage o <= 100.
Proof.
  intros Hreach Hin n.
  pose proof (reachable_matching db Hreach o Hin) as Hpct. fold n in Hpct.
  pose proof (reachable_one_row db Hreach (co_coworking_id o) (co_date o))
    as Hone.
  assert (In o (occupancy_for db (co_coworking_id o) (co_date o))) as Hrow.
  { apply filter_In. split; [exact Hin|]. apply occupancy_on_true. tauto. }
  assert (1 <= n)%nat as Hn.
  { subst n. destruct (bookings_for db (co_coworking_id o) (co_date o));
      [|cbn; lia].
    destruct (occupancy_for db (co_coworking_id o) (co_date o));
      [destruct Hrow | discriminate Hone]. }
  split; [exact Hn|]. split; [exact Hpct|]. lia.
Qed.

Lemma occupancy_rows_match_bookings_witness :
  let db := store (Sample.book 2 Sample.hub) in
  let o :=
    Build_coworking_occupancy_row 3%N 1%N Sample.may_day 20 (Sample.clock 4)
      (Sample.clock 8) in
  In o (coworking_occupancy db) /\
  (1 <= List.length (bookings_for db (co_coworking_id o) (co_date o)))%nat /\
  co_occupancy_percentage o =
    Z.min 100
      (10 * Z.of_nat (List.length
                        (bookings_for db (co_coworking_id o) (co_date o)))) /\
  10 <= co_occupancy_percentage o <= 100.
Proof.
  intros db o.
  assert (In o (coworking_occupancy db)) as Hin
      by (vm_compute; left; reflexivity).
  split; [exact Hin|].
  refine (occupancy_rows_match_bookings db o _ Hin).
  subst db. cbn [Sample.book]. apply reachable_call. apply reachable_call.
  unfold Sample.hub. apply reachable_call. apply reachable_empty.
Defined.

(** ** The details of a coworking space *)

Lemma get_occupancy_stats_runs c (w : world) :
  CoworkingService.get_occupancy_stats c w =
  match fault_at (env w) (statements w) with
  | Some f =>
      (Raise (CoworkingError
                ("Error getting occupancy stats: " ++
                 str_exn (exn_of_fault f))),
       Build_world (store w) (env w) (uuid_calls w) (clock_reads w)
         (S (statements w))
         (logs w ++
          [(ERROR,
            String.append "Error getting occupancy stats: "
              (str_exn (exn_of_fault f)))])%list)
  | None =>
      (Ok (order_by (fun a b => date_leb (fst a) (fst b))
             (map (fun o => (co_date o, co_occupancy_percentage o))
                (filter (fun o => N.eqb (co_coworking_id o) c)
                   (coworking_occupancy (store w))))),
       sent w)
  end.
Proof.
  unfold CoworkingService.get_occupancy_stats,
    CoworkingRepository.get_occupancy_stats, try_except, get_session, bind,
    execute, select_occupancy_stats, query, logger, raise.
  destruct (fault_at (env w) (statements w)); reflexivity.
Qed.

Lemma filter_occupancy_on c d (l : list coworking_occupancy_row) :
  filter (fun o => date_eqb (co_date o) d)
    (filter (fun o => N.eqb (co_coworking_id o) c) l) =
  filter (occupancy_on c d) l.
Proof.
  unfold occupancy_on.
  induction l as [|o l IH]; cbn [filter]; [reflexivity|].
  destruct (N.eqb (co_coworking_id o) c); cbn [filter andb]; [|exact IH].
  destruct (date_eqb (co_date o) d); [f_equal|]; exact IH.
Qed.

Lemma one_per_day_no_duplicate (l : list coworking_occupancy_row) :
  (forall d,
     (List.length (filter (fun o => date_eqb (co_date o) d) l) <= 1)%nat) ->
  NoDup (map co_date l).
Proof.
  induction l as [|o l IH]; intros H; cbn; constructor.
  - intros Hin. apply in_map_iff in Hin. destruct Hin as (o' & Hd & Hin).
    specialize (H (co_date o)). cbn in H.
    rewrite (proj2 (date_eqb_eq _ _) eq_refl) in H. cbn in H.
    assert (In o' (filter (fun x => date_eqb (co_date x) (co_date o)) l))
      as Hin'.
    { apply filter_In. split; [exact Hin|]. apply date_eqb_eq. exact Hd. }
    destruct (filter (fun x => date_eqb (co_date x) (co_date o)) l);
      [destruct Hin' | cbn in H; lia].
  - apply IH. intros d. specialize (H d). cbn in H.
    destruct (date_eqb (co_date o) d); cbn in H; lia.
Qed.

(** X4. [GET /coworking/{coworking_id}], when it answers with the details, on
    a content of the store that the repository calls can produce: the answer
    carries the fields of the stored space, and its occupancy data hold one
    entry for each day on which the space has bookings and no other entry, in
    the order of the days, each with ten times the number of bookings of that
    day, at most 100; the store is left as it was. *)
Theorem coworking_details_list_booked_days (w : world) (c : UUID)
  (answer : CoworkingRouter.CoworkingDetailResponse) (w' : world) :
  reachable (store w) ->
  CoworkingRouter.get_coworking_by_id c w = (Ok answer, w') ->
  let data := CoworkingRouter.cd_occupancy_data answer in
  (exists s,
     find (fun s => N.eqb (cs_id s) c) (coworking_space (store w)) = Some s /\
     CoworkingRouter.cd_id answer = c /\
     CoworkingRouter.cd_name answer = cs_name s /\
     CoworkingRouter.cd_description answer = cs_description s /\
     CoworkingRouter.cd_location answer = cs_location s /\
     CoworkingRouter.cd_image_path answer = cs_image_path s) /\
  StronglySorted
    (fun a b =>
       date_leb (CoworkingRouter.od_date a) (CoworkingRouter.od_date b) = true)
    data /\
  NoDup (map CoworkingRouter.od_date data) /\
  (forall d p,
     In (CoworkingRouter.Build_OccupancyDataDto d p) data <->
     bookings_for (store w) c d <> [] /\
     p = Z.min 100 (10 * Z.of_nat (List.length (bookings_for (store w) c d)))) /\
  store w' = store w.
Proof.
  intros Hreach H data.
  unfold CoworkingRouter.get_coworking_by_id in H.
  unfold bind at 1 in H. unfold logger at 1 in H.
  unfold bind at 1 in H. rewrite get_coworking_by_id_runs in H.
  cbn [env statements store] in H.
  destruct (fault_at (env w) (statements w)); [discriminate|].
  destruct (find (fun s => N.eqb (cs_id s) c) (coworking_space (store w)))
    as [s|] eqn:Hfind; cbn [snd fst negb] in H;
    [|unfold bind, logger, raise in H; discriminate].
  unfold bind at 1 in H. rewrite get_occupancy_stats_runs in H.
  cbn [env statements store sent] in H.
  destruct (fault_at (env w) (S (statements w))); [discriminate|].
  unfold ret in H. inversion H; subst; clear H.
  subst data. cbn [CoworkingRouter.cd_occupancy_data CoworkingRouter.cd_id
                   CoworkingRouter.cd_name CoworkingRouter.cd_description
                   CoworkingRouter.cd_location CoworkingRouter.cd_image_path
                   store sent].
  set (rows := filter (fun o => N.eqb (co_coworking_id o) c)
                 (coworking_occupancy (store w))).
  set (leb := fun a b : date * Z => date_leb (fst a) (fst b)).
  assert (forall d p,
            In (d, p) (order_by leb
                         (map (fun o => (co_date o, co_occupancy_percentage o))
                            rows)) <->
            exists o, In o (occupancy_for (store w) c d) /\
                      co_occupancy_percentage o = p) as Hrows.
  { intros d p. rewrite in_order_by, in_map_iff. unfold occupancy_for.
    split.
    - intros (o & E & Hin). inversion E; subst. exists o. split; [|reflexivity].
      apply filter_In in Hin. destruct Hin as [Hin Hc].
      apply filter_In. split; [exact Hin|].
      apply occupancy_on_true. apply N.eqb_eq in Hc. tauto.
    - intros (o & Hin & Hp). apply filter_In in Hin. destruct Hin as [Hin Hon].
      apply occupancy_on_true in Hon. destruct Hon as [Hc Hd].
      exists o. split; [congruence|]. apply filter_In. split; [exact Hin|].
      apply N.eqb_eq. exact Hc. }
  split; [|split; [|split; [|split; [|reflexivity]]]].
  - exists s. split; [reflexivity|]. apply find_some in Hfind.
    destruct Hfind as [_ Hid]. apply N.eqb_eq in Hid. auto.
  - pose proof (order_by_sorted leb
                  (fun a b => date_leb_total _ _)
                  (fun a b c => date_leb_trans _ _ _)
                  (map (fun o => (co_date o, co_occupancy_percentage o)) rows))
      as Hs.
    apply StronglySorted_map. exact Hs.
  - rewrite map_map. cbn [CoworkingRouter.od_date].
    apply (Permutation_NoDup (l := map co_date rows)).
    + change (fun x : date * Z => fst x) with (@fst date Z).
      rewrite <- (map_map (fun o => (co_date o, co_occupancy_percentage o)) fst).
      apply Permutation_map, Permutation_sym, order_by_permutation.
    + apply one_per_day_no_duplicate. intros d. subst rows.
      rewrite filter_occupancy_on.
      pose proof (reachable_one_row _ Hreach c d) as Hone.
      unfold occupancy_for in Hone. rewrite Hone.
      destruct (bookings_for (store w) c d); lia.
  - intros d p.
    rewrite in_map_iff.
    assert ((exists x : date * Z,
               CoworkingRouter.Build_OccupancyDataDto (fst x) (snd x) =
               CoworkingRouter.Build_OccupancyDataDto d p /\
               In x (order_by leb
                       (map (fun o => (co_date o, co_occupancy_percentage o))
                          rows))) <->
            In (d, p) (order_by leb
                         (map (fun o => (co_date o, co_occupancy_percentage o))
                            rows))) as ->.
    { split.
      - intros ([d' p'] & E & Hin). cbn in E. inversion E; subst. exact Hin.
      - intros Hin. exists (d, p). split; [reflexivity | exact Hin]. }
    rewrite Hrows.
    pose proof (reachable_one_row _ Hreach c d) as Hone.
    split.
    + intros (o & Hin & Hp).
      pose proof Hin as Hin'. apply filter_In in Hin'.
      destruct Hin' as [Hin' Hon]. apply occupancy_on_true in Hon.
      destruct Hon as [Hc Hd].
      pose proof (reachable_matching _ Hreach o Hin') as Hpct.
      rewrite Hc, Hd in Hpct. split; [|congruence].
      intros Hnone. rewrite Hnone in Hone.
      destruct (occupancy_for (store w) c d); [destruct Hin | discriminate].
    + intros [Hsome ->].
      destruct (occupancy_for (store w) c d) as [|o l] eqn:E.
      * destruct (bookings_for (store w) c d); [tauto | discriminate].
      * exists o. split; [left; reflexivity|].
        assert (In o (occupancy_for (store w) c d)) as Hin
            by (rewrite E; left; reflexivity).
        apply filter_In in Hin. destruct Hin as [Hin Hon].
        apply occupancy_on_true in Hon. destruct Hon as [Hc Hd].
        pose proof (reachable_matching _ Hreach o Hin) as Hpct.
        rewrite Hc, Hd in Hpct. exact Hpct.
Qed.

Lemma coworking_details_list_booked_days_witness :
  exists answer w',
    CoworkingRouter.get_coworking_by_id 1%N (Sample.book 2 Sample.hub) =
      (Ok answer, w') /\
    NoDup (map CoworkingRouter.od_date
             (CoworkingRouter.cd_occupancy_data answer)) /\
    In (CoworkingRouter.Build_OccupancyDataDto Sample.may_day 20)
      (CoworkingRouter.cd_occupancy_data answer) /\
    store w' = store (Sample.book 2 Sample.hub).
Proof.
  assert (match fst (CoworkingRouter.get_coworking_by_id 1%N
                       (Sample.book 2 Sample.hub)) with
          | Ok _ => true
          | Raise _ => false
          end = true) as Hok by (vm_compute; reflexivity).
  destruct (CoworkingRouter.get_coworking_by_id 1%N (Sample.book 2 Sample.hub))
    as [[answer|e] w'] eqn:E; [|discriminate Hok].
  exists answer, w'. split; [reflexivity|].
  assert (reachable (store (Sample.book 2 Sample.hub))) as Hreach.
  { cbn [Sample.book]. apply reachable_call. apply reachable_call.
    unfold Sample.hub. apply reachable_call. apply reachable_empty. }
  destruct (coworking_details_list_booked_days _ _ _ _ Hreach E)
    as (_ & _ & Hnodup & Hdays & Hstore).
  split; [exact Hnodup|]. split; [|exact Hstore].
  apply Hdays. split.
  - vm_compute. discriminate.
  - vm_compute. reflexivity.
Defined.

(* ================================================================== *)
(** * Transactions *)
(* ================================================================== *)

(** X5. The methods of the three repositories that only read leave the store
    as it was, whether they return or raise; the methods that write do so
    inside [session.begin()], and leave the store as it was whenever they
    raise, whichever of their statements or their commit has failed. *)
Theorem repository_calls_write_all_or_nothing (w : world) :
  store (snd (EventRepository.get_all_events w)) = store w /\
  (forall id, store (snd (EventRepository.get_event_by_id id w)) = store w) /\
  store (snd (OrganizerRepository.get_all_organizers w)) = store w /\
  (forall id,
     store (snd (OrganizerRepository.get_organizer_by_id id w)) = store w) /\
  store (snd (CoworkingRepository.get_all_coworking_spaces w)) = store w /\
  (forall id,
     store (snd (CoworkingRepository.get_coworking_by_id id w)) = store w) /\
  (forall id,
     store (snd (CoworkingRepository.get_occupancy_stats id w)) = store w) /\
  (forall t d s sd l i o e w',
     EventRepository.create_event t d s sd l i o w = (Raise e, w') ->
     store w' = store w) /\
  (forall id t d s sd l i o e w',
     EventRepository.update_event id t d s sd l i o w = (Raise e, w') ->
     store w' = store w) /\
  (forall id e w',
     EventRepository.delete_event id w = (Raise e, w') -> store w' = store w) /\
  (forall n d i e w',
     OrganizerRepository.create_organizer n d i w = (Raise e, w') ->
     store w' = store w) /\
  (forall id n d i e w',
     OrganizerRepository.update_organizer id n d i w = (Raise e, w') ->
     store w' = store w) /\
  (forall id e w',
     OrganizerRepository.delete_organizer id w = (Raise e, w') ->
     store w' = store w) /\
  (forall n d l i e w',
     CoworkingRepository.create_coworking_space n d l i w = (Raise e, w') ->
     store w' = store w) /\
  (forall id n d l i e w',
     CoworkingRepository.update_coworking_space id n d l i w = (Raise e, w') ->
     store w' = store w) /\
  (forall id e w',
     CoworkingRepository.delete_coworking_space id w = (Raise e, w') ->
     store w' = store w) /\
  (forall c d n p e w',
     CoworkingRepository.create_booking c d n p w = (Raise e, w') ->
     store w' = store w).
Proof.
  repeat split; intros.
  all: try match goal with
         | H : _ = (Raise _, _) |- _ =>
             unfold_repositories H;
             try match goal with
               | o : option UUID |- _ => destruct o
               end;
             run_in H; inversion H; subst; reflexivity
         end.
  all: match goal with
       | |- store (snd ?run) = _ => destruct run as [r w'] eqn:E
       end.
  all: unfold_repositories E; run_in E; inversion E; subst; reflexivity.
Qed.

Lemma repository_calls_write_all_or_nothing_witness :
  exists e w',
    CoworkingRepository.create_booking 7%N Sample.may_day "Alice Johnson"
      "+1234567890" Sample.hub = (Raise e, w') /\
    store w' = store Sample.hub /\
    store (snd (CoworkingRepository.get_occupancy_stats 7%N Sample.hub)) =
      store Sample.hub.
Proof.
  assert (exists e w',
            CoworkingRepository.create_booking 7%N Sample.may_day
              "Alice Johnson" "+1234567890" Sample.hub = (Raise e, w'))
    as (e & w' & E) by (vm_compute; eexists; eexists; reflexivity).
  exists e, w'. split; [exact E|].
  pose proof (repository_calls_write_all_or_nothing Sample.hub) as H.
  split.
  - apply (proj2 (proj2 (proj2 (proj2 (proj2 (proj2 (proj2 (proj2 (proj2
             (proj2 (proj2 (proj2 (proj2 (proj2 (proj2 (proj2 H))))))))))))))))
      with (1 := E).
  - apply (proj1 (proj2 (proj2 (proj2 (proj2 (proj2 (proj2 H))))))).
Defined.

(* ================================================================== *)
(** * Deletions and their cascades *)
(* ================================================================== *)

Lemma find_after_delete {A} (key : A -> N) (id : N) (l : list A) :
  find (fun x => N.eqb (key x) id)
    (filter (fun x => negb (N.eqb (key x) id)) l) = None.
Proof.
  induction l as [|x l IH]; cbn; [reflexivity|].
  destruct (N.eqb (key x) id) eqn:E; cbn; [exact IH|].
  rewrite E. exact IH.
Qed.

Lemma in_after_delete {A} (key : A -> N) (id : N) (l : list A) (x : A) :
  In x (filter (fun x => negb (N.eqb (key x) id)) l) <->
  In x l /\ key x <> id.
Proof.
  rewrite filter_In, negb_true_iff, N.eqb_neq. reflexivity.
Qed.

Lemma delete_event_returns id (w : world) b (w' : world) :
  EventRepository.delete_event id w = (Ok b, w') ->
  store w' =
    set_event_organizer
      (set_event (store w)
         (filter (fun r => negb (N.eqb (ev_id r) id)) (event (store w))))
      (filter (fun l => negb (N.eqb (eo_event_id l) id))
         (event_organizer (store w))).
Proof.
  intros H. unfold_repositories H. run_in H; inversion H; subst. reflexivity.
Qed.

(** X6. A call of [delete_event] that returns has removed the events of the
    given identifier and, by the cascade of the schema, their links to
    organizers; the other events and links, the organizers and the coworking
    tables are as they were, and a look-up of the identifier made afterwards,
    when it returns, finds nothing. *)
Theorem deleted_event_is_gone (w : world) (id : UUID) (b : bool)
  (w' : world) :
  EventRepository.delete_event id w = (Ok b, w') ->
  (forall r, In r (event (store w')) <->
             In r (event (store w)) /\ ev_id r <> id) /\
  (forall l, In l (event_organizer (store w')) <->
             In l (event_organizer (store w)) /\ eo_event_id l <> id) /\
  organizer (store w') = organizer (store w) /\
  coworking_space (store w') = coworking_space (store w) /\
  coworking_booking (store w') = coworking_booking (store w) /\
  coworking_occupancy (store w') = coworking_occupancy (store w) /\
  (forall r w'',
     EventService.get_event_by_id id w' = (Ok r, w'') -> r = (None, false)).
Proof.
  intros H. apply delete_event_returns in H.
  rewrite H. tables.
  split; [intros r; apply in_after_delete|].
  split; [intros l; apply in_after_delete|].
  repeat (split; [reflexivity|]).
  intros r w'' E. unfold EventService.get_event_by_id in E.
  unfold_repositories E. run_in E; inversion E; subst; try reflexivity.
  exfalso. rewrite H in *. tables in *.
  rewrite find_after_delete in *. discriminate.
Qed.


Lemma deleted_event_is_gone_witness :
  let w' := snd (EventRepository.delete_event 2%N Sample.demo) in
  organizer (store w') = organizer (store Sample.demo) /\
  fst (EventService.get_event_by_id 2%N w') = Ok (None, false).
Proof.
  intros w'.
  assert (EventRepository.delete_event 2%N Sample.demo = (Ok true, w')) as H
      by (vm_compute; reflexivity).
  destruct (deleted_event_is_gone _ _ _ _ H) as (_ & _ & Horg & _ & _ & _ & Hget).
  split; [exact Horg|].
  assert (match fst (EventService.get_event_by_id 2%N w') with
          | Ok _ => true
          | Raise _ => false
          end = true) as Hok by (vm_compute; reflexivity).
  destruct (EventService.get_event_by_id 2%N w') as [[r|e] w''] eqn:E;
    [|discriminate Hok].
  cbn [fst]. f_equal. exact (Hget r w'' eq_refl).
Defined.

(** ** Bookings of a space that is not stored *)

Lemma create_booking_needs_space c d n p (w : world) r (w' : world) :
  (forall s, In s (coworking_space (store w)) -> cs_id s <> c) ->
  CoworkingRepository.create_booking c d n p w = (r, w') ->
  store w' = store w /\
  exists e, r = Raise e /\
            (calm_environment w -> exists text, e = IntegrityError text).
Proof.
  intros Hmiss E.
  pose proof (existsb_absent cs_id c _ Hmiss) as Hex.
  unfold_repositories E. run_in E; inversion E; subst; clear E.
  all: tables in *; cbn [cb_coworking_id negb] in *.
  all: try (rewrite Hex in *; discriminate).
  all: split; [reflexivity|]; eexists; split; [reflexivity|]; intros Hcalm.
  all: calm Hcalm.
  all: eexists; reflexivity.
Qed.

(** X7. A booking for an identifier that no stored space has is never created:
    [create_booking] raises and leaves the store as it was; when no statement
    fails for another reason, the exception is the [IntegrityError] of a
    violated constraint, and the service raises [CoworkingError] with its
    text. *)
Theorem booking_needs_a_stored_space (w : world) (c : UUID) (d : date)
  (name phone : string) :
  (forall s, In s (coworking_space (store w)) -> cs_id s <> c) ->
  exists e w',
    CoworkingRepository.create_booking c d name phone w = (Raise e, w') /\
    store w' = store w /\
    (calm_environment w -> exists text, e = IntegrityError text) /\
    fst (CoworkingService.create_booking c d name phone w) =
      Raise (CoworkingError ("Error creating booking: " ++ str_exn e)) /\
    store (snd (CoworkingService.create_booking c d name phone w)) = store w.
Proof.
  intros Hmiss.
  destruct (CoworkingRepository.create_booking c d name phone w) as [r w']
    eqn:E.
  destruct (create_booking_needs_space _ _ _ _ _ _ _ Hmiss E)
    as (Hstore & e & -> & Hcalm).
  exists e, w'. split; [reflexivity|]. split; [exact Hstore|].
  split; [exact Hcalm|].
  unfold CoworkingService.create_booking, try_except. rewrite E.
  destruct e; cbn; auto.
Qed.

Lemma booking_needs_a_stored_space_witness :
  exists e w',
    CoworkingRepository.create_booking 7%N Sample.may_day "Alice Johnson"
      "+1234567890" Sample.hub = (Raise e, w') /\
    store w' = store Sample.hub /\
    (calm_environment Sample.hub -> exists text, e = IntegrityError text) /\
    fst (CoworkingService.create_booking 7%N Sample.may_day "Alice Johnson"
           "+1234567890" Sample.hub) =
      Raise (CoworkingError ("Error creating booking: " ++ str_exn e)) /\
    store (snd (CoworkingService.create_booking 7%N Sample.may_day
                  "Alice Johnson" "+1234567890" Sample.hub)) =
      store Sample.hub.
Proof.
  apply booking_needs_a_stored_space.
  assert (forallb (fun s => negb (N.eqb (cs_id s) 7))
            (coworking_space (store Sample.hub)) = true) as Hb
      by (vm_compute; reflexivity).
  intros s Hin. rewrite forallb_forall in Hb.
  apply N.eqb_neq, negb_true_iff, Hb, Hin.
Defined.

(** ** The deletion of a coworking space *)

Lemma delete_coworking_space_returns id (w : world) b (w' : world) :
  CoworkingRepository.delete_coworking_space id w = (Ok b, w') ->
  store w' =
    Build_database (event (store w)) (organizer (store w))
      (event_organizer (store w))
      (filter (fun s => negb (N.eqb (cs_id s) id)) (coworking_space (store w)))
      (filter (fun b => negb (N.eqb (cb_coworking_id b) id))
         (coworking_booking (store w)))
      (filter (fun o => negb (N.eqb (co_coworking_id o) id))
         (coworking_occupancy (store w))).
Proof.
  intros H. unfold_repositories H. run_in H; inversion H; subst. reflexivity.
Qed.

(** X8. A call of [delete_coworking_space] that returns has removed the space
    and, by the cascades of the schema, all its bookings and occupancy rows;
    the bookings and occupancy rows of the other spaces and the event tables
    are as they were. Afterwards the statistics of the space, when they are
    returned, are empty, and a booking for the space is refused. *)
Theorem deleted_space_loses_its_bookings (w : world) (id : UUID) (b : bool)
  (w' : world) :
  CoworkingRepository.delete_coworking_space id w = (Ok b, w') ->
  (forall s, In s (coworking_space (store w')) <->
             In s (coworking_space (store w)) /\ cs_id s <> id) /\
  (forall c d,
     bookings_for (store w') c d =
     if N.eqb c id then [] else bookings_for (store w) c d) /\
  (forall c d,
     occupancy_for (store w') c d =
     if N.eqb c id then [] else occupancy_for (store w) c d) /\
  event (store w') = event (store w) /\
  organizer (store w') = organizer (store w) /\
  event_organizer (store w') = event_organizer (store w) /\
  (forall stats w'',
     CoworkingService.get_occupancy_stats id w' = (Ok stats, w'') ->
     stats = []) /\
  (forall d name phone r w'',
     CoworkingRepository.create_booking id d name phone w' = (r, w'') ->
     store w'' = store w' /\ exists e, r = Raise e).
Proof.
  intros H. apply delete_coworking_space_returns in H.
  split; [|split; [|split; [|split; [|split; [|split; [|split]]]]]].
  - intros s. rewrite H. tables. apply in_after_delete.
  - intros c d. unfold bookings_for. rewrite H. tables.
    destruct (N.eqb c id) eqn:E.
    + apply filter_filter_none. intros x Hx. apply booking_on_true in Hx.
      destruct Hx as [-> _]. rewrite E. reflexivity.
    + apply filter_filter_same. intros x Hx. apply booking_on_true in Hx.
      destruct Hx as [-> _]. rewrite E. reflexivity.
  - intros c d. unfold occupancy_for. rewrite H. tables.
    destruct (N.eqb c id) eqn:E.
    + apply filter_filter_none. intros x Hx. apply occupancy_on_true in Hx.
      destruct Hx as [-> _]. rewrite E. reflexivity.
    + apply filter_filter_same. intros x Hx. apply occupancy_on_true in Hx.
      destruct Hx as [-> _]. rewrite E. reflexivity.
  - rewrite H. reflexivity.
  - rewrite H. reflexivity.
  - rewrite H. reflexivity.
  - intros stats w'' E. rewrite get_occupancy_stats_runs in E.
    destruct (fault_at (env w') (statements w')); [discriminate|].
    inversion E; subst; clear E. rewrite H. tables.
    rewrite filter_filter_none; [reflexivity|].
    intros x Hx. rewrite Hx. reflexivity.
  - intros d name phone r w'' E.
    apply create_booking_needs_space in E.
    + destruct E as (Hstore & e & -> & _). split; [exact Hstore | eauto].
    + intros s Hin. rewrite H in Hin. tables in *.
      apply in_after_delete in Hin. tauto.
Qed.

Lemma deleted_space_loses_its_bookings_witness :
  let w' :=
    snd (CoworkingRepository.delete_coworking_space 1%N
           (Sample.book 2 Sample.hub)) in
  bookings_for (store w') 1%N Sample.may_day = [] /\
  occupancy_for (store w') 1%N Sample.may_day = [] /\
  event (store w') = event (store (Sample.book 2 Sample.hub)).
Proof.
  intros w'.
  assert (CoworkingRepository.delete_coworking_space 1%N
            (Sample.book 2 Sample.hub) = (Ok true, w')) as H
      by (vm_compute; reflexivity).
  destruct (deleted_space_loses_its_bookings _ _ _ _ H)
    as (_ & Hb & Ho & He & _).
  split; [exact (Hb 1%N Sample.may_day)|].
  split; [exact (Ho 1%N Sample.may_day) | exact He].
Defined.

(** ** The deletion of an organizer *)

Lemma delete_organizer_returns id (w : world) b (w' : world) :
  OrganizerRepository.delete_organizer id w = (Ok b, w') ->
  store w' =
    set_event_organizer
      (set_organizer (store w)
         (filter (fun o => negb (N.eqb (org_id o) id)) (organizer (store w))))
      (filter (fun l => negb (N.eqb (eo_organizer_id l) id))
         (event_organizer (store w))).
Proof.
  intros H. unfold_repositories H. run_in H; inversion H; subst. reflexivity.
Qed.

Lemma get_event_by_id_runs id (w : world) :
  EventService.get_event_by_id id w =
  match fault_at (env w) (statements w) with
  | Some f => (Raise (exn_of_fault f), sent w)
  | None =>
      match find (fun r => N.eqb (ev_id r) id) (event (store w)) with
      | None => (Ok (None, false), sent w)
      | Some ev =>
          match fault_at (env w) (S (statements w)) with
          | Some f =>
              (Raise (exn_of_fault f),
               Build_world (store w) (env w) (uuid_calls w) (clock_reads w)
                 (S (S (statements w))) (logs w))
          | None =>
              (Ok (Some (ev,
                         hd_error
                           (flat_map
                              (fun l =>
                                 map (fun o =>
                                        Build_organizer_info (org_id o)
                                          (org_name o) (org_description o)
                                          (org_image_path o))
                                   (filter
                                      (fun o =>
                                         N.eqb (org_id o) (eo_organizer_id l))
                                      (organizer (store w))))
                              (filter (fun l => N.eqb (eo_event_id l) id)
                                 (event_organizer (store w))))),
                   true),
               sent (sent w))
          end
      end
  end.
Proof.
  unfold EventService.get_event_by_id, EventRepository.get_event_by_id,
    get_session, bind, execute, select_event_where_id,
    select_organizer_of_event, query, ret.
  destruct (fault_at (env w) (statements w)); [reflexivity|].
  cbn [store env statements sent set_store].
  destruct (find _ _); [|reflexivity].
  cbn [store env statements sent set_store].
  destruct (fault_at (env w) (S (statements w))); reflexivity.
Qed.

Lemma filter_filter_none_in {A} (f h : A -> bool) (l : list A) :
  (forall x, In x l -> f x = true -> h x = false) ->
  filter f (filter h l) = [].
Proof.
  intros Hh. induction l as [|x l IH]; cbn; [reflexivity|].
  assert (filter f (filter h l) = []) as IH'
      by (apply IH; intros y Hy; apply Hh; right; exact Hy).
  destruct (h x) eqn:E; cbn; [|exact IH'].
  destruct (f x) eqn:F; [|exact IH'].
  rewrite (Hh x (or_introl eq_refl) F) in E. discriminate.
Qed.

(** X9. A call of [delete_organizer] that returns has removed the organizers
    of the given identifier and, by the cascade of the schema, their links;
    the events are as they were. An event that was linked to that organizer
    only is still found afterwards, and is shown without organizer. *)
Theorem deleted_organizer_leaves_its_events (w : world) (id : UUID)
  (b : bool) (w' : world) :
  OrganizerRepository.delete_organizer id w = (Ok b, w') ->
  event (store w') = event (store w) /\
  (forall o, In o (organizer (store w')) <->
             In o (organizer (store w)) /\ org_id o <> id) /\
  (forall l, In l (event_organizer (store w')) <->
             In l (event_organizer (store w)) /\ eo_organizer_id l <> id) /\
  (forall ev found w'',
     In ev (event (store w)) ->
     (forall l, In l (event_organizer (store w)) ->
                eo_event_id l = ev_id ev -> eo_organizer_id l = id) ->
     EventService.get_event_by_id (ev_id ev) w' = (Ok found, w'') ->
     exists ev',
       found = (Some (ev', None), true) /\
       In ev' (event (store w)) /\ ev_id ev' = ev_id ev).
Proof.
  intros H. apply delete_organizer_returns in H.
  split; [rewrite H; reflexivity|].
  split; [intros o; rewrite H; tables; apply in_after_delete|].
  split; [intros l; rewrite H; tables; apply in_after_delete|].
  intros ev found w'' Hin Hlinks E.
  rewrite get_event_by_id_runs in E.
  destruct (fault_at (env w') (statements w')); [discriminate|].
  rewrite H in E. tables in *.
  destruct (find (fun r => N.eqb (ev_id r) (ev_id ev)) (event (store w)))
    as [ev'|] eqn:Hfind.
  - destruct (fault_at (env w') (S (statements w'))); [discriminate|].
    inversion E; subst; clear E.
    apply find_some in Hfind. destruct Hfind as [Hin' Hid].
    apply N.eqb_eq in Hid. exists ev'.
    split; [|split; assumption].
    rewrite filter_filter_none_in; [reflexivity|].
    intros l Hinl Hl. apply N.eqb_eq in Hl.
    rewrite (Hlinks l Hinl) by congruence.
    rewrite N.eqb_refl. reflexivity.
  - exfalso. eapply find_none in Hfind; [|exact Hin].
    rewrite N.eqb_refl in Hfind. discriminate.
Qed.

Lemma deleted_organizer_leaves_its_events_witness :
  let w' := snd (OrganizerRepository.delete_organizer 1%N Sample.demo) in
  event (store w') = event (store Sample.demo) /\
  exists ev,
    fst (EventService.get_event_by_id 2%N w') = Ok (Some (ev, None), true).
Proof.
  intros w'.
  assert (OrganizerRepository.delete_organizer 1%N Sample.demo =
          (Ok true, w')) as H by (vm_compute; reflexivity).
  destruct (deleted_organizer_leaves_its_events _ _ _ _ H)
    as (Hev & _ & _ & Hget).
  split; [exact Hev|].
  assert (match event (store Sample.demo) with
          | [ev] => N.eqb (ev_id ev) 2
          | _ => false
          end = true) as Hrow by (vm_compute; reflexivity).
  assert (forallb (fun l => N.eqb (eo_organizer_id l) 1)
            (event_organizer (store Sample.demo)) = true) as Hlinks
      by (vm_compute; reflexivity).
  assert (match fst (EventService.get_event_by_id 2%N w') with
          | Ok _ => true
          | Raise _ => false
          end = true) as Hok by (vm_compute; reflexivity).
  destruct (event (store Sample.demo)) as [|ev [|ev2 rows]] eqn:Erows;
    try discriminate Hrow.
  apply N.eqb_eq in Hrow.
  destruct (EventService.get_event_by_id 2%N w') as [[found|e] w''] eqn:E;
    [|discriminate Hok].
  destruct (Hget ev found w'') as (ev' & -> & _).
  - left. reflexivity.
  - intros l Hin _. rewrite forallb_forall in Hlinks.
    apply N.eqb_eq, Hlinks, Hin.
  - rewrite Hrow. exact E.
  - exists ev'. reflexivity.
Defined.

(* ================================================================== *)
(** * Creations and look-ups *)
(* ================================================================== *)

Lemma find_none_absent {A} (key : A -> N) (id : N) (l : list A) :
  existsb (fun x => N.eqb (key x) id) l = false ->
  find (fun x => N.eqb (key x) id) l = None /\
  forall x, In x l -> key x <> id.
Proof.
  intros H. split.
  - induction l as [|x l IH]; cbn in *; [reflexivity|].
    apply orb_false_iff in H. destruct H as [-> H]. apply IH. exact H.
  - intros x Hin. apply N.eqb_neq.
    destruct (N.eqb (key x) id) eqn:E; [|reflexivity].
    rewrite <- H. symmetry. apply existsb_exists. exists x. tauto.
Qed.

Lemma create_organizer_returns name description image_path (w : world) id
  (w' : world) :
  OrganizerRepository.create_organizer name description image_path w =
    (Ok id, w') ->
  id = uuid4_at (env w) (uuid_calls w) /\
  existsb (fun o => N.eqb (org_id o) id) (organizer (store w)) = false /\
  store w' =
    set_organizer (store w)
      (organizer (store w) ++
       [Build_organizer_row id name description image_path
          (now_at (env w) (clock_reads w))
          (now_at (env w) (S (clock_reads w)))])%list.
Proof.
  intros H. unfold_repositories H. run_in H; inversion H; subst; clear H.
  tables in *. cbn [org_id] in *. auto.
Qed.

Lemma create_coworking_space_returns name description location image_path
  (w : world) id (w' : world) :
  CoworkingRepository.create_coworking_space name description location
    image_path w = (Ok id, w') ->
  id = uuid4_at (env w) (uuid_calls w) /\
  existsb (fun s => N.eqb (cs_id s) id) (coworking_space (store w)) = false /\
  store w' =
    set_coworking_space (store w)
      (coworking_space (store w) ++
       [Build_coworking_space_row id name description location image_path
          (now_at (env w) (clock_reads w))
          (now_at (env w) (S (clock_reads w)))])%list.
Proof.
  intros H. unfold_repositories H. run_in H; inversion H; subst; clear H.
  tables in *. cbn [cs_id] in *. auto.
Qed.

(** X10. A call of [create_organizer] or of [create_coworking_space] that
    returns has appended one row: it carries the returned identifier, which is
    the one generated and which no stored row of the table had, the given
    fields as they are, and two successive readings of the clock as
    [created_at] and [updated_at]; a look-up of the identifier made
    afterwards, when it returns, finds that row. *)
Theorem created_rows_are_found (w : world) :
  (forall name description image_path id w1,
     OrganizerRepository.create_organizer name description image_path w =
       (Ok id, w1) ->
     let row :=
       Build_organizer_row id name description image_path
         (now_at (env w) (clock_reads w))
         (now_at (env w) (S (clock_reads w))) in
     id = uuid4_at (env w) (uuid_calls w) /\
     (forall o, In o (organizer (store w)) -> org_id o <> id) /\
     organizer (store w1) = (organizer (store w) ++ [row])%list /\
     forall found w2,
       OrganizerRepository.get_organizer_by_id id w1 = (Ok found, w2) ->
       found = (Some row, true)) /\
  (forall name description location image_path id w1,
     CoworkingService.create_coworking_space name description location
       image_path w = (Ok id, w1) ->
     let row :=
       Build_coworking_space_row id name description location image_path
         (now_at (env w) (clock_reads w))
         (now_at (env w) (S (clock_reads w))) in
     id = uuid4_at (env w) (uuid_calls w) /\
     (forall s, In s (coworking_space (store w)) -> cs_id s <> id) /\
     coworking_space (store w1) = (coworking_space (store w) ++ [row])%list /\
     forall found w2,
       CoworkingService.get_coworking_by_id id w1 = (Ok found, w2) ->
       found = (Some row, true)).
Proof.
  split.
  - intros name description image_path id w1 H row.
    apply create_organizer_returns in H. destruct H as (Hid & Hfresh & Hstore).
    apply find_none_absent in Hfresh. destruct Hfresh as [Hnone Hfresh].
    split; [exact Hid|]. split; [exact Hfresh|].
    split; [rewrite Hstore; reflexivity|].
    intros found w2 E. unfold_repositories E.
    run_in E; inversion E; subst found; clear E; rewrite Hstore in *;
      tables in *.
    all: rewrite find_app_none in * by exact Hnone.
    all: cbn [find org_id] in *; rewrite N.eqb_refl in *.
    + match goal with
      | H : Some _ = Some _ |- _ => injection H as <-
      end.
      reflexivity.
    + discriminate.
  - intros name description location image_path id w1 H row.
    assert (CoworkingRepository.create_coworking_space name description
              location image_path w = (Ok id, w1)) as H'.
    { unfold CoworkingService.create_coworking_space, try_except in H.
      destruct (CoworkingRepository.create_coworking_space _ _ _ _ w)
        as [[id'|e] w0]; [exact H|].
      destruct e; cbn in H; discriminate. }
    clear H. apply create_coworking_space_returns in H'.
    destruct H' as (Hid & Hfresh & Hstore).
    apply find_none_absent in Hfresh. destruct Hfresh as [Hnone Hfresh].
    split; [exact Hid|]. split; [exact Hfresh|].
    split; [rewrite Hstore; reflexivity|].
    intros found w2 E. rewrite get_coworking_by_id_runs in E.
    destruct (fault_at (env w1) (statements w1)); [discriminate|].
    rewrite Hstore in E. tables in *.
    rewrite find_app_none in E by exact Hnone.
    cbn [find cs_id] in E. rewrite N.eqb_refl in E.
    inversion E. reflexivity.
Qed.

Lemma created_rows_are_found_witness :
  let w := initial_world Sample.calm in
  let w1 :=
    snd (CoworkingService.create_coworking_space "Downtown Hub"
           "A modern coworking space" "123 Main Street" None w) in
  fst (CoworkingService.get_coworking_by_id 1%N w1) =
  Ok (Some (Build_coworking_space_row 1%N "Downtown Hub"
              "A modern coworking space" "123 Main Street" None
              (Sample.clock 0) (Sample.clock 1)),
      true).
Proof.
  intros w w1.
  assert (CoworkingService.create_coworking_space "Downtown Hub"
            "A modern coworking space" "123 Main Street" None w =
          (Ok 1%N, w1)) as H by (vm_compute; reflexivity).
  destruct (proj2 (created_rows_are_found w) _ _ _ _ _ _ H)
    as (_ & _ & _ & Hget).
  assert (match fst (CoworkingService.get_coworking_by_id 1%N w1) with
          | Ok _ => true
          | Raise _ => false
          end = true) as Hok by (vm_compute; reflexivity).
  destruct (CoworkingService.get_coworking_by_id 1%N w1) as [[found|e] w2]
    eqn:E; [|discriminate Hok].
  cbn [fst]. f_equal. exact (Hget found w2 eq_refl).
Defined.

(* ================================================================== *)
(** * Events and their organizers *)
(* ================================================================== *)

Lemma map_key_preserved {A} (key : A -> N) (p : A -> bool) (g : A -> A)
  (l : list A) :
  (forall x, key (g x) = key x) ->
  map key (map (fun x => if p x then g x else x) l) = map key l.
Proof.
  intros Hg. rewrite map_map. apply map_ext. intros x.
  destruct (p x); [apply Hg | reflexivity].
Qed.

Lemma existsb_key_preserved {A} (key : A -> N) (id : N) (p : A -> bool)
  (g : A -> A) (l : list A) :
  (forall x, key (g x) = key x) ->
  existsb (fun x => N.eqb (key x) id)
    (map (fun x => if p x then g x else x) l) =
  existsb (fun x => N.eqb (key x) id) l.
Proof.
  intros Hg. induction l as [|x l IH]; cbn; [reflexivity|].
  rewrite IH. destruct (p x); [rewrite Hg|]; reflexivity.
Qed.

Lemma NoDup_map_filter {A} (key : A -> N) (p : A -> bool) (l : list A) :
  NoDup (map key l) -> NoDup (map key (filter p l)).
Proof.
  induction l as [|x l IH]; cbn; intros H; [constructor|].
  inversion H; subst. destruct (p x); cbn; [constructor|]; auto.
  intros Hin. apply in_map_iff in Hin. destruct Hin as (y & Hy & Hin).
  apply filter_In in Hin. destruct Hin as [Hin _].
  match goal with N : ~ In _ _ |- _ => apply N end.
  rewrite <- Hy. apply in_map. exact Hin.
Qed.

Lemma NoDup_map_app_fresh {A} (key : A -> N) (x : A) (l : list A) :
  existsb (fun y => N.eqb (key y) (key x)) l = false ->
  NoDup (map key l) -> NoDup (map key (l ++ [x])).
Proof.
  intros Hfresh H. rewrite map_app. cbn.
  apply NoDup_app; [exact H | constructor; [intros [] | constructor]|].
  intros k Hin [<-|[]]. apply in_map_iff in Hin.
  destruct Hin as (y & Hy & Hin).
  apply (proj2 (find_none_absent key (key x) l Hfresh) y Hin Hy).
Qed.

Lemma existsb_after_delete_other {A} (key : A -> N) (id k : N) (l : list A) :
  k <> id ->
  existsb (fun x => N.eqb (key x) k)
    (filter (fun x => negb (N.eqb (key x) id)) l) =
  existsb (fun x => N.eqb (key x) k) l.
Proof.
  intros Hne. induction l as [|x l IH]; cbn; [reflexivity|].
  destruct (N.eqb (key x) id) eqn:E; cbn; rewrite IH; [|reflexivity].
  apply N.eqb_eq in E. rewrite E.
  rewrite (proj2 (N.eqb_neq id k)) by congruence. reflexivity.
Qed.

Lemma perform_keeps_organizer_keys call w :
  organizer_keys_hold (store w) -> organizer_keys_hold (store (perform call w)).
Proof.
  intros [Hpk Hfk].
  destruct call; unfold perform;
    match goal with
    | |- context [snd (?f w)] => destruct (f w) as [r w'] eqn:E
    end; cbn [snd].
  all: unfold_repositories E.
  all: try match goal with o : option UUID |- _ => destruct o end.
  all: run_in E; inversion E; subst; clear E.
  all: try (split; assumption).
  all: unfold organizer_keys_hold; tables; tables in *; rows.
  all: cbn [ev_id eo_event_id org_id] in *.
  all: split.
  all: try assumption.
  all: try (apply NoDup_map_app_fresh; assumption).
  all: try (rewrite map_key_preserved by reflexivity; assumption).
  all: try (apply NoDup_map_filter; assumption).
  all: intros l Hin.
  all: try rewrite existsb_key_preserved by reflexivity.
  all: try (apply in_app_or in Hin; destruct Hin as [Hin|[<-|[]]]).
  all: try (apply filter_In in Hin; destruct Hin as [Hin Hne]).
  all: try rewrite existsb_app.
  all: try (rewrite (Hfk l Hin); reflexivity).
  all: cbn [eo_event_id existsb ev_id].
  all: try (rewrite N.eqb_refl; apply orb_true_iff; right; reflexivity).
  - match goal with
    | H : negb (existsb _ (map _ _)) = false |- _ =>
        rewrite existsb_key_preserved in H by reflexivity;
        apply negb_false_iff in H; exact H
    end.
  - rewrite existsb_after_delete_other; [apply Hfk; exact Hin|].
    apply N.eqb_neq, negb_true_iff. exact Hne.
Qed.

Lemma reachable_organizer_keys db : reachable db -> organizer_keys_hold db.
Proof.
  induction 1 as [|w call _ IH].
  - split; [constructor | intros l []].
  - apply perform_keeps_organizer_keys. exact IH.
Qed.

(** ** Computations over the repositories *)

Lemma keeps_ret {A} (a : A) : keeps_reachable (ret a).
Proof. intros w H. exact H. Qed.

Lemma keeps_raise {A} (e : exn) : keeps_reachable (@raise A e).
Proof. intros w H. exact H. Qed.

Lemma keeps_logger l message : keeps_reachable (logger l message).
Proof. intros w H. exact H. Qed.

Lemma keeps_bind {A B} (m : M A) (k : A -> M B) :
  keeps_reachable m -> (forall a, keeps_reachable (k a)) ->
  keeps_reachable (bind m k).
Proof.
  intros Hm Hk w H. unfold bind. specialize (Hm w H).
  destruct (m w) as [[a|e] w1]; cbn [snd] in *; [|exact Hm].
  apply Hk. exact Hm.
Qed.

Lemma keeps_try_except {A} (body : M A) (handler : exn -> M A) :
  keeps_reachable body -> (forall e, keeps_reachable (handler e)) ->
  keeps_reachable (try_except body handler).
Proof.
  intros Hm Hk w H. unfold try_except. specialize (Hm w H).
  destruct (body w) as [[a|e] w1]; cbn [snd] in *; [exact Hm|].
  apply Hk. exact Hm.
Qed.

Lemma keeps_for_each {A} (l : list A) (body : A -> M unit) :
  (forall x, keeps_reachable (body x)) -> keeps_reachable (for_each l body).
Proof.
  intros Hb. induction l as [|x l IH]; cbn [for_each].
  - apply keeps_ret.
  - apply keeps_bind; [apply Hb | intros _; exact IH].
Qed.

Lemma keeps_repository_calls :
  keeps_reachable EventRepository.get_all_events /\
  (forall id, keeps_reachable (EventRepository.get_event_by_id id)) /\
  (forall t d s sd l i o,
     keeps_reachable (EventRepository.create_event t d s sd l i o)) /\
  (forall id t d s sd l i o,
     keeps_reachable (EventRepository.update_event id t d s sd l i o)) /\
  (forall id, keeps_reachable (EventRepository.delete_event id)) /\
  keeps_reachable OrganizerRepository.get_all_organizers /\
  (forall id, keeps_reachable (OrganizerRepository.get_organizer_by_id id)) /\
  (forall n d i, keeps_reachable (OrganizerRepository.create_organizer n d i)) /\
  (forall id n d i,
     keeps_reachable (OrganizerRepository.update_organizer id n d i)) /\
  (forall id, keeps_reachable (OrganizerRepository.delete_organizer id)) /\
  keeps_reachable CoworkingRepository.get_all_coworking_spaces /\
  (forall id, keeps_reachable (CoworkingRepository.get_coworking_by_id id)) /\
  (forall n d l i,
     keeps_reachable (CoworkingRepository.create_coworking_space n d l i)) /\
  (forall id n d l i,
     keeps_reachable (CoworkingRepository.update_coworking_space id n d l i)) /\
  (forall id, keeps_reachable (CoworkingRepository.delete_coworking_space id)) /\
  (forall c d n p, keeps_reachable (CoworkingRepository.create_booking c d n p)) /\
  (forall id, keeps_reachable (CoworkingRepository.get_occupancy_stats id)).
Proof.
  repeat split; intros; intros w H.
  - exact (reachable_call w Event_get_all_events H).
  - exact (reachable_call w (Event_get_event_by_id id) H).
  - exact (reachable_call w (Event_create_event t d s sd l i o) H).
  - exact (reachable_call w (Event_update_event id t d s sd l i o) H).
  - exact (reachable_call w (Event_delete_event id) H).
  - exact (reachable_call w Organizer_get_all_organizers H).
  - exact (reachable_call w (Organizer_get_organizer_by_id id) H).
  - exact (reachable_call w (Organizer_create_organizer n d i) H).
  - exact (reachable_call w (Organizer_update_organizer id n d i) H).
  - exact (reachable_call w (Organizer_delete_organizer id) H).
  - exact (reachable_call w Coworking_get_all_coworking_spaces H).
  - exact (reachable_call w (Coworking_get_coworking_by_id id) H).
  - exact (reachable_call w (Coworking_create_coworking_space n d l i) H).
  - exact (reachable_call w (Coworking_update_coworking_space id n d l i) H).
  - exact (reachable_call w (Coworking_delete_coworking_space id) H).
  - exact (reachable_call w (Coworking_create_booking c d n p) H).
  - exact (reachable_call w (Coworking_get_occupancy_stats id) H).
Qed.

Ltac keeps :=
  repeat first
    [ apply keeps_ret
    | apply keeps_raise
    | apply keeps_logger
    | apply keeps_repository_calls
    | apply keeps_bind; [|intros ?]
    | apply keeps_try_except; [|intros ?]
    | apply keeps_for_each; intros ?
    | match goal with
      | |- keeps_reachable (match ?x with _ => _ end) => destruct x
      | |- keeps_reachable (if ?x then _ else _) => destruct x
      end ].

Lemma keeps_event_service :
  (forall t d s sd l i on od oi,
     keeps_reachable (EventService.create_event t d s sd l i on od oi)) /\
  (forall id t d s sd l i o,
     keeps_reachable (EventService.update_event id t d s sd l i o)) /\
  (forall id, keeps_reachable (EventService.delete_event id)) /\
  (forall id, keeps_reachable (EventService.get_event_by_id id)) /\
  keeps_reachable EventService.get_all_events.
Proof.
  repeat split; intros.
  all: unfold EventService.create_event, EventService.check_duplicate,
         EventService.resolve_organizer,
         EventService.insert_event_or_duplicate, EventService.update_event,
         EventService.delete_event, EventService.get_event_by_id,
         EventService.get_all_events.
  all: keeps.
Qed.

Lemma keeps_coworking_service :
  keeps_reachable CoworkingService.get_all_coworking_spaces /\
  (forall id, keeps_reachable (CoworkingService.get_coworking_by_id id)) /\
  (forall n d l i,
     keeps_reachable (CoworkingService.create_coworking_space n d l i)) /\
  (forall id n d l i,
     keeps_reachable (CoworkingService.update_coworking_space id n d l i)) /\
  (forall id, keeps_reachable (CoworkingService.delete_coworking_space id)) /\
  (forall c d n p, keeps_reachable (CoworkingService.create_booking c d n p)) /\
  (forall id, keeps_reachable (CoworkingService.get_occupancy_stats id)).
Proof.
  repeat split; intros.
  all: unfold CoworkingService.get_all_coworking_spaces,
         CoworkingService.get_coworking_by_id,
         CoworkingService.create_coworking_space,
         CoworkingService.update_coworking_space,
         CoworkingService.delete_coworking_space,
         CoworkingService.create_booking,
         CoworkingService.get_occupancy_stats.
  all: keeps.
Qed.

(** ** An event after its creation *)

Lemma service_create_event_returns
  title description short_description start_date location image_path
  organizer_name organizer_description organizer_image_path
  (w : world) id (w1 : world) :
  EventService.create_event title description short_description start_date
    location image_path organizer_name organizer_description
    organizer_image_path w = (Ok id, w1) ->
  existsb (fun r => N.eqb (ev_id r) id) (event (store w)) = false /\
  (exists created_at updated_at,
     event (store w1) =
       (event (store w) ++
        [Build_event_row id title description short_description start_date
           location image_path created_at updated_at])%list) /\
  (truthy organizer_name = false ->
   event_organizer (store w1) = event_organizer (store w) /\
   organizer (store w1) = organizer (store w)).
Proof.
  intros H.
  rewrite create_event_after_check, check_duplicate_runs in H.
  unfold logger in H.
  destruct (fault_at (env w) (statements w));
    [|destruct (existsb _ _); [discriminate|]].
  all: unfold_event_service H; unfold_repositories H.
  all: destruct organizer_name as [[|c s]|].
  all: run_in H; inversion H; subst; clear H; tables; tables in *.
  all: cbn [ev_id truthy] in *.
  all: split; [assumption|].
  all: split; [eexists; eexists; reflexivity|].
  all: intros Hname; try discriminate Hname.
  all: split; reflexivity.
Qed.

Lemma find_by_unique_key {A} (key : A -> N) (l : list A) (o : A) :
  NoDup (map key l) -> In o l ->
  find (fun x => N.eqb (key x) (key o)) l = Some o.
Proof.
  induction l as [|x l IH]; cbn; intros Hn Hin; [destruct Hin|].
  inversion Hn; subst. destruct Hin as [->|Hin].
  - rewrite N.eqb_refl. reflexivity.
  - destruct (N.eqb (key x) (key o)) eqn:E; [|apply IH; assumption].
    apply N.eqb_eq in E. exfalso.
    match goal with N : ~ In _ _ |- _ => apply N end.
    rewrite E. apply in_map. exact Hin.
Qed.

Lemma hd_error_map_filter {A B} (f : A -> B) (p : A -> bool) (l : list A) :
  hd_error (map f (filter p l)) = option_map f (find p l).
Proof.
  induction l as [|x l IH]; cbn; [reflexivity|].
  destruct (p x); [reflexivity | exact IH].
Qed.

Lemma filter_nil_in {A} (p : A -> bool) (l : list A) :
  (forall x, In x l -> p x = false) -> filter p l = [].
Proof.
  intros H. induction l as [|x l IH]; cbn; [reflexivity|].
  rewrite (H x (or_introl eq_refl)). apply IH.
  intros y Hy. apply H. right. exact Hy.
Qed.

(** X11. The details of an event that [create_event] has just created, on a
    content of the store that the repository calls can produce, for a start
    date written with the offset +00:00, which is how the server gives a
    stored date back: a look-up of the returned identifier, when it returns,
    finds the event with the title, the descriptions, the start date, the
    location and the image path that were given. With a non-empty organizer
    name it shows the one organizer linked to the event, a stored organizer of
    that name, and without one no organizer. *)
Theorem created_event_is_found
  (title description short_description : string) (start_date : datetime)
  (location : string) (image_path : option string)
  (organizer_name organizer_description organizer_image_path : option string)
  (w : world) (id : UUID) (w1 : world)
  (found : option (event_row * option organizer_info) * bool) (w2 : world) :
  reachable (store w) ->
  utcoffset start_date = Some 0 ->
  EventService.create_event title description short_description start_date
    location image_path organizer_name organizer_description
    organizer_image_path w = (Ok id, w1) ->
  EventService.get_event_by_id id w1 = (Ok found, w2) ->
  exists ev org,
    found = (Some (ev, org), true) /\
    ev_id ev = id /\ ev_title ev = title /\
    ev_description ev = description /\
    ev_short_description ev = short_description /\
    ev_start_date ev = start_date /\ ev_location ev = location /\
    ev_image_path ev = image_path /\
    if truthy organizer_name
    then exists o,
           In o (organizer (store w1)) /\
           Some (org_name o) = organizer_name /\
           (forall l, In l (event_organizer (store w1)) ->
                      eo_event_id l = id <->
                      l = Build_event_organizer_row id (org_id o)) /\
           In (Build_event_organizer_row id (org_id o))
             (event_organizer (store w1)) /\
           org = Some (Build_organizer_info (org_id o) (org_name o)
                         (org_description o) (org_image_path o))
    else org = None.
Proof.
  intros Hreach _ Hcreate Hget.
  pose proof (proj1 keeps_event_service title description short_description
                start_date location image_path organizer_name
                organizer_description organizer_image_path w Hreach) as Hreach1.
  rewrite Hcreate in Hreach1. cbn [snd] in Hreach1.
  destruct (reachable_organizer_keys _ Hreach) as [_ Hfk].
  destruct (reachable_organizer_keys _ Hreach1) as [Hpk1 _].
  destruct (service_create_event_returns _ _ _ _ _ _ _ _ _ _ _ _ Hcreate)
    as (Hfresh & (created_at & updated_at & Hevents) & Hplain).
  destruct (find_none_absent ev_id id _ Hfresh) as [Hnone Habsent].
  assert (filter (fun l => N.eqb (eo_event_id l) id)
            (event_organizer (store w)) = []) as Hold.
  { apply filter_nil_in. intros l Hin.
    destruct (N.eqb (eo_event_id l) id) eqn:E; [|reflexivity].
    apply N.eqb_eq in E. specialize (Hfk l Hin). rewrite E in Hfk.
    rewrite Hfresh in Hfk. discriminate. }
  rewrite get_event_by_id_runs in Hget.
  destruct (fault_at (env w1) (statements w1)); [discriminate|].
  rewrite Hevents, find_app_none in Hget by exact Hnone.
  cbn [find ev_id] in Hget. rewrite N.eqb_refl in Hget.
  destruct (fault_at (env w1) (S (statements w1))); [discriminate|].
  inversion Hget; subst found; clear Hget.
  eexists. eexists. split; [reflexivity|].
  cbn [ev_id ev_title ev_description ev_short_description ev_start_date
       ev_location ev_image_path].
  repeat (split; [reflexivity|]).
  destruct organizer_name as [[|c s]|]; cbn [truthy].
  - destruct (Hplain eq_refl) as [-> _]. rewrite Hold. reflexivity.
  - destruct (organizer_of_created_event _ _ _ _ _ _ _ _ _ _ _ _ _ Hcreate)
      as (o & Hfind & Hlinks & _).
    pose proof (find_some _ _ Hfind) as [Hin Hname].
    apply String.eqb_eq in Hname.
    exists o. split; [exact Hin|]. split; [rewrite Hname; reflexivity|].
    split; [|split].
    + intros l Hl. rewrite Hlinks in Hl. apply in_app_or in Hl.
      destruct Hl as [Hl|[<-|[]]]; [|split; reflexivity].
      split; [|intros ->; reflexivity].
      intros E. exfalso.
      assert (In l (filter (fun l => N.eqb (eo_event_id l) id)
                      (event_organizer (store w)))) as Hf
          by (apply filter_In; split; [exact Hl | apply N.eqb_eq; exact E]).
      rewrite Hold in Hf. destruct Hf.
    + rewrite Hlinks. apply in_or_app. right. left. reflexivity.
    + rewrite Hlinks, filter_app, Hold. cbn [filter eo_event_id app].
      rewrite N.eqb_refl. cbn [flat_map eo_organizer_id].
      rewrite app_nil_r, hd_error_map_filter.
      rewrite find_by_unique_key; [reflexivity | exact Hpk1 | exact Hin].
  - destruct (Hplain eq_refl) as [-> _]. rewrite Hold. reflexivity.
Qed.

Lemma created_event_is_found_witness :
  exists ev o,
    fst (EventService.get_event_by_id 2%N Sample.demo) =
      Ok (Some (ev, Some o), true) /\
    ev_title ev = "Demo" /\ ev_start_date ev = Sample.ten_oclock /\
    oi_name o = "Acme".
Proof.
  assert (EventService.create_event "Demo" "A demonstration" "Demo day"
            Sample.ten_oclock "Main hall" None (Some "Acme") None None
            (initial_world Sample.calm) = (Ok 2%N, Sample.demo)) as Hcreate
      by (vm_compute; reflexivity).
  assert (match fst (EventService.get_event_by_id 2%N Sample.demo) with
          | Ok _ => true
          | Raise _ => false
          end = true) as Hok by (vm_compute; reflexivity).
  destruct (EventService.get_event_by_id 2%N Sample.demo) as [[found|e] w2]
    eqn:E; [|discriminate Hok].
  assert (reachable (store (initial_world Sample.calm))) as Hreach
      by exact reachable_empty.
  destruct (created_event_is_found _ _ _ Sample.ten_oclock _ _ _ _ _ _ _ _ _ _
              Hreach eq_refl Hcreate E)
    as (ev & org & -> & _ & Ht & _ & _ & Hs & _ & _ & o & _ & Hname & _ & _
        & ->).
  exists ev. eexists. split; [reflexivity|]. split; [exact Ht|].
  split; [exact Hs|]. cbn [oi_name].
  injection Hname as ->. reflexivity.
Defined.

(* ================================================================== *)
(** * The endpoints of the events *)
(* ================================================================== *)

(** X12. [POST /events/] after a creation that was answered with an
    identifier, for a start date written with the offset +00:00, which is how
    the scan gives the stored date back: a second request with the same title
    and a start date with the same year, month, day, hour and minute, whatever
    its other fields, is answered with 409 and the detail naming the title
    when the scan of the events does not fail, and it leaves the store as it
    was. *)
Theorem second_post_of_an_event_conflicts
  (first second : EventRouter.EventCreateRequest) (w : world) (id : UUID)
  (w1 : world) :
  utcoffset (EventRouter.start_date first) = Some 0 ->
  EventRouter.create_event first w = (Ok id, w1) ->
  fault_at (env w1) (statements w1) = None ->
  EventRouter.title second = EventRouter.title first ->
  year (EventRouter.start_date second) = year (EventRouter.start_date first) ->
  month (EventRouter.start_date second) =
    month (EventRouter.start_date first) ->
  day (EventRouter.start_date second) = day (EventRouter.start_date first) ->
  hour (EventRouter.start_date second) = hour (EventRouter.start_date first) ->
  minute (EventRouter.start_date second) =
    minute (EventRouter.start_date first) ->
  fst (serve 201 (EventRouter.create_event second) w1) =
    Build_response 409
      (Detail ("An event with title '" ++ EventRouter.title second ++
               "' at the same date and time already exists")) /\
  store (snd (serve 201 (EventRouter.create_event second) w1)) = store w1.
Proof.
  intros _ H Hcalm Ht Hy Hmo Hd Hh Hmi.
  assert (exists r, In r (event (store w1)) /\
                    ev_title r = EventRouter.title first /\
                    ev_start_date r = EventRouter.start_date first)
    as (r & Hin & Hrt & Hrs).
  { unfold EventRouter.create_event, bind, try_except in H.
    unfold logger at 1 in H.
    match type of H with
    | context [EventService.create_event ?a ?b ?c ?d ?e ?f ?g ?h ?i ?w0] =>
        destruct (EventService.create_event a b c d e f g h i w0)
          as [[id'|e'] w'] eqn:E
    end.
    - inversion H; subst.
      destruct (service_create_event_returns _ _ _ _ _ _ _ _ _ _ _ _ E)
        as (_ & (created_at & updated_at & Hev) & _).
      eexists. split; [rewrite Hev; apply in_or_app; right; left; reflexivity|].
      split; reflexivity.
    - destruct e'; cbn in H; discriminate. }
  assert (exists w2,
            EventRouter.create_event second w1 =
              (Raise (HTTPException 409
                        ("An event with title '" ++ EventRouter.title second ++
                         "' at the same date and time already exists")), w2) /\
            store w2 = store w1) as (w2 & Hrun & Hstore).
  { unfold EventRouter.create_event, bind, try_except.
    unfold logger at 1.
    rewrite create_event_after_check, check_duplicate_runs.
    cbn [env statements store]. rewrite Hcalm.
    rewrite (proj2 (stored_duplicate_iff (EventRouter.title second)
                      (EventRouter.start_date second) _)).
    - unfold logger, raise. cbn [fst snd]. eexists. split; reflexivity.
    - exists r. cbn [store]. split; [exact Hin|]. rewrite Hrs.
      intuition congruence. }
  unfold serve. rewrite Hrun. cbn [fst snd]. split; [reflexivity | exact Hstore].
Qed.

Lemma second_post_of_an_event_conflicts_witness :
  let request :=
    EventRouter.Build_EventCreateRequest "Demo" "A demonstration" "Demo day"
      Sample.ten_oclock "Main hall" None (Some "Acme") None None in
  let again :=
    EventRouter.Build_EventCreateRequest "Demo" "Again" "Again"
      Sample.half_a_minute_later "Elsewhere" None None None None in
  let w1 := snd (EventRouter.create_event request (initial_world Sample.calm)) in
  fst (serve 201 (EventRouter.create_event again) w1) =
    Build_response 409
      (Detail ("An event with title '" ++ EventRouter.title again ++
               "' at the same date and time already exists")) /\
  store (snd (serve 201 (EventRouter.create_event again) w1)) = store w1.
Proof.
  intros request again w1.
  assert (EventRouter.create_event request (initial_world Sample.calm) =
          (Ok 2%N, w1)) as H by (vm_compute; reflexivity).
  apply (second_post_of_an_event_conflicts request again _ _ _ eq_refl H);
    vm_compute; reflexivity.
Defined.

(** ** The deletion of an event through its endpoint *)

Lemma delete_event_of_missing id (w : world) :
  fault_at (env w) (statements w) = None ->
  find (fun r => N.eqb (ev_id r) id) (event (store w)) = None ->
  fst (serve 204 (EventRouter.delete_event id) w) =
    Build_response 404 (Detail "Event not found").
Proof.
  intros Hcalm Hnone.
  unfold serve, EventRouter.delete_event.
  unfold bind at 1. unfold logger at 1. unfold bind at 1.
  rewrite get_event_by_id_runs. cbn [env statements store].
  rewrite Hcalm, Hnone. reflexivity.
Qed.

(** X13. [DELETE /events/{event_id}] has three answers: 204, 404 with "Event
    not found", and the plain 500 of the framework when a statement or the
    commit fails; the answer "Failed to delete event" of its last test is
    never given. After 204 no event and no link of that identifier is left and
    the organizers are as they were; after another answer the store is as it
    was. A second request for the same identifier made after 204 is answered
    with 404 when its look-up does not fail. *)
Theorem delete_event_endpoint_answers (w : world) (id : UUID) :
  let answer := fst (serve 204 (EventRouter.delete_event id) w) in
  let w' := snd (serve 204 (EventRouter.delete_event id) w) in
  (answer = Build_response 204 (Body tt) \/
   answer = Build_response 404 (Detail "Event not found") \/
   answer = Build_response 500 (Detail "Internal Server Error")) /\
  (status answer = 204 ->
   (forall r, In r (event (store w')) <->
              In r (event (store w)) /\ ev_id r <> id) /\
   (forall l, In l (event_organizer (store w')) <->
              In l (event_organizer (store w)) /\ eo_event_id l <> id) /\
   organizer (store w') = organizer (store w) /\
   (fault_at (env w') (statements w') = None ->
    fst (serve 204 (EventRouter.delete_event id) w') =
      Build_response 404 (Detail "Event not found"))) /\
  (status answer <> 204 -> store w' = store w).
Proof.
  intros answer w'. subst answer w'. unfold serve.
  destruct (EventRouter.delete_event id w) as [r w'] eqn:E.
  unfold EventRouter.delete_event, EventService.get_event_by_id,
    EventService.delete_event in E.
  unfold_repositories E. run_in E.
  all: try match goal with
         | B : negb _ = _ |- _ => cbn [negb snd] in B; discriminate B
         end.
  all: inversion E; subst; clear E; cbn [fst snd status store].
  all: try match goal with
         | |- context [exn_of_fault ?f] => destruct f; cbn [exn_of_fault]
         end.
  all: cbn [fst snd status store].
  all: (split; [tauto|]).
  all: (split; [|intros N; try reflexivity; exfalso; apply N; reflexivity]).
  all: try (intros N; discriminate N).
  all: intros _; tables.
  all: split; [intros r; apply in_after_delete|].
  all: split; [intros l; apply in_after_delete|].
  all: split; [reflexivity|].
  all: intros Hcalm.
  all: apply delete_event_of_missing; [exact Hcalm|].
  all: tables; apply find_after_delete.
Qed.

Lemma delete_event_endpoint_answers_witness :
  let w' := snd (serve 204 (EventRouter.delete_event 2%N) Sample.demo) in
  status (fst (serve 204 (EventRouter.delete_event 2%N) Sample.demo)) = 204 /\
  organizer (store w') = organizer (store Sample.demo) /\
  fst (serve 204 (EventRouter.delete_event 2%N) w') =
    Build_response 404 (Detail "Event not found").
Proof.
  assert (status (fst (serve 204 (EventRouter.delete_event 2%N) Sample.demo))
          = 204) as Hs by (vm_compute; reflexivity).
  destruct (delete_event_endpoint_answers Sample.demo 2%N) as (_ & H204 & _).
  destruct (H204 Hs) as (_ & _ & Horg & Hagain).
  split; [exact Hs|]. split; [exact Horg|].
  apply Hagain. vm_compute. reflexivity.
Defined.

(* ================================================================== *)
(** * The endpoints of the coworking spaces *)
(* ================================================================== *)

Lemma create_coworking_space_raises name description location image_path
  (w : world) e (w' : world) :
  CoworkingRepository.create_coworking_space name description location
    image_path w = (Raise e, w') ->
  store w' = store w.
Proof.
  intros H. unfold_repositories H. run_in H; inversion H; subst; reflexivity.
Qed.

(** X14. [POST /coworking/] has two answers. When the repository returns, 201
    with the identifier of the space, which is stored with the fields of the
    request. When the repository raises, whatever the exception, the service
    has turned it into a [CoworkingError], and the answer is 400 with a detail
    that ends with the text of the exception; the store is then as it was. The
    500 answer of the last handler is never given. *)
Theorem create_coworking_space_endpoint_answers
  (coworking : CoworkingRouter.CoworkingCreateRequest) (w : world) :
  let answer :=
    fst (serve 201 (CoworkingRouter.create_coworking_space coworking) w) in
  let w' :=
    snd (serve 201 (CoworkingRouter.create_coworking_space coworking) w) in
  let w0 :=
    snd (logger INFO
           ("create_coworking_space: " ++ CoworkingRouter.name coworking) w) in
  match CoworkingRepository.create_coworking_space
          (CoworkingRouter.name coworking)
          (CoworkingRouter.description coworking)
          (CoworkingRouter.location coworking)
          (CoworkingRouter.image_path coworking) w0 with
  | (Ok id, _) =>
      answer = Build_response 201 (Body id) /\
      coworking_space (store w') =
        (coworking_space (store w) ++
         [Build_coworking_space_row id (CoworkingRouter.name coworking)
            (CoworkingRouter.description coworking)
            (CoworkingRouter.location coworking)
            (CoworkingRouter.image_path coworking)
            (now_at (env w) (clock_reads w))
            (now_at (env w) (S (clock_reads w)))])%list
  | (Raise e, _) =>
      answer =
        Build_response 400
          (Detail ("Failed to create coworking space: " ++
                   "Error creating coworking space: " ++ str_exn e)) /\
      store w' = store w
  end /\
  status answer <> 500.
Proof.
  intros answer w' w0. subst answer w' w0.
  unfold serve, CoworkingRouter.create_coworking_space,
    CoworkingService.create_coworking_space, bind, try_except, logger, raise.
  cbn [snd fst].
  match goal with
  | |- context [CoworkingRepository.create_coworking_space ?a ?b ?c ?d ?w0] =>
      destruct (CoworkingRepository.create_coworking_space a b c d w0)
        as [[id|e] w1] eqn:E
  end.
  - cbn [fst snd status]. split; [|discriminate].
    split; [reflexivity|].
    apply create_coworking_space_returns in E.
    destruct E as (_ & _ & ->). reflexivity.
  - apply create_coworking_space_raises in E. cbn [store] in E.
    destruct e; cbn [fst snd status str_exn store];
      (split; [split; [reflexivity | exact E] | discriminate]).
Qed.

(** ** The update of an event *)

Lemma datetime_eqb_refl (a : datetime) : datetime_eqb a a = true.
Proof.
  unfold datetime_eqb. rewrite !Z.eqb_refl. cbn.
  destruct (utcoffset a); cbn; [apply Z.eqb_refl | reflexivity].
Qed.

(** X15. [update_event] of the service, when the update does not fail for
    another reason: if the event of the given identifier, with the title and
    the start date it would get, has the title and the start date of another
    stored event, the unique constraint of the schema is violated, the service
    raises [EventDuplicateError] and the store is as it was. The message is
    built from the arguments of the call: an argument that was not given
    appears as "None". *)
Theorem update_to_a_stored_title_and_date_is_refused (id : UUID)
  (title description short_description : option string)
  (start_date : option datetime) (location image_path : option string)
  (organizer_id : option UUID) (w : world) (r x : event_row) :
  fault_at (env w) (statements w) = None ->
  In r (event (store w)) -> ev_id r = id ->
  In x (event (store w)) -> ev_id x <> id ->
  ev_title x = match title with Some t => t | None => ev_title r end ->
  ev_start_date x =
    match start_date with Some d => d | None => ev_start_date r end ->
  exists w',
    EventService.update_event id title description short_description
      start_date location image_path organizer_id w =
    (Raise (EventDuplicateError
              ("Event with title '" ++
               match title with Some t => t | None => "None" end ++
               "' and date " ++
               match start_date with
               | Some d => str_datetime d
               | None => "None"
               end ++ " already exists")), w') /\
    store w' = store w.
Proof.
  intros Hcalm Hr Hrid Hx Hxid Ht Hs.
  assert (existsb
            (fun r0 =>
               N.eqb (ev_id r0) id &&
               existsb
                 (fun x0 =>
                    negb (N.eqb (ev_id x0) id) &&
                    same_title_start_date
                      (if N.eqb (ev_id r0) id
                       then set_event_values
                              (Build_event_values
                                 (now_at (env w) (clock_reads w)) title
                                 description short_description start_date
                                 location image_path) r0
                       else r0) x0)
                 (event (store w)))
            (event (store w)) = true) as Hdup.
  { apply existsb_exists. exists r. split; [exact Hr|].
    rewrite (proj2 (N.eqb_eq _ _) Hrid). cbn [andb].
    apply existsb_exists. exists x. split; [exact Hx|].
    rewrite (proj2 (N.eqb_neq _ _) Hxid). cbn [negb andb].
    unfold same_title_start_date, set_event_values, or_else.
    cbn [ev_title ev_start_date v_title v_start_date].
    rewrite Ht, Hs, String.eqb_refl, datetime_eqb_refl. reflexivity. }
  destruct (EventService.update_event id title description short_description
              start_date location image_path organizer_id w) as [res w']
    eqn:E.
  unfold EventService.update_event in E. unfold_repositories E.
  destruct organizer_id; run_in E.
  all: try discriminate Hcalm.
  all: try discriminate Hdup.
  all: tables in *.
  all: try match goal with
         | H : existsb _ _ = false |- _ => rewrite Hdup in H; discriminate H
         end.
  all: try match goal with
         | H : fault_at _ _ = Some _ |- _ => rewrite Hcalm in H; discriminate H
         end.
  all: try match goal with
         | H : EventService.is_uq_event_title_start_date _ = false |- _ =>
             vm_compute in H; discriminate H
         end.
  all: inversion E; subst; clear E.
  all: eexists; split; reflexivity.
Qed.

Lemma update_to_a_stored_title_and_date_is_refused_witness :
  let w :=
    snd (EventService.create_event "Other" "Another" "Another"
           Sample.ten_oclock "Main hall" None None None None Sample.demo) in
  exists w',
    EventService.update_event 3%N (Some "Demo") None None None None None None
      w =
    (Raise (EventDuplicateError
              "Event with title 'Demo' and date None already exists"), w') /\
    store w' = store w.
Proof.
  intros w.
  pose (d := Build_event_row 0%N EmptyString EmptyString EmptyString
               Sample.ten_oclock EmptyString None Sample.ten_oclock
               Sample.ten_oclock).
  apply (update_to_a_stored_title_and_date_is_refused 3%N (Some "Demo") None
           None None None None None w (nth 1 (event (store w)) d)
           (nth 0 (event (store w)) d)).
  - vm_compute. reflexivity.
  - vm_compute. right. left. reflexivity.
  - vm_compute. reflexivity.
  - vm_compute. left. reflexivity.
  - vm_compute. discriminate.
  - vm_compute. reflexivity.
  - vm_compute. reflexivity.
Defined.

(** ** A creation of an event that fails *)

(** X16. [create_event] of the service, when it raises, has stored no event
    and no link, and has left the coworking tables as they were; but the
    organizer is handled in a transaction of its own before the event is
    inserted, so that the organizer table is either as it was, or holds the
    new values of the organizer found by name, or holds one more row, the
    organizer created for the given name. *)
Theorem failed_event_creation_stores_no_event
  (title description short_description : string) (start_date : datetime)
  (location : string) (image_path : option string)
  (organizer_name organizer_description organizer_image_path : option string)
  (w : world) (e : exn) (w' : world) :
  EventService.create_event title description short_description start_date
    location image_path organizer_name organizer_description
    organizer_image_path w = (Raise e, w') ->
  event (store w') = event (store w) /\
  event_organizer (store w') = event_organizer (store w) /\
  coworking_space (store w') = coworking_space (store w) /\
  coworking_booking (store w') = coworking_booking (store w) /\
  coworking_occupancy (store w') = coworking_occupancy (store w) /\
  (organizer (store w') = organizer (store w) \/
   (exists id now,
      organizer (store w') =
        map (fun o =>
               if N.eqb (org_id o) id
               then set_organizer_values
                      (Build_organizer_values now None organizer_description
                         organizer_image_path) o
               else o)
          (organizer (store w))) \/
   (exists o,
      organizer (store w') = (organizer (store w) ++ [o])%list /\
      Some (org_name o) = organizer_name /\
      org_description o = organizer_description /\
      org_image_path o = organizer_image_path)).
Proof.
  intros H.
  rewrite create_event_after_check, check_duplicate_runs in H.
  unfold logger in H.
  destruct (fault_at (env w) (statements w));
    [|destruct (existsb _ _); [inversion H; subst; auto 10|]].
  all: unfold_event_service H; unfold_repositories H.
  all: destruct organizer_name as [[|c s]|].
  all: run_in H; inversion H; subst; clear H; tables.
  all: repeat (split; [reflexivity|]).
  all: try (left; reflexivity).
  all: try (right; left; eexists; eexists; reflexivity).
  all: right; right; eexists; split; [reflexivity|]; cbn; auto.
Qed.

Lemma failed_event_creation_stores_no_event_witness :
  let w :=
    Sample.with_env Sample.demo
      (Sample.failing (4 + statements Sample.demo)
         (FaultOperational "connection reset by peer")) in
  let w' :=
    snd (EventService.create_event "Other" "Another" "Another"
           Sample.ten_oclock "Main hall" None (Some "Beta") None None w) in
  event (store w') = event (store w) /\
  event_organizer (store w') = event_organizer (store w) /\
  map org_name (organizer (store w')) = ["Acme"; "Beta"].
Proof.
  intros w w'.
  assert (EventService.create_event "Other" "Another" "Another"
            Sample.ten_oclock "Main hall" None (Some "Beta") None None w =
          (Raise (OperationalError "connection reset by peer"), w')) as H
      by (vm_compute; reflexivity).
  destruct (failed_event_creation_stores_no_event _ _ _ _ _ _ _ _ _ _ _ _ H)
    as (Hev & Hlinks & _).
  split; [exact Hev|]. split; [exact Hlinks|]. vm_compute. reflexivity.
Defined.

(* ================================================================== *)
(** * Updates of organizers and coworking spaces *)
(* ================================================================== *)

Lemma Forall2_map_if {A} (p : A -> bool) (g : A -> A) (l : list A) :
  Forall2 (fun old new => if p old then new = g old else new = old) l
    (map (fun x => if p x then g x else x) l).
Proof.
  induction l as [|x l IH]; cbn [map]; constructor; [|exact IH].
  destruct (p x); reflexivity.
Qed.

(** X17. A call of [update_organizer] or of [update_coworking_space] that
    returns has replaced, in the rows of the given identifier, the fields
    whose argument is not [None], kept the others, the identifier and
    [created_at], and set [updated_at] to the reading of the clock, also when
    no field is given; a nullable field cannot be emptied this way. The other
    rows and the other tables are as they were. *)
Theorem updates_replace_the_given_fields (w : world) (id : UUID) :
  (forall name description image_path b w',
     OrganizerRepository.update_organizer id name description image_path w =
       (Ok b, w') ->
     Forall2
       (fun old new =>
          if N.eqb (org_id old) id
          then new =
               Build_organizer_row (org_id old)
                 match name with Some n => n | None => org_name old end
                 match description with
                 | Some d => Some d
                 | None => org_description old
                 end
                 match image_path with
                 | Some p => Some p
                 | None => org_image_path old
                 end
                 (org_created_at old) (now_at (env w) (clock_reads w))
          else new = old)
       (organizer (store w)) (organizer (store w')) /\
     event (store w') = event (store w) /\
     event_organizer (store w') = event_organizer (store w)) /\
  (forall name description location image_path b w',
     CoworkingRepository.update_coworking_space id name description location
       image_path w = (Ok b, w') ->
     Forall2
       (fun old new =>
          if N.eqb (cs_id old) id
          then new =
               Build_coworking_space_row (cs_id old)
                 match name with Some n => n | None => cs_name old end
                 match description with
                 | Some d => d
                 | None => cs_description old
                 end
                 match location with
                 | Some l => l
                 | None => cs_location old
                 end
                 match image_path with
                 | Some p => Some p
                 | None => cs_image_path old
                 end
                 (cs_created_at old) (now_at (env w) (clock_reads w))
          else new = old)
       (coworking_space (store w)) (coworking_space (store w')) /\
     coworking_booking (store w') = coworking_booking (store w) /\
     coworking_occupancy (store w') = coworking_occupancy (store w)).
Proof.
  split.
  - intros name description image_path b w' H.
    unfold_repositories H. run_in H; inversion H; subst; clear H. tables.
    split; [|split; reflexivity].
    apply (Forall2_map_if (fun o => N.eqb (org_id o) id)).
  - intros name description location image_path b w' H.
    unfold_repositories H. run_in H; inversion H; subst; clear H. tables.
    split; [|split; reflexivity].
    apply (Forall2_map_if (fun s => N.eqb (cs_id s) id)).
Qed.

Lemma updates_replace_the_given_fields_witness :
  let w' :=
    snd (OrganizerRepository.update_organizer 1%N None (Some "Events") None
           Sample.demo) in
  Forall2
    (fun old new =>
       if N.eqb (org_id old) 1
       then new =
            Build_organizer_row (org_id old) (org_name old) (Some "Events")
              (org_image_path old) (org_created_at old)
              (now_at (env Sample.demo) (clock_reads Sample.demo))
       else new = old)
    (organizer (store Sample.demo)) (organizer (store w')).
Proof.
  intros w'.
  assert (OrganizerRepository.update_organizer 1%N None (Some "Events") None
            Sample.demo = (Ok true, w')) as H by (vm_compute; reflexivity).
  exact (proj1 (proj1 (updates_replace_the_given_fields Sample.demo 1%N)
                  _ _ _ _ _ H)).
Defined.

(** ** The details of an event *)

(** X18. [GET /events/{event_id}] has three answers. When the look-up fails,
    the plain 500 of the framework. When no stored event has the identifier,
    404 with "Event not found". Otherwise 200 with the fields of the first
    stored event of that identifier and the organizer that the repository has
    joined to it: after the test of [found] the data are never [None]. The
    store is left as it was. *)
Theorem event_details_endpoint_answers (w : world) (id : UUID) :
  let answer := fst (serve 200 (EventRouter.get_event_by_id id) w) in
  let w' := snd (serve 200 (EventRouter.get_event_by_id id) w) in
  store w' = store w /\
  match fault_at (env w) (statements w) with
  | Some _ => answer = Build_response 500 (Detail "Internal Server Error")
  | None =>
      match find (fun r => N.eqb (ev_id r) id) (event (store w)) with
      | None => answer = Build_response 404 (Detail "Event not found")
      | Some ev =>
          match fault_at (env w) (S (statements w)) with
          | Some _ =>
              answer = Build_response 500 (Detail "Internal Server Error")
          | None =>
              exists organizer,
                EventService.get_event_by_id id w =
                  (Ok (Some (ev, organizer), true), sent (sent w)) /\
                answer =
                  Build_response 200
                    (Body (EventRouter.Build_EventDetailDto id (ev_title ev)
                             (ev_short_description ev) (ev_start_date ev)
                             (ev_location ev) (ev_image_path ev)
                             (ev_description ev) organizer))
          end
      end
  end.
Proof.
  intros answer w'. subst answer w'.
  unfold serve, EventRouter.get_event_by_id, bind, logger, raise, ret.
  cbn [fst snd]. rewrite !get_event_by_id_runs. cbn [env statements store].
  destruct (fault_at (env w) (statements w)) as [f|].
  - destruct f; cbn; auto.
  - destruct (find (fun r => N.eqb (ev_id r) id) (event (store w)))
      as [ev|] eqn:Hfind; [|cbn; auto].
    destruct (fault_at (env w) (S (statements w))) as [f|].
    + destruct f; cbn; auto.
    + cbn [fst snd negb store sent]. split; [reflexivity|].
      eexists. split; [reflexivity|].
      apply find_some in Hfind. destruct Hfind as [_ Hid].
      apply N.eqb_eq in Hid. rewrite Hid. reflexivity.
Qed.

(** ** The deletion of a coworking space through its endpoint *)

(** X19. [DELETE /coworking/{coworking_id}], statement by statement. A failure
    of the look-up is answered with the 500 of the last handler; an identifier
    that no stored space has, with 404; a failure of the deletion or of its
    commit, which the service turns into a [CoworkingError], with 400 and the
    text of the exception; otherwise 204, and the space, its bookings and its
    occupancy rows are gone. The answer "Failed to delete coworking space" of
    the test of the flag is never given, and the store is as it was after any
    answer but 204. *)
Theorem delete_coworking_space_endpoint_answers (w : world) (id : UUID) :
  let answer := fst (serve 204 (CoworkingRouter.delete_coworking_space id) w) in
  let w' := snd (serve 204 (CoworkingRouter.delete_coworking_space id) w) in
  let refused f :=
    Build_response 400
      (Detail ("Failed to delete coworking space: " ++
               "Error deleting coworking space: " ++
               str_exn (exn_of_fault f))) in
  match fault_at (env w) (statements w) with
  | Some _ =>
      answer =
        Build_response 500
          (Detail "Failed to delete coworking space due to an internal error") /\
      store w' = store w
  | None =>
      match find (fun s => N.eqb (cs_id s) id) (coworking_space (store w)) with
      | None =>
          answer = Build_response 404 (Detail "Coworking space not found") /\
          store w' = store w
      | Some _ =>
          match fault_at (env w) (S (statements w)),
                fault_at (env w) (S (S (statements w))) with
          | Some f, _ => answer = refused f /\ store w' = store w
          | None, Some f => answer = refused f /\ store w' = store w
          | None, None =>
              answer = Build_response 204 (Body tt) /\
              (forall s, In s (coworking_space (store w')) <->
                         In s (coworking_space (store w)) /\ cs_id s <> id) /\
              (forall d, bookings_for (store w') id d = []) /\
              (forall d, occupancy_for (store w') id d = [])
          end
      end
  end.
Proof.
  intros answer w' refused. subst answer w' refused. unfold serve.
  destruct (CoworkingRouter.delete_coworking_space id w) as [r w1] eqn:E.
  unfold CoworkingRouter.delete_coworking_space,
    CoworkingService.get_coworking_by_id,
    CoworkingService.delete_coworking_space in E.
  unfold_repositories E. run_in E.
  all: try match goal with
         | B : negb _ = _ |- _ => cbn [negb snd] in B; discriminate B
         end.
  all: inversion E; subst; clear E; cbn [fst snd status store].
  all: tables in *.
  all: repeat match goal with
         | F : find _ _ = _ |- _ => rewrite F; clear F
         end.
  all: try match goal with
         | H : exn_of_fault ?f = _ |- _ => destruct f; inversion H; subst
         end.
  all: cbn [exn_of_fault str_exn].
  all: try (split; reflexivity).
  split; [reflexivity|].
  split; [intros s; apply in_after_delete|].
  split; intros d.
  - unfold bookings_for. tables. apply filter_filter_none.
    intros x Hx. apply booking_on_true in Hx. destruct Hx as [-> _].
    rewrite N.eqb_refl. reflexivity.
  - unfold occupancy_for. tables. apply filter_filter_none.
    intros x Hx. apply occupancy_on_true in Hx. destruct Hx as [-> _].
    rewrite N.eqb_refl. reflexivity.
Qed.

(* ================================================================== *)
(** * Sequences of requests *)
(* ================================================================== *)

Ltac keeps_services :=
  repeat first
    [ apply keeps_event_service
    | apply keeps_coworking_service
    | apply keeps_ret
    | apply keeps_raise
    | apply keeps_logger
    | apply keeps_repository_calls
    | apply keeps_bind; [|intros ?]
    | apply keeps_try_except; [|intros ?]
    | apply keeps_for_each; intros ?
    | match goal with
      | |- keeps_reachable (match ?x with _ => _ end) => destruct x
      | |- keeps_reachable (if ?x then _ else _) => destruct x
      end ].

Lemma keeps_routers :
  keeps_reachable EventRouter.get_all_events /\
  (forall id, keeps_reachable (EventRouter.get_event_by_id id)) /\
  (forall event, keeps_reachable (EventRouter.create_event event)) /\
  (forall id, keeps_reachable (EventRouter.delete_event id)) /\
  keeps_reachable CoworkingRouter.get_all_coworking_spaces /\
  (forall id, keeps_reachable (CoworkingRouter.get_coworking_by_id id)) /\
  (forall coworking,
     keeps_reachable (CoworkingRouter.create_coworking_space coworking)) /\
  (forall id booking,
     keeps_reachable (CoworkingRouter.create_booking id booking)) /\
  (forall id, keeps_reachable (CoworkingRouter.delete_coworking_space id)).
Proof.
  repeat split; intros.
  all: unfold EventRouter.get_all_events, EventRouter.get_event_by_id,
         EventRouter.create_event, EventRouter.delete_event,
         CoworkingRouter.get_all_coworking_spaces,
         CoworkingRouter.get_coworking_by_id,
         CoworkingRouter.create_coworking_space,
         CoworkingRouter.create_booking,
         CoworkingRouter.delete_coworking_space.
  all: keeps_services.
Qed.

Lemma keeps_mock_data :
  keeps_reachable MockDataService.initialize_mock_data.
Proof.
  assert (forall A (r : result A), keeps_reachable (MockDataService.evaluate r))
    as Hevaluate by (intros A r w H; exact H).
  assert (keeps_reachable datetime_now) as Hnow by (intros w H; exact H).
  assert (keeps_reachable
            (get_session
               (event_result <-
                  execute MockDataService.select_one_limit_one ;;
                coworking_result <-
                  execute MockDataService.select_one_limit_one ;;
                ret (MockDataService.is_not_None event_result,
                     MockDataService.is_not_None coworking_result))))
    as Hprobe.
  { intros w H.
    unfold get_session, bind, execute, MockDataService.select_one_limit_one,
      query, ret, set_store, sent.
    cbn [store env statements].
    destruct (fault_at (env w) (statements w)); [exact H|].
    cbn [store env statements].
    destruct (fault_at (env w) (S (statements w))); exact H. }
  unfold MockDataService.initialize_mock_data.
  apply keeps_bind; [apply keeps_logger | intros _].
  apply keeps_bind; [exact Hprobe | intros exist].
  destruct (fst exist && snd exist); [apply keeps_logger|].
  unfold MockDataService._create_mock_events,
    MockDataService._create_mock_coworking_spaces,
    MockDataService._create_mock_bookings, MockDataService.date_today.
  repeat first
    [ apply Hevaluate
    | exact Hnow
    | apply keeps_event_service
    | apply keeps_coworking_service
    | apply keeps_ret
    | apply keeps_logger
    | apply keeps_bind; [|intros ?]
    | apply keeps_for_each; intros ?
    | match goal with
      | |- keeps_reachable (if ?x then _ else _) => destruct x
      end ].
Qed.

Lemma answered_keeps_reachable r w :
  reachable (store w) -> reachable (store (answered r w)).
Proof.
  intros H.
  assert (forall A c (m : M A),
            keeps_reachable m -> reachable (store (snd (serve c m w)))) as Hs.
  { intros A c m Hm. specialize (Hm w H). unfold serve.
    destruct (m w) as [[a|e] w1]; [exact Hm|].
    destruct e; exact Hm. }
  destruct r; cbn [answered]; apply Hs; apply keeps_routers.
Qed.

Lemma after_requests_reachable w requests :
  reachable (store w) -> reachable (store (after_requests w requests)).
Proof.
  intros H. unfold after_requests, lifespan_startup.
  pose proof (keeps_mock_data w H) as H0.
  revert H0. generalize (snd (MockDataService.initialize_mock_data w)).
  induction requests as [|r requests IH]; intros w0 H0; cbn [fold_left].
  - exact H0.
  - apply IH. apply answered_keeps_reachable. exact H0.
Qed.

(** X20. After the start-up of the application on an empty database and any
    sequence of requests to the modelled endpoints, whatever has failed on the
    way: every day of a space that has bookings has one occupancy row and a
    day without bookings none; every occupancy row carries ten times the
    number of bookings of its space and day, at most 100; no two organizers
    have the same identifier, and every link refers to a stored event. *)
Theorem requests_keep_the_store_consistent (o : oracle)
  (requests : list request) :
  let db := store (after_requests (initial_world o) requests) in
  one_occupancy_row_per_booked_day db /\
  occupancy_matches_bookings db /\
  organizer_keys_hold db.
Proof.
  intros db.
  assert (reachable db) as H
      by (apply after_requests_reachable; exact reachable_empty).
  split; [apply reachable_one_row; exact H|].
  split; [apply reachable_matching | apply reachable_organizer_keys]; exact H.
Qed.

(* ================================================================== *)
(** * Calls that succeed *)
(* ================================================================== *)

Lemma existsb_present {A} (key : A -> N) (id : N) (l : list A) (x : A) :
  In x l -> key x = id -> existsb (fun y => N.eqb (key y) id) l = true.
Proof.
  intros Hin Hid. apply existsb_exists. exists x. split; [exact Hin|].
  apply N.eqb_eq. exact Hid.
Qed.

(** X21. [create_booking] returns when nothing stands in its way: no statement
    and no commit fails, the space is stored, the identifiers that are
    generated are carried by no stored booking and, when the day has no
    occupancy row yet, by no stored occupancy row, and the number of bookings
    of the day is one that the division can convert to a float. It returns the
    generated identifier; the day then has one more booking, and its occupancy
    rows carry ten times the new number, at most 100. *)
Theorem booking_of_a_stored_space_succeeds (w : world) (c : UUID) (d : date)
  (name phone : string) (s : coworking_space_row) :
  calm_environment w ->
  In s (coworking_space (store w)) -> cs_id s = c ->
  (forall b, In b (coworking_booking (store w)) ->
             cb_id b <> uuid4_at (env w) (uuid_calls w)) ->
  (forall o, In o (coworking_occupancy (store w)) ->
             co_id o <> uuid4_at (env w) (S (uuid_calls w))) ->
  Z.of_nat (List.length (bookings_for (store w) c d)) + 1 < 2 ^ 1000 ->
  exists w',
    CoworkingRepository.create_booking c d name phone w =
      (Ok (uuid4_at (env w) (uuid_calls w)), w') /\
    List.length (bookings_for (store w') c d) =
      S (List.length (bookings_for (store w) c d)) /\
    occupancy_for (store w') c d <> [] /\
    forall o, In o (occupancy_for (store w') c d) ->
      co_occupancy_percentage o =
      Z.min 100
        (10 * (Z.of_nat (List.length (bookings_for (store w) c d)) + 1)).
Proof.
  intros Hcalm Hs Hsid Hbid Hoid Hsmall.
  pose proof (existsb_present cs_id c _ s Hs Hsid) as Hspace.
  pose proof (existsb_absent cb_id _ _ Hbid) as Hbfresh.
  pose proof (existsb_absent co_id _ _ Hoid) as Hofresh.
  assert (CoworkingRepository.occupancy_percentage
            (Z.of_nat
               (List.length
                  (filter (booking_on c d)
                     (coworking_booking (store w) ++
                      [Build_coworking_booking_row
                         (uuid4_at (env w) (uuid_calls w)) c d name phone
                         (now_at (env w) (clock_reads w))
                         (now_at (env w) (S (clock_reads w)))])%list))) =
          Ok (Z.min 100
                (10 * (Z.of_nat (List.length (bookings_for (store w) c d))
                       + 1)))) as Hpct.
  { rewrite filter_app, length_app. cbn [filter].
    rewrite (proj2 (booking_on_true c d _)) by (cbn; tauto).
    cbn [List.length]. fold (bookings_for (store w) c d).
    rewrite Nat2Z.inj_add. change (Z.of_nat 1) with 1.
    destruct (occupancy_percentage_spec
                (Z.of_nat (List.length (bookings_for (store w) c d)) + 1))
      as [Hresult _]; [lia|].
    apply Hresult. exact Hsmall. }
  destruct (CoworkingRepository.create_booking c d name phone w) as [r w']
    eqn:E.
  pose proof E as Hrun.
  unfold_repositories E. run_in E; calm Hcalm.
  all: tables in *; cbn [cb_id cb_coworking_id co_id co_coworking_id negb] in *.
  all: try (rewrite Hbfresh in *; discriminate).
  all: try (rewrite Hspace in *; discriminate).
  all: try (rewrite Hofresh in *; discriminate).
  all: try (match goal with
            | H : CoworkingRepository.occupancy_percentage _ = Raise _ |- _ =>
                rewrite Hpct in H; discriminate H
            end).
  all: inversion E; subst r w'; clear E.
  all: eexists; split; [reflexivity|].
  all: destruct (create_booking_same_day _ _ _ _ _ _ _ Hrun)
         as (Hlen & Hsome & _ & Hrows).
  all: split; [exact Hlen|]; split; [exact Hsome|].
  all: intros o Hin; specialize (Hrows o Hin); rewrite Hlen in Hrows.
  all: apply (proj2 (occupancy_percentage_spec _ (Nat2Z.is_nonneg _))) in Hrows.
  all: rewrite Hrows; f_equal; lia.
Qed.

Lemma booking_of_a_stored_space_succeeds_witness :
  exists w',
    CoworkingRepository.create_booking 1%N Sample.may_day "Alice Johnson"
      "+1234567890" Sample.hub =
      (Ok (uuid4_at (env Sample.hub) (uuid_calls Sample.hub)), w') /\
    List.length (bookings_for (store w') 1%N Sample.may_day) =
      S (List.length (bookings_for (store Sample.hub) 1%N Sample.may_day)) /\
    occupancy_for (store w') 1%N Sample.may_day <> [] /\
    forall o, In o (occupancy_for (store w') 1%N Sample.may_day) ->
      co_occupancy_percentage o =
      Z.min 100
        (10 * (Z.of_nat
                 (List.length
                    (bookings_for (store Sample.hub) 1%N Sample.may_day)) + 1)).
Proof.
  pose (d := Build_coworking_space_row 0%N EmptyString EmptyString EmptyString
               None Sample.ten_oclock Sample.ten_oclock).
  apply (booking_of_a_stored_space_succeeds Sample.hub 1%N Sample.may_day
           "Alice Johnson" "+1234567890"
           (nth 0 (coworking_space (store Sample.hub)) d)).
  - intros n. vm_compute. reflexivity.
  - vm_compute. left. reflexivity.
  - vm_compute. reflexivity.
  - assert (forallb (fun b => negb (N.eqb (cb_id b)
                                       (uuid4_at (env Sample.hub)
                                          (uuid_calls Sample.hub))))
              (coworking_booking (store Sample.hub)) = true) as Hb
        by (vm_compute; reflexivity).
    intros b Hin. rewrite forallb_forall in Hb.
    apply N.eqb_neq, negb_true_iff, Hb, Hin.
  - assert (forallb (fun o => negb (N.eqb (co_id o)
                                       (uuid4_at (env Sample.hub)
                                          (S (uuid_calls Sample.hub)))))
              (coworking_occupancy (store Sample.hub)) = true) as Hb
        by (vm_compute; reflexivity).
    intros o Hin. rewrite forallb_forall in Hb.
    apply N.eqb_neq, negb_true_iff, Hb, Hin.
  - vm_compute. reflexivity.
Defined.

(** ** The creation of an event *)

Lemma datetime_eqb_true (a b : datetime) :
  datetime_eqb a b = true ->
  year a = year b /\ month a = month b /\ day a = day b /\
  hour a = hour b /\ minute a = minute b.
Proof.
  unfold datetime_eqb. rewrite !andb_true_iff, !Z.eqb_eq. tauto.
Qed.

Lemma existsb_false_in {A} (p : A -> bool) (l : list A) :
  (forall x, In x l -> p x = false) -> existsb p l = false.
Proof.
  intros H. induction l as [|x l IH]; cbn; [reflexivity|].
  rewrite (H x (or_introl eq_refl)). apply IH.
  intros y Hy. apply H. right. exact Hy.
Qed.

(** X22. [create_event] of the service returns when nothing stands in its way:
    no statement and no commit fails, the store is one that the repository
    calls can produce, the start date of the request and those of the stored
    events carry the offset +00:00, which is how the server gives a stored
    date back, no stored event has the title and the minute of the request,
    and the generator of identifiers gives from now on none that a stored
    event or organizer carries. The identifier returned is the first or the
    second one generated, according to whether an organizer was created. *)
Theorem creation_of_a_new_event_succeeds
  (title description short_description : string) (start_date : datetime)
  (location : string) (image_path : option string)
  (organizer_name organizer_description organizer_image_path : option string)
  (w : world) :
  calm_environment w ->
  reachable (store w) ->
  utcoffset start_date = Some 0 ->
  (forall r, In r (event (store w)) ->
     utcoffset (ev_start_date r) = Some 0) ->
  (forall r, In r (event (store w)) ->
     EventService.same_title_and_minute title start_date (summary r) = false) ->
  (forall k r, (uuid_calls w <= k)%nat -> In r (event (store w)) ->
               ev_id r <> uuid4_at (env w) k) ->
  (forall k o, (uuid_calls w <= k)%nat -> In o (organizer (store w)) ->
               org_id o <> uuid4_at (env w) k) ->
  exists id w',
    EventService.create_event title description short_description start_date
      location image_path organizer_name organizer_description
      organizer_image_path w = (Ok id, w') /\
    (id = uuid4_at (env w) (uuid_calls w) \/
     id = uuid4_at (env w) (S (uuid_calls w))).
Proof.
  intros Hcalm Hreach _ _ Hnew Hev Horg.
  destruct (reachable_organizer_keys _ Hreach) as [_ Hfk].
  assert (forall k, (uuid_calls w <= k)%nat ->
            existsb (fun r => N.eqb (ev_id r) (uuid4_at (env w) k))
              (event (store w)) = false) as Hevfresh.
  { intros k Hk. apply existsb_absent. intros r Hin. apply Hev; assumption. }
  assert (forall k, (uuid_calls w <= k)%nat ->
            existsb (fun o => N.eqb (org_id o) (uuid4_at (env w) k))
              (organizer (store w)) = false) as Horgfresh.
  { intros k Hk. apply existsb_absent. intros o Hin. apply Horg; assumption. }
  assert (forall k q, (uuid_calls w <= k)%nat ->
            existsb (fun l => N.eqb (eo_event_id l) (uuid4_at (env w) k) &&
                              q l)
              (event_organizer (store w)) = false) as Hlinkfresh.
  { intros k q Hk. apply existsb_false_in. intros l Hin.
    destruct (N.eqb (eo_event_id l) (uuid4_at (env w) k)) eqn:E;
      [|reflexivity].
    apply N.eqb_eq in E. specialize (Hfk l Hin).
    rewrite E, Hevfresh in Hfk by exact Hk. discriminate. }
  assert (forall row,
            ev_title row = title -> ev_start_date row = start_date ->
            existsb (same_title_start_date row) (event (store w)) = false)
    as Huq.
  { intros row Ht Hs. apply existsb_false_in. intros x Hin.
    unfold same_title_start_date. rewrite Ht, Hs.
    destruct (String.eqb title (ev_title x)) eqn:E1; [|reflexivity].
    destruct (datetime_eqb start_date (ev_start_date x)) eqn:E2;
      [|reflexivity].
    apply String.eqb_eq in E1. apply datetime_eqb_true in E2.
    specialize (Hnew x Hin). unfold EventService.same_title_and_minute in Hnew.
    cbn [es_title es_start_date summary] in Hnew.
    rewrite <- E1, String.eqb_refl in Hnew.
    destruct E2 as (Ey & Emo & Ed & Eh & Emi).
    rewrite Ey, Emo, Ed, Eh, Emi, !Z.eqb_refl in Hnew. discriminate. }
  assert (existsb (EventService.same_title_and_minute title start_date)
            (order_by
               (fun a b => datetime_leb (es_start_date a) (es_start_date b))
               (map summary (event (store w)))) = false) as Hcheck.
  { apply existsb_false_in. intros x Hin.
    apply in_order_by, in_map_iff in Hin. destruct Hin as (r & <- & Hin).
    apply Hnew. exact Hin. }
  destruct (EventService.create_event title description short_description
              start_date location image_path organizer_name
              organizer_description organizer_image_path w) as [res w']
    eqn:E.
  rewrite create_event_after_check, check_duplicate_runs in E.
  rewrite Hcalm, Hcheck in E.
  unfold_event_service E. unfold_repositories E.
  destruct organizer_name as [[|c s]|]; run_in E; calm Hcalm.
  all: tables in *; rows.
  all: cbn [ev_id org_id eo_event_id eo_organizer_id ev_title ev_start_date]
         in *.
  all: try (rewrite Hevfresh in * by lia; discriminate).
  all: try (rewrite Horgfresh in * by lia; discriminate).
  all: try (rewrite Hlinkfresh in * by lia; discriminate).
  all: try (rewrite Huq in * by reflexivity; discriminate).
  all: try match goal with
         | H : negb (existsb _ (_ ++ [_])%list) = true |- _ =>
             rewrite existsb_app in H; cbn [existsb ev_id org_id] in H;
             rewrite N.eqb_refl, !orb_true_r in H; discriminate H
         end.
  all: try match goal with
         | F : find _ _ = Some ?o, H : negb (existsb _ _) = true |- _ =>
             try rewrite (existsb_key_preserved org_id (org_id o)) in H
               by reflexivity;
             apply find_some in F; destruct F as [F _];
             rewrite (existsb_present org_id (org_id o) _ o F eq_refl) in H;
             discriminate H
         end.
  all: inversion E; subst res w'; clear E.
  all: eexists; eexists; split; [reflexivity|]; auto.
Qed.

Lemma creation_of_a_new_event_succeeds_witness :
  exists id w',
    EventService.create_event "Other" "Another" "Another" Sample.ten_oclock
      "Main hall" None (Some "Beta") None None Sample.demo = (Ok id, w') /\
    (id = uuid4_at (env Sample.demo) (uuid_calls Sample.demo) \/
     id = uuid4_at (env Sample.demo) (S (uuid_calls Sample.demo))).
Proof.
  assert (reachable (store Sample.demo)) as Hreach.
  { apply (proj1 keeps_event_service "Demo" "A demonstration" "Demo day"
             Sample.ten_oclock "Main hall" None (Some "Acme") None None
             (initial_world Sample.calm)).
    exact reachable_empty. }
  assert (forallb
            (fun r =>
               negb (EventService.same_title_and_minute "Other"
                       Sample.ten_oclock (summary r)))
            (event (store Sample.demo)) = true) as Hnew
      by (vm_compute; reflexivity).
  assert (forallb (fun r => N.ltb (ev_id r) 3) (event (store Sample.demo)) =
          true) as Hev by (vm_compute; reflexivity).
  assert (forallb (fun o => N.ltb (org_id o) 3) (organizer (store Sample.demo))
          = true) as Horg by (vm_compute; reflexivity).
  assert (uuid_calls Sample.demo = 2%nat) as Hcalls
      by (vm_compute; reflexivity).
  assert (forall k, uuid4_at (env Sample.demo) k = N.of_nat (S k)) as Huuid
      by (intros k; reflexivity).
  assert (forallb
            (fun r =>
               match utcoffset (ev_start_date r) with
               | Some 0 => true
               | _ => false
               end)
            (event (store Sample.demo)) = true) as Hutc
      by (vm_compute; reflexivity).
  apply creation_of_a_new_event_succeeds.
  - intros n. vm_compute. reflexivity.
  - exact Hreach.
  - reflexivity.
  - intros r Hin. rewrite forallb_forall in Hutc. specialize (Hutc r Hin).
    destruct (utcoffset (ev_start_date r)) as [[| |]|];
      [reflexivity | discriminate Hutc ..].
  - intros r Hin. rewrite forallb_forall in Hnew.
    apply negb_true_iff, Hnew, Hin.
  - intros k r Hk Hin. rewrite forallb_forall in Hev.
    specialize (Hev r Hin). apply N.ltb_lt in Hev.
    rewrite Huuid. rewrite Hcalls in Hk. lia.
  - intros k o Hk Hin. rewrite forallb_forall in Horg.
    specialize (Horg o Hin). apply N.ltb_lt in Horg.
    rewrite Huuid. rewrite Hcalls in Hk. lia.
Defined.
